(** * node-signpdf: the [SignPdf] class of [src/signpdf.js]

    A shallow embedding of [SignPdf.sign] and [SignPdf.verify].

    - A Node [Buffer] is a [list byte]; a JavaScript string is a [string]
      whose characters are single bytes. That is exact for the "binary"
      strings of node-forge and for ASCII text, where bytes, characters
      and UTF-16 code units are the same: every string [sign] builds is
      one of the two as long as [byteRangePlaceholder] is ASCII, as the
      default is. A placeholder with other characters is outside the
      embedding ([Buffer.from] and [indexOf] would encode it as UTF-8
      while [.length] counts its UTF-16 code units).
    - A JavaScript Number holding an integer is a [Z].
    - A call that may throw returns a [result]; [sign] also threads the
      signer instance ([this]) because it assigns [this.lastSignature].
    - node-forge and Node's [crypto] are an interface ([Toolkit]); its
      operations fail with errors of their own, never with a [SignPdfError].
    - The helpers of [./helpers] are not among the sources: they are
      parameters of the methods that call them. *)

From Stdlib Require Import ZArith List Lia Bool.
From Stdlib.Strings Require Import String Ascii Byte.
Import ListNotations.

Local Open Scope string_scope.
Local Open Scope Z_scope.

(* ================================================================= *)
(** ** Errors and results *)

(** [SignPdfError.TYPE_INPUT], [TYPE_PARSE] and [VERIFY_SIGNATURE]. *)
Inductive ErrorType := TYPE_INPUT | TYPE_PARSE | VERIFY_SIGNATURE.

(** What a [throw] can carry: the repository's [SignPdfError], or an error
    raised by the JavaScript runtime or by a library. *)
Inductive exn :=
| SignPdfError (message : string) (type : ErrorType)
| TypeError
| RangeError
| LibraryError (message : string).

Inductive result (A : Type) :=
| Return (a : A)
| Throw (e : exn).
Arguments Return {A} a.
Arguments Throw {A} e.

Definition bind {A B} (m : result A) (f : A -> result B) : result B :=
  match m with
  | Return a => f a
  | Throw e => Throw e
  end.

(** A library call: it fails with a message, which is thrown as a
    library error. *)
Definition lib {A} (r : string + A) : result A :=
  match r with
  | inl msg => Throw (LibraryError msg)
  | inr a => Return a
  end.

Declare Scope js_scope.
Delimit Scope js_scope with js.
Notation "x <- m ;; k" := (bind m (fun x => k))
  (at level 61, m at next level, right associativity) : js_scope.
Notation "' pat <- m ;; k" := (bind m (fun x => match x with pat => k end))
  (at level 61, pat pattern, m at next level, right associativity) : js_scope.
Local Open Scope js_scope.

(** [err instanceof SignPdfError] *)
Definition instanceofSignPdfError (e : exn) : bool :=
  match e with
  | SignPdfError _ _ => true
  | _ => false
  end.

(** [err.message] of a [SignPdfError]. *)
Definition exn_message (e : exn) : string :=
  match e with
  | SignPdfError m _ => m
  | LibraryError m => m
  | TypeError => "TypeError"
  | RangeError => "RangeError"
  end.

(* ================================================================= *)
(** ** JavaScript strings and numbers *)

Module JS.

(** [String(n)] for an integer Number: its decimal digits, computed from
    the least significant one. The fuel is the bit length of the number,
    which bounds its number of decimal digits. *)
Definition digit (d : Z) : ascii := ascii_of_nat (48 + Z.to_nat d).

Fixpoint digits (fuel : nat) (n : Z) (acc : string) : string :=
  match fuel with
  | O => String (digit (n mod 10)) acc
  | S fuel' =>
      if n <? 10 then String (digit n) acc
      else digits fuel' (n / 10) (String (digit (n mod 10)) acc)
  end.

Definition toString (n : Z) : string :=
  if n <? 0 then String "-" (digits (Z.to_nat (Z.log2 (- n))) (- n) "")
  else digits (Z.to_nat (Z.log2 n)) n "".

(** The number that a string of decimal digits denotes, after the
    digits read so far gave [acc]. *)
Fixpoint value_of (s : string) (acc : Z) : Z :=
  match s with
  | EmptyString => acc
  | String c s' => value_of s' (10 * acc + (Z.of_nat (nat_of_ascii c) - 48))
  end.

(** [s.repeat(count)] for an integral [count]: a negative count throws a
    RangeError. *)
Fixpoint repeat_nat (s : string) (n : nat) : string :=
  match n with
  | O => ""
  | S n' => s ++ repeat_nat s n'
  end.

Definition repeat (s : string) (count : Z) : result string :=
  if count <? 0 then Throw RangeError
  else Return (repeat_nat s (Z.to_nat count)).

(** [s.toUpperCase()] on ASCII letters. *)
Definition upper (c : ascii) : ascii :=
  let n := nat_of_ascii c in
  if ((97 <=? n)%nat && (n <=? 122)%nat)%bool then ascii_of_nat (n - 32) else c.

Fixpoint toUpperCase (s : string) : string :=
  match s with
  | EmptyString => EmptyString
  | String c s' => String (upper c) (toUpperCase s')
  end.

End JS.

(* ================================================================= *)
(** ** Node Buffers *)

Definition Buffer := list byte.

Module Buf.

(** [Buffer.from(s)] and [Buffer.from(s, 'binary')]: one byte per
    character. [buf.toString('binary')] is the inverse. *)
Definition from (s : string) : Buffer := list_byte_of_string s.
Definition toString_binary (b : Buffer) : string := string_of_list_byte b.

Definition length (b : Buffer) : Z := Z.of_nat (List.length b).

(** Node's [adjustOffset]: a negative offset counts from the end, and
    the result is clamped to [0, length]. *)
Definition adjustOffset (offset len : Z) : Z :=
  if offset <? 0 then Z.max 0 (offset + len)
  else if offset <? len then offset
  else len.

(** [buf.slice(start, end)] *)
Definition slice (b : Buffer) (start end_ : Z) : Buffer :=
  let s := adjustOffset start (length b) in
  let e := adjustOffset end_ (length b) in
  firstn (Z.to_nat (e - s)) (skipn (Z.to_nat s) b).

(** [buf.slice(start)] *)
Definition slice_from (b : Buffer) (start : Z) : Buffer :=
  slice b start (length b).

(** [Buffer.concat(list)] *)
Definition concat (l : list Buffer) : Buffer := List.concat l.

Definition byte_eqb (x y : byte) : bool := Byte.eqb x y.

(** Does [needle] occur at the head of [hay]? *)
Fixpoint starts_with (needle hay : Buffer) : bool :=
  match needle, hay with
  | [], _ => true
  | _ :: _, [] => false
  | x :: needle', y :: hay' => byte_eqb x y && starts_with needle' hay'
  end.

(** First position, counted from [pos], at which [needle] occurs in
    [hay]; [-1] when there is none. *)
Fixpoint search (needle hay : Buffer) (pos : Z) : Z :=
  if starts_with needle hay then pos
  else match hay with
       | [] => -1
       | _ :: hay' => search needle hay' (pos + 1)
       end.

(** [buf.indexOf(value, byteOffset)] for a string [value]: a negative
    [byteOffset] counts from the end of the buffer. *)
Definition indexOf (b : Buffer) (value : string) (byteOffset : Z) : Z :=
  let len := length b in
  let start := if byteOffset <? 0 then Z.max 0 (len + byteOffset) else byteOffset in
  if len <? start then -1
  else search (from value) (skipn (Z.to_nat start) b) start.

(** [buf.toString('hex')]: two lowercase hexadecimal digits a byte. *)
Definition hex_digit (n : N) : ascii :=
  if (n <? 10)%N then ascii_of_N (48 + n) else ascii_of_N (87 + n).

Fixpoint toString_hex (b : Buffer) : string :=
  match b with
  | [] => ""
  | x :: b' =>
      let n := Byte.to_N x in
      String (hex_digit (n / 16)) (String (hex_digit (n mod 16)) (toString_hex b'))
  end.

End Buf.

(* ================================================================= *)
(** ** Values of the caller and of node-forge *)

(** A JavaScript value as a caller can pass it to [sign] or [verify]. *)
Inductive value :=
| VUndefined
| VNull
| VNumber (n : Z)
| VString (s : string)
| VBuffer (b : Buffer).

(** The values [verify] walks through: forge's ASN.1 objects
    [{tagClass, type, constructed, value}], whose [value] is a binary
    string or an array, and what property accesses on them can yield. *)
Unset Elimination Schemes.
Inductive jsv :=
| JUndefined
| JString (s : string)
| JArray (l : list jsv)
| JAsn1 (tagClass type : Z) (constructed : bool) (value : jsv).
Set Elimination Schemes.

(** [x.value]: reading a property of [undefined] throws; a string or an
    array has no such property. *)
Definition get_value (x : jsv) : result jsv :=
  match x with
  | JUndefined => Throw TypeError
  | JAsn1 _ _ _ v => Return v
  | JString _ | JArray _ => Return JUndefined
  end.

(** [x[i]] *)
Definition get_index (x : jsv) (i : nat) : result jsv :=
  match x with
  | JUndefined => Throw TypeError
  | JString s =>
      match String.get i s with
      | Some c => Return (JString (String c ""))
      | None => Return JUndefined
      end
  | JArray l => Return (nth i l JUndefined)
  | JAsn1 _ _ _ _ => Return JUndefined
  end.

(** [s === x] for a string [s]. *)
Definition strict_eq_string (s : string) (x : jsv) : bool :=
  match x with
  | JString s' => String.eqb s s'
  | _ => false
  end.

(** [array.find(callback)] with a callback that may throw. *)
Fixpoint find_array (callback : jsv -> result bool) (l : list jsv) : result jsv :=
  match l with
  | [] => Return JUndefined
  | x :: rest =>
      hit <- callback x ;;
      if (hit : bool) then Return x else find_array callback rest
  end.

(** [x.find(callback)]: only an array has the method. *)
Definition find (x : jsv) (callback : jsv -> result bool) : result jsv :=
  match x with
  | JArray l => find_array callback l
  | _ => Throw TypeError
  end.

(** RSA keys as forge holds them: [n] and [e] are BigIntegers. *)
Record PublicKey := { pub_n : Z; pub_e : Z }.
Record PrivateKey := { n : Z; e : Z; d : Z }.

(** [a.compareTo(b)] on BigIntegers. *)
Definition compareTo (a b : Z) : Z :=
  match a ?= b with
  | Lt => -1
  | Eq => 0
  | Gt => 1
  end.

(** A parsed certificate: its public key and the rest of its content. *)
Record Certificate := { publicKey : PublicKey; tbs : string }.
Record CertBag := { cert : Certificate }.
Record KeyBag := { key : PrivateKey }.

(** A parsed PKCS#12 container, by bag type ([p12.getBags]). *)
Record Pkcs12 := { certBags : list CertBag; keyBags : list KeyBag }.

(** The argument of [p7.addSigner]. *)
Inductive AttributeValue :=
| OidValue (oid : string)
| DateValue (time : Z).
Record Attribute := { attr_type : string; attr_value : option AttributeValue }.
Record Signer := {
  signer_key : PrivateKey;
  signer_certificate : Certificate;
  digestAlgorithm : string;
  authenticatedAttributes : list Attribute
}.

(** What [forge.pkcs7.messageFromAsn1] returns, as far as [verify]
    reads it. *)
Record RawCapture := {
  rc_signature : jsv;
  rc_authenticatedAttributes : jsv;
  rc_digestAlgorithm : jsv
}.
Record Message := { rawCapture : option RawCapture; certificates : list Certificate }.

(** [forge.pki.oids]: the object identifiers the code names. *)
Module oids.
Definition sha256 := "2.16.840.1.101.3.4.2.1".
Definition contentType := "1.2.840.113549.1.9.3".
Definition data := "1.2.840.113549.1.7.1".
Definition messageDigest := "1.2.840.113549.1.9.4".
Definition signingTime := "1.2.840.113549.1.9.5".
End oids.

(** [forge.asn1.Class.UNIVERSAL] and [forge.asn1.Type.SET]. *)
Definition Class_UNIVERSAL : Z := 0.
Definition Type_SET : Z := 17.

(** node-forge and Node's [crypto], as far as [signpdf.js] calls them.
    A call that can fail returns its error message on the left. *)
Class Toolkit := {
  (** the PKCS#7 SignedData object under construction *)
  Pkcs7 : Type;
  (** [forge.asn1.fromDer(forge.util.createBuffer(bytes))] *)
  asn1_fromDer : string -> string + jsv;
  (** [forge.asn1.toDer(obj).getBytes()] (or [.data]) *)
  asn1_toDer : jsv -> string + string;
  (** [forge.asn1.create(tagClass, type, constructed, value)] *)
  asn1_create : Z -> Z -> bool -> jsv -> jsv;
  (** [forge.asn1.derToOid(bytes)] *)
  asn1_derToOid : jsv -> string + string;
  (** [forge.pki.oids[oid]], [None] for [undefined] *)
  oids_lookup : string -> option string;
  (** [forge.pkcs12.pkcs12FromAsn1(asn1, strict, passphrase)] *)
  pkcs12FromAsn1 : jsv -> bool -> string -> string + Pkcs12;
  (** [forge.pkcs7.createSignedData()] *)
  createSignedData : Pkcs7;
  (** [p7.content = forge.util.createBuffer(bytes)] *)
  set_content : Pkcs7 -> string -> Pkcs7;
  (** [p7.addCertificate(cert)] *)
  addCertificate : Pkcs7 -> Certificate -> Pkcs7;
  (** [p7.addSigner(signer)] *)
  addSigner : Pkcs7 -> Signer -> string + Pkcs7;
  (** [p7.sign({detached: true})] *)
  sign_detached : Pkcs7 -> string + Pkcs7;
  (** [p7.toAsn1()] *)
  toAsn1 : Pkcs7 -> string + jsv;
  (** [forge.pkcs7.messageFromAsn1(asn1)] *)
  messageFromAsn1 : jsv -> string + Message;
  (** [forge.pki.certificateToPem(cert)], [None] for [undefined] *)
  certificateToPem : option Certificate -> string + string;
  (** [crypto.createVerify(alg).update(buf).verify(cert, sig, 'binary')] *)
  crypto_verify : string -> Buffer -> string -> jsv -> string + bool;
  (** [crypto.createHash(alg).update(buf).digest()] *)
  crypto_hash : string -> Buffer -> string + Buffer
}.

(* ================================================================= *)
(** ** The signer instance and its methods *)

Definition DEFAULT_BYTE_RANGE_PLACEHOLDER := "**********".

(** The fields of a [SignPdf] instance. *)
Record SignPdf := {
  byteRangePlaceholder : string;
  lastSignature : option string
}.

(** [new SignPdf()] *)
Definition constructor : SignPdf :=
  {| byteRangePlaceholder := DEFAULT_BYTE_RANGE_PLACEHOLDER;
     lastSignature := None |}.

(** A method body: it reads and writes [this] and may throw. *)
Definition method (A : Type) := SignPdf -> result A * SignPdf.

Definition ret {A} (a : A) : method A := fun this => (Return a, this).
Definition throw {A} (e : exn) : method A := fun this => (Throw e, this).
Definition lift {A} (r : result A) : method A := fun this => (r, this).
Definition mbind {A B} (m : method A) (f : A -> method B) : method B :=
  fun this =>
    match m this with
    | (Return a, this') => f a this'
    | (Throw e, this') => (Throw e, this')
    end.
Definition get_this : method SignPdf := fun this => (Return this, this).
Definition set_lastSignature (s : string) : method unit :=
  fun this =>
    (Return tt, {| byteRangePlaceholder := byteRangePlaceholder this;
                   lastSignature := Some s |}).

Declare Scope method_scope.
Delimit Scope method_scope with method.
Notation "x <-- m ;; k" := (mbind m (fun x => k))
  (at level 61, m at next level, right associativity) : method_scope.
Local Open Scope method_scope.

(** The options of [sign]; an absent property is [None]. *)
Record Options := {
  asn1StrictParsing : option bool;
  passphrase : option string
}.

(** [additionalOptions = {}] *)
Definition no_options : Options :=
  {| asn1StrictParsing := None; passphrase := None |}.

(** [strings.join(' ')] *)
Fixpoint join (l : list string) : string :=
  match l with
  | [] => ""
  | [x] => x
  | x :: rest => x ++ " " ++ join rest
  end.

(** The result of [verify]: [{verified: true}] or
    [{verified: false, message}]. *)
Record VerificationResult := {
  verified : bool;
  message : option string
}.

Section Methods.

Context {forge : Toolkit}.

(** The [forEach] over the certificate bags: every certificate is added
    to [p7], and [certificate] is assigned at every bag whose public
    key has the modulus and exponent of the private key. *)
Fixpoint forEach_certBags (privateKey : PrivateKey) (bags : list CertBag)
    (p7 : Pkcs7) (certificate : option Certificate) : Pkcs7 * option Certificate :=
  match bags with
  | [] => (p7, certificate)
  | bag :: rest =>
      let publicKey := publicKey (cert bag) in
      let p7 := addCertificate p7 (cert bag) in
      let certificate :=
        if (compareTo (n privateKey) (pub_n publicKey) =? 0)
           && (compareTo (e privateKey) (pub_e publicKey) =? 0)
        then Some (cert bag)
        else certificate in
      forEach_certBags privateKey rest p7 certificate
  end.

(** [helpers.removeTrailingNewLine], which is not among the sources:
    what it does to a buffer is not known here. It is a parameter of
    [sign], taken to return a buffer for every buffer; [sign] works on
    what it returns (line 40). *)
Variable removeTrailingNewLine : Buffer -> Buffer.

(** [sign(pdfBuffer, p12Buffer, additionalOptions)]; [now] is what
    [new Date()] reads from the clock. *)
Definition sign (now : Z) (pdfBuffer p12Buffer : value) (additionalOptions : Options)
  : method Buffer :=
  let options_asn1StrictParsing :=
    match asn1StrictParsing additionalOptions with Some b => b | None => false end in
  let options_passphrase :=
    match passphrase additionalOptions with Some s => s | None => "" end in
  match pdfBuffer with
  | VBuffer pdfBuffer =>
  match p12Buffer with
  | VBuffer p12Buffer =>
    let pdf := removeTrailingNewLine pdfBuffer in

    (* Find the ByteRange placeholder. *)
    this <-- get_this ;;
    let byteRangePlaceholder :=
      [ JS.toString 0;
        "/" ++ byteRangePlaceholder this;
        "/" ++ byteRangePlaceholder this;
        "/" ++ byteRangePlaceholder this ] in
    let byteRangeString := "/ByteRange [" ++ join byteRangePlaceholder ++ "]" in
    let byteRangePos := Buf.indexOf pdf byteRangeString 0 in
    if byteRangePos =? -1 then
      throw (SignPdfError
               ("Could not find ByteRange placeholder: " ++ byteRangeString)
               TYPE_PARSE)
    else

    (* Calculate the actual ByteRange that needs to replace the placeholder. *)
    let byteRangeEnd := byteRangePos + Z.of_nat (String.length byteRangeString) in
    let contentsTagPos := Buf.indexOf pdf "/Contents " byteRangeEnd in
    let placeholderPos := Buf.indexOf pdf "<" contentsTagPos in
    let placeholderEnd := Buf.indexOf pdf ">" placeholderPos in
    let placeholderLengthWithBrackets := (placeholderEnd + 1) - placeholderPos in
    let placeholderLength := placeholderLengthWithBrackets - 2 in
    let byteRange1 := placeholderPos in
    let byteRange2 := byteRange1 + placeholderLengthWithBrackets in
    let byteRange3 := Buf.length pdf - byteRange2 in
    let byteRange := [0; byteRange1; byteRange2; byteRange3] in
    let actualByteRange := "/ByteRange [" ++ join (map JS.toString byteRange) ++ "]" in
    padding <-- lift (JS.repeat " "
                  (Z.of_nat (String.length byteRangeString)
                   - Z.of_nat (String.length actualByteRange))) ;;
    let actualByteRange := actualByteRange ++ padding in

    (* Replace the /ByteRange placeholder with the actual ByteRange *)
    let pdf := Buf.concat [
      Buf.slice pdf 0 byteRangePos;
      Buf.from actualByteRange;
      Buf.slice_from pdf byteRangeEnd ] in

    (* Remove the placeholder signature *)
    let pdf := Buf.concat [
      Buf.slice pdf 0 byteRange1;
      Buf.slice pdf byteRange2 (byteRange2 + byteRange3) ] in

    (* Convert Buffer P12 to a forge implementation. *)
    p12Asn1 <-- lift (lib (asn1_fromDer (Buf.toString_binary p12Buffer))) ;;
    p12 <-- lift (lib (pkcs12FromAsn1 p12Asn1 options_asn1StrictParsing
                         options_passphrase)) ;;

    (* Extract safe bags by type. *)
    let certBags := certBags p12 in
    let keyBags := keyBags p12 in

    match keyBags with
    | [] => throw TypeError
    | keyBag0 :: _ =>
    let privateKey := key keyBag0 in
    (* Here comes the actual PKCS#7 signing. *)
    let p7 := createSignedData in
    let p7 := set_content p7 (Buf.toString_binary pdf) in

    (* Then add all the certificates, keeping track of the last found
       client certificate. *)
    let '(p7, certificate) := forEach_certBags privateKey certBags p7 None in

    match certificate with
    | None =>
        throw (SignPdfError
                 "Failed to find a certificate that matches the private key."
                 TYPE_INPUT)
    | Some certificate =>

    (* Add a sha256 signer. *)
    p7 <-- lift (lib (addSigner p7
             {| signer_key := privateKey;
                signer_certificate := certificate;
                digestAlgorithm := oids.sha256;
                authenticatedAttributes := [
                  {| attr_type := oids.contentType;
                     attr_value := Some (OidValue oids.data) |};
                  {| attr_type := oids.messageDigest;
                     attr_value := None |};
                  {| attr_type := oids.signingTime;
                     attr_value := Some (DateValue now) |} ] |})) ;;

    (* Sign in detached mode. *)
    p7 <-- lift (lib (sign_detached p7)) ;;

    (* Check if the PDF has a good enough placeholder to fit the signature. *)
    p7Asn1 <-- lift (lib (toAsn1 p7)) ;;
    raw <-- lift (lib (asn1_toDer p7Asn1)) ;;
    let raw_length := Z.of_nat (String.length raw) in
    if (raw_length * 2) >? placeholderLength then
      throw (SignPdfError
               ("Signature exceeds placeholder length: "
                ++ JS.toString (raw_length * 2) ++ " > "
                ++ JS.toString placeholderLength)
               TYPE_INPUT)
    else

    let signature := Buf.toString_hex (Buf.from raw) in
    (* Store the HEXified signature. *)
    _ <-- set_lastSignature signature ;;

    (* Pad the signature with zeroes. [placeholderLength / 2] is a
       Number, a half-integer when [placeholderLength] is odd, and
       [repeat] truncates its count towards zero. *)
    zeroes <-- lift (JS.repeat (String zero "")
                 (Z.quot (placeholderLength - 2 * raw_length) 2)) ;;
    let signature := signature ++ Buf.toString_hex (Buf.from zeroes) in

    (* Place it in the document. *)
    let pdf := Buf.concat [
      Buf.slice pdf 0 byteRange1;
      Buf.from ("<" ++ signature ++ ">");
      Buf.slice_from pdf byteRange1 ] in

    (* Magic. Done. *)
    ret pdf
    end
    end
  | _ => throw (SignPdfError "p12 certificate expected as Buffer." TYPE_INPUT)
  end
  | _ => throw (SignPdfError "PDF expected as Buffer." TYPE_INPUT)
  end.

(** [helpers.extractSignature], which is not among the sources: it
    returns [{signature, signedData}] or throws, possibly a
    [SignPdfError] of its own. *)
Variable extractSignature : Buffer -> result (string * Buffer).

(** What the first half of the [try] block leaves for the second. *)
Record Checked := {
  signedData : Buffer;
  attrs : jsv;
  hashAlgorithm : string;
  validAuthenticatedAttributes : bool
}.

(** The [try] block of [verify] up to the verification of the signature
    over the authenticated attributes. *)
Definition verify_authenticatedAttributes (pdfBuffer : Buffer) : result Checked :=
  '(signature, signedData) <- extractSignature pdfBuffer ;;
  p7Asn1 <- lib (asn1_fromDer signature) ;;
  message <- lib (messageFromAsn1 p7Asn1) ;;
  rawCapture <- match rawCapture message with
                | Some rc => Return rc
                | None => Throw TypeError
                end ;;
  let sig := rc_signature rawCapture in
  let attrs := rc_authenticatedAttributes rawCapture in
  hashAlgorithmOid <- lib (asn1_derToOid (rc_digestAlgorithm rawCapture)) ;;
  hashAlgorithm <- match oids_lookup hashAlgorithmOid with
                   | Some name => Return (JS.toUpperCase name)
                   | None => Throw TypeError
                   end ;;
  let set := asn1_create Class_UNIVERSAL Type_SET true attrs in
  der <- lib (asn1_toDer set) ;;
  let buf := Buf.from der in
  cert <- lib (certificateToPem (nth_error (certificates message) 0)) ;;
  validAuthenticatedAttributes <- lib (crypto_verify hashAlgorithm buf cert sig) ;;
  Return {| signedData := signedData;
            attrs := attrs;
            hashAlgorithm := hashAlgorithm;
            validAuthenticatedAttributes := validAuthenticatedAttributes |}.

(** The rest of the [try] block: the digest of the signed data against
    the message digest attribute. *)
Definition verify_contentDigest (c : Checked) : result bool :=
  let messageDigestAttr := oids.messageDigest in
  fullAttrDigest <-
    find (attrs c) (fun attr =>
      v <- get_value attr ;;
      v0 <- get_index v 0 ;;
      oidBytes <- get_value v0 ;;
      oid <- lib (asn1_derToOid oidBytes) ;;
      Return (String.eqb oid messageDigestAttr)) ;;
  v <- get_value fullAttrDigest ;;
  v1 <- get_index v 1 ;;
  v1v <- get_value v1 ;;
  v1v0 <- get_index v1v 0 ;;
  attrDigest <- get_value v1v0 ;;
  dataDigest <- lib (crypto_hash (hashAlgorithm c) (signedData c)) ;;
  let validContentDigest :=
    strict_eq_string (Buf.toString_binary dataDigest) attrDigest in
  Return validContentDigest.

(** The [try] block of [verify]. *)
Definition verify_try (pdfBuffer : Buffer) : result VerificationResult :=
  c <- verify_authenticatedAttributes pdfBuffer ;;
  if negb (validAuthenticatedAttributes c) then
    Throw (SignPdfError "Wrong authenticated attributes" VERIFY_SIGNATURE)
  else
  validContentDigest <- verify_contentDigest c ;;
  if negb validContentDigest then
    Throw (SignPdfError "Wrong content digest" VERIFY_SIGNATURE)
  else
  Return {| verified := true; message := None |}.

(** [verify(pdfBuffer)] *)
Definition verify (pdfBuffer : value) : method VerificationResult :=
  match pdfBuffer with
  | VBuffer pdfBuffer =>
      match verify_try pdfBuffer with
      | Return r => ret r
      | Throw err =>
          ret {| verified := false;
                 message := Some (if instanceofSignPdfError err
                                  then exn_message err
                                  else "couldn't verify file signature") |}
      end
  | _ => throw (SignPdfError "PDF expected as Buffer." TYPE_INPUT)
  end.

End Methods.

(* ================================================================= *)
(** ** The stages of [sign]

    [sign] is one function in the source. The definitions below name its
    intermediate values, so that statements can speak of them;
    [sign_stages] shows that [sign] computes exactly these. *)

Section Stages.

Context {forge : Toolkit}.
Variable this : SignPdf.

(** The placeholder text [sign] looks for (lines 43-49). [String.length]
    is its [.length] and the number of its bytes, for an ASCII
    [byteRangePlaceholder]. *)
Definition byteRangeString : string :=
  "/ByteRange ["
  ++ join [ JS.toString 0;
            "/" ++ byteRangePlaceholder this;
            "/" ++ byteRangePlaceholder this;
            "/" ++ byteRangePlaceholder this ]
  ++ "]".

(** The buffer [sign] works on: what [removeTrailingNewLine] returned
    (line 40). *)
Variable pdf : Buffer.

(** Lines 50-68. *)
Definition byteRangePos : Z := Buf.indexOf pdf byteRangeString 0.
Definition byteRangeEnd : Z := byteRangePos + Z.of_nat (String.length byteRangeString).
Definition contentsTagPos : Z := Buf.indexOf pdf "/Contents " byteRangeEnd.
Definition placeholderPos : Z := Buf.indexOf pdf "<" contentsTagPos.
Definition placeholderEnd : Z := Buf.indexOf pdf ">" placeholderPos.
Definition placeholderLengthWithBrackets : Z := (placeholderEnd + 1) - placeholderPos.
Definition placeholderLength : Z := placeholderLengthWithBrackets - 2.
Definition byteRange : list Z :=
  [ 0;
    placeholderPos;
    placeholderPos + placeholderLengthWithBrackets;
    Buf.length pdf - (placeholderPos + placeholderLengthWithBrackets) ].

(** Line 69, and line 70 with its padding. *)
Definition actualByteRange : string :=
  "/ByteRange [" ++ join (map JS.toString byteRange) ++ "]".

Definition paddedByteRange : result string :=
  padding <- JS.repeat " " (Z.of_nat (String.length byteRangeString)
                            - Z.of_nat (String.length actualByteRange)) ;;
  Return (actualByteRange ++ padding).

(** Lines 73-77: the buffer with the placeholder replaced by [text]. *)
Definition rewriteByteRange (text : string) : Buffer :=
  Buf.concat [
    Buf.slice pdf 0 byteRangePos;
    Buf.from text;
    Buf.slice_from pdf byteRangeEnd ].

(** Lines 80-83: the bracketed signature field removed from [rewritten]. *)
Definition removePlaceholder (rewritten : Buffer) : Buffer :=
  Buf.concat [
    Buf.slice rewritten 0 (nth 1 byteRange 0);
    Buf.slice rewritten (nth 2 byteRange 0) (nth 2 byteRange 0 + nth 3 byteRange 0) ].

(** Lines 86-159: the DER bytes of the detached signature over
    [content]. *)
Definition buildSignature (now : Z) (content : Buffer) (p12Buffer : Buffer)
    (additionalOptions : Options) : result string :=
  let options_asn1StrictParsing :=
    match asn1StrictParsing additionalOptions with Some b => b | None => false end in
  let options_passphrase :=
    match passphrase additionalOptions with Some s => s | None => "" end in
  p12Asn1 <- lib (asn1_fromDer (Buf.toString_binary p12Buffer)) ;;
  p12 <- lib (pkcs12FromAsn1 p12Asn1 options_asn1StrictParsing options_passphrase) ;;
  match keyBags p12 with
  | [] => Throw TypeError
  | keyBag0 :: _ =>
      let privateKey := key keyBag0 in
      let p7 := set_content createSignedData (Buf.toString_binary content) in
      let '(p7, certificate) := forEach_certBags privateKey (certBags p12) p7 None in
      match certificate with
      | None =>
          Throw (SignPdfError
                   "Failed to find a certificate that matches the private key."
                   TYPE_INPUT)
      | Some certificate =>
          p7 <- lib (addSigner p7
                 {| signer_key := privateKey;
                    signer_certificate := certificate;
                    digestAlgorithm := oids.sha256;
                    authenticatedAttributes := [
                      {| attr_type := oids.contentType;
                         attr_value := Some (OidValue oids.data) |};
                      {| attr_type := oids.messageDigest;
                         attr_value := None |};
                      {| attr_type := oids.signingTime;
                         attr_value := Some (DateValue now) |} ] |}) ;;
          p7 <- lib (sign_detached p7) ;;
          p7Asn1 <- lib (toAsn1 p7) ;;
          lib (asn1_toDer p7Asn1)
      end
  end.

(** Lines 169-176: the hexadecimal signature and its zero padding. *)
Definition hexSignature (raw : string) : string := Buf.toString_hex (Buf.from raw).

Definition paddedSignature (raw : string) : result string :=
  zeroes <- JS.repeat (String zero "")
              (Z.quot (placeholderLength - 2 * Z.of_nat (String.length raw)) 2) ;;
  Return (hexSignature raw ++ Buf.toString_hex (Buf.from zeroes)).

(** Lines 179-183: [payload] spliced, in brackets, into [excised]. *)
Definition placeSignature (excised : Buffer) (payload : string) : Buffer :=
  Buf.concat [
    Buf.slice excised 0 (nth 1 byteRange 0);
    Buf.from ("<" ++ payload ++ ">");
    Buf.slice_from excised (nth 1 byteRange 0) ].

(** The error of lines 162-167. *)
Definition signatureTooLong (raw : string) : exn :=
  SignPdfError
    ("Signature exceeds placeholder length: "
     ++ JS.toString (Z.of_nat (String.length raw) * 2) ++ " > "
     ++ JS.toString placeholderLength)
    TYPE_INPUT.

End Stages.

(* ================================================================= *)
(** ** [sign] as the sequence of its stages *)

Section Staged.

Context {forge : Toolkit}.

(** [this] after line 171. *)
Definition stored (this : SignPdf) (signature : string) : SignPdf :=
  {| byteRangePlaceholder := byteRangePlaceholder this;
     lastSignature := Some signature |}.

(** [sign] from line 42 on, for the buffer [pdf] that
    [removeTrailingNewLine] returned at line 40. *)
Definition sign_staged (now : Z) (pdf p12Buffer : Buffer) (o : Options)
    (this : SignPdf) : result Buffer * SignPdf :=
  if byteRangePos this pdf =? -1 then
    (Throw (SignPdfError
              ("Could not find ByteRange placeholder: " ++ byteRangeString this)
              TYPE_PARSE), this)
  else
    match paddedByteRange this pdf with
    | Throw e => (Throw e, this)
    | Return text =>
        let excised := removePlaceholder this pdf (rewriteByteRange this pdf text) in
        match buildSignature now excised p12Buffer o with
        | Throw e => (Throw e, this)
        | Return raw =>
            if Z.of_nat (String.length raw) * 2 >? placeholderLength this pdf then
              (Throw (signatureTooLong this pdf raw), this)
            else
              match paddedSignature this pdf raw with
              | Throw e => (Throw e, stored this (hexSignature raw))
              | Return payload =>
                  (Return (placeSignature this pdf excised payload),
                   stored this (hexSignature raw))
              end
        end
    end.

(** The test of lines 119-120. *)
Definition matches (privateKey : PrivateKey) (c : Certificate) : bool :=
  (compareTo (n privateKey) (pub_n (publicKey c)) =? 0)
  && (compareTo (e privateKey) (pub_e (publicKey c)) =? 0).

End Staged.

(** A [SignPdfError] of type [TYPE_PARSE]. *)
Definition is_parse_error (err : exn) : bool :=
  match err with
  | SignPdfError _ TYPE_PARSE => true
  | _ => false
  end.


(* ================================================================= *)
(** ** The written byte range, read back *)

(** Modelled from the spec: the bytes that [extractEmbeddedSignature]
    must return as [signedByteRanges] for a document whose [/ByteRange]
    holds [[start0; len0; start1; len1]] -- "exactly the two spans of
    bytes it denotes, concatenated in order, as the digest input". The
    helper itself, [helpers.extractSignature], is not among the sources. *)
Definition signedSpans (signed : Buffer) (range : list Z) : Buffer :=
  Buf.concat [
    Buf.slice signed (nth 0 range 0) (nth 0 range 0 + nth 1 range 0);
    Buf.slice signed (nth 2 range 0) (nth 2 range 0 + nth 3 range 0) ].

(* ================================================================= *)
(** ** A small toolkit to run the methods on

    An instance of [Toolkit] with one-byte keys and a two-byte digest,
    consistent between signing and verifying. It serves to evaluate
    [sign] and [verify] on concrete documents. *)

Module Toy.

Definition chr (k : Z) : ascii := ascii_of_nat (Z.to_nat (k mod 256)).
Definition code (c : ascii) : Z := Z.of_nat (nat_of_ascii c).

(** A digest: the length and the sum of the bytes, each modulo 256. *)
Definition digest (b : Buffer) : string :=
  String (chr (Buf.length b))
    (String (chr (fold_right (fun x acc => Z.of_nat (Byte.to_nat x) + acc) 0 b)) "").

(** All the strings of a value, in order. *)
Fixpoint flatten (x : jsv) : string :=
  match x with
  | JUndefined => ""
  | JString s => s
  | JArray l =>
      (fix go (l : list jsv) : string :=
         match l with
         | [] => ""
         | y :: rest => flatten y ++ go rest
         end) l
  | JAsn1 _ _ _ v => flatten v
  end.

Definition attribute (oid : string) (v : jsv) : jsv :=
  JAsn1 0 16 true
    (JArray [ JAsn1 0 6 false (JString oid);
              JAsn1 0 17 true (JArray [v]) ]).

(** The authenticated attributes for a signing time and a content
    digest. *)
Definition attributes (time : string) (contentDigest : string) : jsv :=
  JArray [ attribute oids.contentType (JAsn1 0 6 false (JString oids.data));
           attribute oids.messageDigest (JAsn1 0 4 false (JString contentDigest));
           attribute oids.signingTime (JAsn1 0 23 false (JString time)) ].

(** A signature over [bytes] under the key of modulus [n]. *)
Definition signature (n : Z) (bytes : string) : string :=
  digest (Buf.from bytes) ++ String (chr n) "".

Record SignedData := {
  content : string;
  added : list Certificate;
  signer : option Signer;
  signed : option string
}.

(** A container: the modulus of the private key, then two characters a
    certificate, the modulus of its public key and its content. *)
Fixpoint bags (s : string) : list CertBag :=
  match s with
  | String m (String c rest) =>
      {| cert := {| publicKey := {| pub_n := code m; pub_e := 3 |};
                    tbs := String c "" |} |} :: bags rest
  | _ => []
  end.

Definition time_of (s : Signer) : string :=
  match nth_error (authenticatedAttributes s) 2 with
  | Some {| attr_value := Some (DateValue t) |} => String (chr t) ""
  | _ => String (chr 0) ""
  end.

(** The signature message: modulus and content of the signing
    certificate, signing time, content digest (2 bytes), signature
    (3 bytes). *)
Definition message_bytes (p7 : SignedData) : string + string :=
  match signer p7, signed p7 with
  | Some s, Some sig =>
      inr (String (chr (pub_n (publicKey (signer_certificate s)))) ""
           ++ tbs (signer_certificate s)
           ++ time_of s
           ++ digest (Buf.from (content p7))
           ++ sig)
  | _, _ => inl "No signer."
  end.

Definition parse_message (x : jsv) : string + Message :=
  match x with
  | JString (String m (String c (String t (String h0 (String h1
      (String s0 (String s1 (String s2 _)))))))) =>
      inr {| rawCapture := Some
               {| rc_signature := JString (String s0 (String s1 (String s2 "")));
                  rc_authenticatedAttributes :=
                    attributes (String t "") (String h0 (String h1 ""));
                  rc_digestAlgorithm := JString oids.sha256 |};
             certificates :=
               [ {| publicKey := {| pub_n := code m; pub_e := 3 |};
                    tbs := String c "" |} ] |}
  | _ => inl "Too few bytes to parse DER."
  end.

#[export] Instance toolkit : Toolkit := {|
  Pkcs7 := SignedData;
  asn1_fromDer := fun s =>
    match s with
    | "" => inl "Too few bytes to parse DER."
    | _ => inr (JString s)
    end;
  asn1_toDer := fun x => inr (flatten x);
  asn1_create := JAsn1;
  asn1_derToOid := fun x =>
    match x with
    | JString s => inr s
    | _ => inl "Invalid OID."
    end;
  oids_lookup := fun oid =>
    if String.eqb oid oids.sha256 then Some "sha256" else None;
  pkcs12FromAsn1 := fun x _ _ =>
    match x with
    | JString (String k rest) =>
        inr {| certBags := bags rest;
               keyBags := [ {| key := {| n := code k; e := 3; d := code k |} |} ] |}
    | _ => inl "PKCS#12 PFX of version other than 3 not supported."
    end;
  createSignedData :=
    {| content := ""; added := []; signer := None; signed := None |};
  set_content := fun p7 c =>
    {| content := c; added := added p7; signer := signer p7; signed := signed p7 |};
  addCertificate := fun p7 c =>
    {| content := content p7; added := (added p7 ++ [c])%list;
       signer := signer p7; signed := signed p7 |};
  addSigner := fun p7 s =>
    inr {| content := content p7; added := added p7;
           signer := Some s; signed := signed p7 |};
  sign_detached := fun p7 =>
    match signer p7 with
    | Some s =>
        let set := JAsn1 Class_UNIVERSAL Type_SET true
                     (attributes (time_of s) (digest (Buf.from (content p7)))) in
        inr {| content := content p7; added := added p7; signer := signer p7;
               signed := Some (signature (n (signer_key s)) (flatten set)) |}
    | None => inl "No signer."
    end;
  toAsn1 := fun p7 =>
    match message_bytes p7 with
    | inr bytes => inr (JString bytes)
    | inl msg => inl msg
    end;
  messageFromAsn1 := parse_message;
  certificateToPem := fun c =>
    match c with
    | Some c => inr (String (chr (pub_n (publicKey c))) (tbs c))
    | None => inl "Cannot read public key."
    end;
  crypto_verify := fun alg buf pem sig =>
    match pem with
    | String m _ =>
        if String.eqb alg "SHA256"
        then inr (strict_eq_string (signature (code m) (Buf.toString_binary buf)) sig)
        else inl "Unknown message digest"
    | _ => inl "PEM routines: no start line"
    end;
  crypto_hash := fun alg buf =>
    if String.eqb alg "SHA256" then inr (Buf.from (digest buf))
    else inl "Digest method not supported"
|}.

End Toy.

(* ================================================================= *)
(** ** Reading a signed document back *)

Module Extract.

Definition is_digit (c : ascii) : bool :=
  ((48 <=? nat_of_ascii c)%nat && (nat_of_ascii c <=? 57)%nat)%bool.

(** The decimal numbers of a space-separated list; [None] on any other
    character. *)
Fixpoint numbers (s : string) (current : option Z) : option (list Z) :=
  match s with
  | "" => match current with Some k => Some [k] | None => Some [] end
  | String c rest =>
      if Ascii.eqb c " " then
        match current with
        | Some k => option_map (cons k) (numbers rest None)
        | None => numbers rest None
        end
      else if is_digit c then
        numbers rest
          (Some (10 * match current with Some k => k | None => 0 end
                 + (Z.of_nat (nat_of_ascii c) - 48)))
      else None
  end.

Definition hex_value (c : ascii) : option Z :=
  let k := Z.of_nat (nat_of_ascii c) in
  if (48 <=? k) && (k <=? 57) then Some (k - 48)
  else if (97 <=? k) && (k <=? 102) then Some (k - 87)
  else if (65 <=? k) && (k <=? 70) then Some (k - 55)
  else None.

(** [Buffer.from(s, 'hex')]: it stops at the first pair that is not
    hexadecimal. *)
Fixpoint fromHex (s : string) : string :=
  match s with
  | String a (String b rest) =>
      match hex_value a, hex_value b with
      | Some x, Some y => String (ascii_of_nat (Z.to_nat (16 * x + y))) (fromHex rest)
      | _, _ => ""
      end
  | _ => ""
  end.

(** Modelled from the spec: [helpers.extractSignature], which is not
    among the sources. It reads the real [/ByteRange] already present
    in a signed document and returns the signature bytes, decoded from
    the hexadecimal field between the two spans, with exactly the two
    spans of bytes the array denotes, concatenated in order. A document
    without such an array is a parse error. *)
Definition extractSignature (pdf : Buffer) : result (string * Buffer) :=
  let byteRangePos := Buf.indexOf pdf "/ByteRange [" 0 in
  if byteRangePos =? -1 then
    Throw (SignPdfError "Failed to locate ByteRange." TYPE_PARSE)
  else
  let byteRangeEnd := Buf.indexOf pdf "]" byteRangePos in
  if byteRangeEnd =? -1 then
    Throw (SignPdfError "Failed to locate the end of the ByteRange." TYPE_PARSE)
  else
  match numbers (Buf.toString_binary (Buf.slice pdf (byteRangePos + 12) byteRangeEnd)) None with
  | Some [start0; len0; start1; len1] =>
      let signatureHex :=
        Buf.toString_binary (Buf.slice pdf (start0 + len0 + 1) (start1 - 1)) in
      Return (fromHex signatureHex, signedSpans pdf [start0; len0; start1; len1])
  | _ => Throw (SignPdfError "Failed to parse the ByteRange." TYPE_PARSE)
  end.

End Extract.

(* ================================================================= *)
(** ** Documents and containers to run the methods on *)

Module Samples.

Definition nl : string := String "010" "".

(** A document with a signature field whose hexadecimal placeholder has
    [k] zeroes. *)
Definition document (k : nat) : Buffer :=
  Buf.from ("%PDF-1.3" ++ nl
            ++ "1 0 obj" ++ nl
            ++ "<< /Type /Sig /Filter /Adobe.PPKLite /SubFilter /adbe.pkcs7.detached "
            ++ "/ByteRange [0 /********** /********** /**********] "
            ++ "/Contents <" ++ JS.repeat_nat "0" k ++ "> >>" ++ nl
            ++ "endobj" ++ nl
            ++ "%%EOF" ++ nl).

(** The same document without its [/Contents] entry. *)
Definition document_without_contents : Buffer :=
  Buf.from ("%PDF-1.3" ++ nl
            ++ "1 0 obj" ++ nl
            ++ "<< /Type /Sig /Filter /Adobe.PPKLite /SubFilter /adbe.pkcs7.detached "
            ++ "/ByteRange [0 /********** /********** /**********] >>" ++ nl
            ++ "endobj" ++ nl
            ++ "%%EOF" ++ nl).

(** A container whose private key has modulus 107 ("k"), with one
    matching certificate. *)
Definition p12 : Buffer := Buf.from "kkA".

(** A container with two certificates for the private key, "A" then
    "B", and one for another key between them. *)
Definition p12_two_matches : Buffer := Buf.from "kkAzZkB".

(** A container with no certificate for the private key. *)
Definition p12_no_match : Buffer := Buf.from "kzZ".

Definition now : Z := 84.

(** A helper for line 40 to run [sign] with: a buffer whose last byte is
    a line feed loses that byte, any other buffer is returned as it
    is. *)
Definition trim (pdf : Buffer) : Buffer :=
  let lastChar := Buf.toString_binary (Buf.slice_from pdf (Buf.length pdf - 1)) in
  if String.eqb lastChar nl then Buf.slice pdf 0 (Buf.length pdf - 1)
  else pdf.

(** A document whose [/Contents] entry has no hexadecimal string, cut
    off after the dictionary. *)
Definition document_without_brackets : Buffer :=
  Buf.from ("%PDF-1.3" ++ nl
            ++ "1 0 obj" ++ nl
            ++ "<< /Type /Sig /Filter /Adobe.PPKLite /SubFilter /adbe.pkcs7.detached "
            ++ "/ByteRange [0 /********** /********** /**********] "
            ++ "/Contents (none) >>").

(** [document 20] signed with [p12]. *)
Definition signed : Buffer :=
  match fst (@sign Toy.toolkit trim now (VBuffer (document 20)) (VBuffer p12)
               no_options constructor) with
  | Return pdf => pdf
  | Throw _ => []
  end.

Fixpoint set_byte (i : nat) (x : byte) (b : Buffer) : Buffer :=
  match b, i with
  | [], _ => []
  | _ :: rest, O => x :: rest
  | y :: rest, S i' => y :: set_byte i' x rest
  end.

(** [signed] with the last digit of its signature changed, with a byte
    of its first span changed, and with a payload that is not
    hexadecimal. *)
Definition signed_other_signature : Buffer := set_byte 163 "c"%byte signed.
Definition signed_other_content : Buffer := set_byte 5 "2"%byte signed.
Definition signed_no_hex : Buffer := set_byte 148 "x"%byte signed.

End Samples.

(* ================================================================= *)
(** ** Further documents and toolkits to run the methods on *)

(** A lowercase hexadecimal digit. *)
Definition lower_hex (c : ascii) : bool :=
  let k := nat_of_ascii c in
  (((48 <=? k) && (k <=? 57)) || ((97 <=? k) && (k <=? 102)))%nat.

(** A text of ASCII characters: its bytes, its characters and its
    UTF-16 code units are the same. *)
Definition isASCII (s : string) : bool :=
  forallb (fun c => (nat_of_ascii c <? 128)%nat) (list_ascii_of_string s).

Section Attributes.

Context {forge : Toolkit}.

Local Open Scope js_scope.

(** The type of an authenticated attribute as line 226 reads it:
    [attr.value[0].value], through [forge.asn1.derToOid]. *)
Definition attribute_type (attr : jsv) : result string :=
  v <- get_value attr ;;
  v0 <- get_index v 0 ;;
  oidBytes <- get_value v0 ;;
  lib (asn1_derToOid oidBytes).

(** The value of an authenticated attribute as line 227 reads it:
    [attr.value[1].value[0].value]. *)
Definition attribute_first_value (attr : jsv) : result jsv :=
  v <- get_value attr ;;
  v1 <- get_index v 1 ;;
  v1v <- get_value v1 ;;
  v1v0 <- get_index v1v 0 ;;
  get_value v1v0.

End Attributes.

Module MoreSamples.

(** A document without a signature field. *)
Definition document_without_placeholder : Buffer :=
  Buf.from ("%PDF-1.3" ++ Samples.nl
            ++ "1 0 obj" ++ Samples.nl
            ++ "<< /Type /Catalog >>" ++ Samples.nl
            ++ "endobj" ++ Samples.nl
            ++ "%%EOF" ++ Samples.nl).

(** A signer with a one-character placeholder, and a document made for
    it. *)
Definition short_signer : SignPdf :=
  {| byteRangePlaceholder := "*"; lastSignature := None |}.

Definition document_short_placeholder : Buffer :=
  Buf.from ("%PDF-1.3" ++ Samples.nl
            ++ "1 0 obj" ++ Samples.nl
            ++ "<< /Type /Sig /Filter /Adobe.PPKLite /SubFilter /adbe.pkcs7.detached "
            ++ "/ByteRange [0 /* /* /*] "
            ++ "/Contents <" ++ JS.repeat_nat "0" 20 ++ "> >>" ++ Samples.nl
            ++ "endobj" ++ Samples.nl
            ++ "%%EOF" ++ Samples.nl).

(** The sample document with [content] in its signature field. *)
Definition document_with (content : string) : Buffer :=
  Buf.from ("%PDF-1.3" ++ Samples.nl
            ++ "1 0 obj" ++ Samples.nl
            ++ "<< /Type /Sig /Filter /Adobe.PPKLite /SubFilter /adbe.pkcs7.detached "
            ++ "/ByteRange [0 /********** /********** /**********] "
            ++ "/Contents <" ++ content ++ "> >>" ++ Samples.nl
            ++ "endobj" ++ Samples.nl
            ++ "%%EOF" ++ Samples.nl).

(** A document with two signature fields, and a [/Contents] entry and
    a hexadecimal string before the first of them. *)
Definition document_two_fields : Buffer :=
  Buf.from ("%PDF-1.3" ++ Samples.nl
            ++ "1 0 obj" ++ Samples.nl
            ++ "<< /Type /Page /Contents <cafe> >>" ++ Samples.nl
            ++ "endobj" ++ Samples.nl
            ++ "2 0 obj" ++ Samples.nl
            ++ "<< /Type /Sig "
            ++ "/ByteRange [0 /********** /********** /**********] "
            ++ "/Contents <" ++ JS.repeat_nat "0" 20 ++ "> >>" ++ Samples.nl
            ++ "endobj" ++ Samples.nl
            ++ "3 0 obj" ++ Samples.nl
            ++ "<< /Type /Sig "
            ++ "/ByteRange [0 /********** /********** /**********] "
            ++ "/Contents <" ++ JS.repeat_nat "1" 30 ++ "> >>" ++ Samples.nl
            ++ "endobj" ++ Samples.nl
            ++ "%%EOF" ++ Samples.nl).

(** The sample toolkit with another table of object identifiers,
    another container parser and another message parser. *)
Definition variant (names : string -> option string)
    (container : jsv -> bool -> string -> string + Pkcs12)
    (parse : jsv -> string + Message) : Toolkit :=
  {| Pkcs7 := Toy.SignedData;
     asn1_fromDer := @asn1_fromDer Toy.toolkit;
     asn1_toDer := @asn1_toDer Toy.toolkit;
     asn1_create := @asn1_create Toy.toolkit;
     asn1_derToOid := @asn1_derToOid Toy.toolkit;
     oids_lookup := names;
     pkcs12FromAsn1 := container;
     createSignedData := @createSignedData Toy.toolkit;
     set_content := @set_content Toy.toolkit;
     addCertificate := @addCertificate Toy.toolkit;
     addSigner := @addSigner Toy.toolkit;
     sign_detached := @sign_detached Toy.toolkit;
     toAsn1 := @toAsn1 Toy.toolkit;
     messageFromAsn1 := parse;
     certificateToPem := @certificateToPem Toy.toolkit;
     crypto_verify := @crypto_verify Toy.toolkit;
     crypto_hash := @crypto_hash Toy.toolkit |}.

(** A toolkit whose table knows no object identifier. *)
Definition without_names : Toolkit :=
  variant (fun _ => None) (@pkcs12FromAsn1 Toy.toolkit) (@messageFromAsn1 Toy.toolkit).

(** A toolkit that parses every message to one without a
    [rawCapture]. *)
Definition without_capture : Toolkit :=
  variant (@oids_lookup Toy.toolkit) (@pkcs12FromAsn1 Toy.toolkit)
    (fun _ => inr {| rawCapture := None; certificates := [] |}).

(** A toolkit whose containers hold a certificate and no key. *)
Definition without_key : Toolkit :=
  variant (@oids_lookup Toy.toolkit)
    (fun _ _ _ => inr {| certBags := Toy.bags "kA"; keyBags := [] |})
    (@messageFromAsn1 Toy.toolkit).

(** A toolkit whose containers open with the passphrase "secret"
    only. *)
Definition with_passphrase : Toolkit :=
  variant (@oids_lookup Toy.toolkit)
    (fun x strict pass =>
       if String.eqb pass "secret" then @pkcs12FromAsn1 Toy.toolkit x strict pass
       else inl "PKCS#12 MAC could not be verified. Invalid password?")
    (@messageFromAsn1 Toy.toolkit).

End MoreSamples.

(* ================================================================= *)
(** * Properties *)

(** ** The primitives on small inputs *)

Example toString_0 : JS.toString 0 = "0". Proof. reflexivity. Qed.
Example toString_m1 : JS.toString (-1) = "-1". Proof. reflexivity. Qed.
Example toString_1234 : JS.toString 12345 = "12345". Proof. reflexivity. Qed.
Example toString_999 : JS.toString 999 = "999". Proof. reflexivity. Qed.
Example toString_1024 : JS.toString 1024 = "1024". Proof. reflexivity. Qed.
Example join_4 : join (map JS.toString [0; 12; 30; 4]) = "0 12 30 4". Proof. reflexivity. Qed.
Example hex_ex : Buf.toString_hex (Buf.from "J*") = "4a2a". Proof. reflexivity. Qed.
Example indexOf_ex : Buf.indexOf (Buf.from "abc<de>") "<" 0 = 3. Proof. reflexivity. Qed.
Example indexOf_neg : Buf.indexOf (Buf.from "abc<de>") ">" (-1) = 6. Proof. reflexivity. Qed.
Example indexOf_neg2 : Buf.indexOf (Buf.from "abc<de>") "<" (-1) = -1. Proof. reflexivity. Qed.
Example slice_neg : Buf.slice (Buf.from "abcdef") 0 (-1) = Buf.from "abcde". Proof. reflexivity. Qed.


(* ================================================================= *)
(** ** [sign] and its stages *)

Section SignStages.

Context {forge : Toolkit}.
Variable removeTrailingNewLine : Buffer -> Buffer.

Lemma sign_stages now pdfBuffer p12Buffer o this :
  sign removeTrailingNewLine now (VBuffer pdfBuffer) (VBuffer p12Buffer) o this
  = sign_staged now (removeTrailingNewLine pdfBuffer) p12Buffer o this.
Proof.
  cbv beta iota zeta delta
    [sign sign_staged mbind get_this lift throw ret set_lastSignature stored
     paddedByteRange paddedSignature buildSignature placeSignature
     removePlaceholder rewriteByteRange signatureTooLong hexSignature
     placeholderLength placeholderLengthWithBrackets placeholderEnd
     placeholderPos contentsTagPos byteRangeEnd byteRangePos byteRangeString
     byteRange actualByteRange bind lib nth].
  repeat match goal with
         | |- context [match ?x with _ => _ end] => destruct x eqn:?; try reflexivity
         end.
Qed.

End SignStages.

(* ================================================================= *)
(** ** Strings, numbers and buffers *)

Lemma Return_inj {A} (a b : A) : Return a = Return b -> a = b.
Proof. intros H. now injection H. Qed.

Lemma string_length_append (a b : string) :
  String.length (a ++ b) = (String.length a + String.length b)%nat.
Proof. induction a as [|c a IH]; simpl; [reflexivity | now rewrite IH]. Qed.

Lemma string_append_assoc (a b c : string) : (a ++ b) ++ c = a ++ (b ++ c).
Proof. induction a as [|x a IH]; simpl; [reflexivity | now rewrite IH]. Qed.

Lemma length_list_ascii_of_string (s : string) :
  List.length (list_ascii_of_string s) = String.length s.
Proof. induction s as [|c s IH]; simpl; [reflexivity | now rewrite IH]. Qed.

Lemma from_length (s : string) : Buf.length (Buf.from s) = Z.of_nat (String.length s).
Proof.
  unfold Buf.length, Buf.from, list_byte_of_string.
  now rewrite length_map, length_list_ascii_of_string.
Qed.

Lemma from_append (a b : string) : Buf.from (a ++ b) = (Buf.from a ++ Buf.from b)%list.
Proof.
  unfold Buf.from, list_byte_of_string.
  induction a as [|c a IH]; simpl; [reflexivity | now rewrite IH].
Qed.

Lemma length_nonneg (b : Buffer) : 0 <= Buf.length b.
Proof. unfold Buf.length; lia. Qed.

Lemma length_app (a b : Buffer) : Buf.length (a ++ b)%list = Buf.length a + Buf.length b.
Proof. unfold Buf.length. rewrite List.length_app. lia. Qed.

Lemma toString_hex_length (b : Buffer) :
  Z.of_nat (String.length (Buf.toString_hex b)) = 2 * Buf.length b.
Proof.
  unfold Buf.length.
  induction b as [|x b IH]; [reflexivity|].
  cbn [Buf.toString_hex String.length List.length]. lia.
Qed.

Lemma repeat_nat_length (s : string) (k : nat) :
  String.length (JS.repeat_nat s k) = (k * String.length s)%nat.
Proof.
  induction k as [|k IH]; simpl; [reflexivity|].
  now rewrite string_length_append, IH.
Qed.

Lemma repeat_Return (s : string) (count : Z) :
  0 <= count -> JS.repeat s count = Return (JS.repeat_nat s (Z.to_nat count)).
Proof.
  intros H. unfold JS.repeat.
  destruct (count <? 0) eqn:E; [apply Z.ltb_lt in E; lia | reflexivity].
Qed.

(** *** Slices *)

Lemma adjustOffset_in (offset len : Z) :
  0 <= offset <= len -> Buf.adjustOffset offset len = offset.
Proof.
  intros H. unfold Buf.adjustOffset.
  destruct (offset <? 0) eqn:E1; [apply Z.ltb_lt in E1; lia|].
  destruct (offset <? len) eqn:E2; [reflexivity | apply Z.ltb_ge in E2; lia].
Qed.

Lemma slice_in (b : Buffer) (s e : Z) :
  0 <= s <= e -> e <= Buf.length b ->
  Buf.slice b s e = firstn (Z.to_nat (e - s)) (skipn (Z.to_nat s) b).
Proof.
  intros H1 H2. unfold Buf.slice.
  rewrite !adjustOffset_in by lia. reflexivity.
Qed.

Lemma slice_prefix (b : Buffer) (e : Z) :
  0 <= e <= Buf.length b -> Buf.slice b 0 e = firstn (Z.to_nat e) b.
Proof.
  intros H. rewrite slice_in by lia. now rewrite Z.sub_0_r.
Qed.

Lemma slice_from_in (b : Buffer) (s : Z) :
  0 <= s <= Buf.length b -> Buf.slice_from b s = skipn (Z.to_nat s) b.
Proof.
  intros H. unfold Buf.slice_from. rewrite slice_in by lia.
  apply firstn_all2. rewrite length_skipn. unfold Buf.length in *. lia.
Qed.

Lemma slice_length (b : Buffer) (s e : Z) :
  0 <= s <= e -> e <= Buf.length b -> Buf.length (Buf.slice b s e) = e - s.
Proof.
  intros H1 H2. rewrite slice_in by assumption.
  unfold Buf.length in *. rewrite length_firstn, length_skipn. lia.
Qed.

(** *** Searching *)

Lemma starts_with_length (needle hay : Buffer) :
  Buf.starts_with needle hay = true -> (List.length needle <= List.length hay)%nat.
Proof.
  revert hay. induction needle as [|x needle IH]; intros [|y hay] H; simpl in *;
    try lia; try discriminate.
  apply andb_true_iff in H. destruct H as [_ H]. apply IH in H. lia.
Qed.

Lemma starts_with_prefix (needle hay : Buffer) :
  Buf.starts_with needle hay = true -> exists rest, hay = (needle ++ rest)%list.
Proof.
  revert hay. induction needle as [|x needle IH]; intros hay H.
  - exists hay. reflexivity.
  - destruct hay as [|y hay]; [discriminate|]. simpl in H.
    apply andb_true_iff in H. destruct H as [Hxy H].
    apply Byte.byte_dec_bl in Hxy. subst y.
    destruct (IH _ H) as [rest ->]. exists rest. reflexivity.
Qed.

Lemma search_spec (needle hay : Buffer) (pos : Z) :
  Buf.search needle hay pos = -1
  \/ (pos <= Buf.search needle hay pos
      /\ Buf.search needle hay pos - pos + Buf.length needle <= Buf.length hay
      /\ Buf.starts_with needle
           (skipn (Z.to_nat (Buf.search needle hay pos - pos)) hay) = true).
Proof.
  revert pos. induction hay as [|y hay IH]; intros pos.
  - simpl. destruct (Buf.starts_with needle []) eqn:E; [right | left; reflexivity].
    rewrite Z.sub_diag. simpl. split; [lia|]. split; [|exact E].
    apply starts_with_length in E. unfold Buf.length. simpl in *. lia.
  - cbn [Buf.search]. destruct (Buf.starts_with needle (y :: hay)) eqn:E.
    + right. rewrite Z.sub_diag. split; [lia|]. split; [|exact E].
      apply starts_with_length in E. unfold Buf.length. lia.
    + destruct (IH (pos + 1)) as [H | (H1 & H2 & H3)]; [left; exact H | right].
      split; [lia|]. split.
      * unfold Buf.length in *. cbn [List.length]. lia.
      * replace (Z.to_nat (Buf.search needle hay (pos + 1) - pos))
          with (S (Z.to_nat (Buf.search needle hay (pos + 1) - (pos + 1)))) by lia.
        exact H3.
Qed.

(** [indexOf] answers [-1] or the position of an occurrence inside the
    buffer, not before a non-negative [byteOffset]. *)
Lemma indexOf_spec (b : Buffer) (value : string) (byteOffset : Z) :
  Buf.indexOf b value byteOffset = -1
  \/ (0 <= Buf.indexOf b value byteOffset
      /\ Buf.indexOf b value byteOffset + Z.of_nat (String.length value) <= Buf.length b
      /\ Buf.starts_with (Buf.from value)
           (skipn (Z.to_nat (Buf.indexOf b value byteOffset)) b) = true
      /\ (0 <= byteOffset -> byteOffset <= Buf.indexOf b value byteOffset)).
Proof.
  unfold Buf.indexOf.
  set (len := Buf.length b).
  set (start := if byteOffset <? 0 then Z.max 0 (len + byteOffset) else byteOffset).
  assert (Hstart : 0 <= start).
  { subst start. destruct (byteOffset <? 0) eqn:E; [lia | apply Z.ltb_ge in E; lia]. }
  assert (Hoff : 0 <= byteOffset -> start = byteOffset).
  { intros H. subst start. destruct (byteOffset <? 0) eqn:E;
      [apply Z.ltb_lt in E; lia | reflexivity]. }
  destruct (len <? start) eqn:E; [left; reflexivity|].
  apply Z.ltb_ge in E.
  destruct (search_spec (Buf.from value) (skipn (Z.to_nat start) b) start)
    as [H | (H1 & H2 & H3)]; [left; exact H | right].
  set (r := Buf.search (Buf.from value) (skipn (Z.to_nat start) b) start) in *.
  rewrite from_length in H2.
  assert (Hlen : Buf.length (skipn (Z.to_nat start) b) = len - start).
  { unfold Buf.length in *. rewrite length_skipn. subst len. lia. }
  rewrite skipn_skipn in H3.
  replace (Z.to_nat (r - start) + Z.to_nat start)%nat with (Z.to_nat r) in H3 by lia.
  repeat split; try lia; try exact H3.
Qed.

(** An occurrence found: the buffer splits around it. *)
Lemma indexOf_found (b : Buffer) (value : string) (byteOffset : Z) :
  Buf.indexOf b value byteOffset <> -1 ->
  exists rest,
    skipn (Z.to_nat (Buf.indexOf b value byteOffset)) b = (Buf.from value ++ rest)%list.
Proof.
  intros H. destruct (indexOf_spec b value byteOffset) as [E | (_ & _ & H3 & _)];
    [contradiction|].
  now apply starts_with_prefix.
Qed.

(** *** Decimal numbers *)

Lemma digits_length (fuel : nat) :
  forall (k : nat) (n : Z) (acc : string),
    (1 <= k)%nat -> n < 10 ^ Z.of_nat k ->
    (String.length (JS.digits fuel n acc) <= k + String.length acc)%nat.
Proof.
  induction fuel as [|fuel IH]; intros k n acc Hk Hn; cbn [JS.digits].
  - simpl. lia.
  - destruct (n <? 10) eqn:E; [simpl; lia|].
    apply Z.ltb_ge in E.
    destruct k as [|[|k]]; [lia | simpl in Hn; lia |].
    assert (Hdiv : n / 10 < 10 ^ Z.of_nat (S k)).
    { apply Z.div_lt_upper_bound; [lia|].
      replace (Z.of_nat (S (S k))) with (Z.succ (Z.of_nat (S k))) in Hn by lia.
      rewrite Z.pow_succ_r in Hn by lia. exact Hn. }
    specialize (IH (S k) (n / 10) (String (JS.digit (n mod 10)) acc)
                  ltac:(lia) Hdiv).
    simpl in IH |- *. lia.
Qed.

(** A Number between [-10^(k-1)] and [10^k] prints in at most [k]
    characters. *)
Lemma toString_length (k : nat) (n : Z) :
  (1 <= k)%nat -> - 10 ^ Z.of_nat (k - 1) < n < 10 ^ Z.of_nat k ->
  (String.length (JS.toString n) <= k)%nat.
Proof.
  intros Hk [Hlo Hhi]. unfold JS.toString.
  destruct (n <? 0) eqn:E.
  - apply Z.ltb_lt in E.
    destruct k as [|[|k]]; [lia | simpl in Hlo; lia |].
    replace (S (S k) - 1)%nat with (S k) in Hlo by lia.
    pose proof (digits_length (Z.to_nat (Z.log2 (- n))) (S k) (- n) ""
                  ltac:(lia) ltac:(lia)) as H.
    cbn [String.length] in *. lia.
  - pose proof (digits_length (Z.to_nat (Z.log2 n)) k n "" Hk Hhi) as H.
    cbn [String.length] in *. lia.
Qed.

Lemma digits_acc (fuel : nat) :
  forall (n : Z) (acc : string),
    JS.digits fuel n acc = JS.digits fuel n "" ++ acc.
Proof.
  induction fuel as [|fuel IH]; intros n acc; cbn [JS.digits]; [reflexivity|].
  destruct (n <? 10); [reflexivity|].
  rewrite IH, (IH _ (String _ "")), string_append_assoc. reflexivity.
Qed.

Lemma value_of_append (s t : string) :
  forall acc, JS.value_of (s ++ t) acc = JS.value_of t (JS.value_of s acc).
Proof.
  induction s as [|c s IH]; intros acc; simpl; [reflexivity | apply IH].
Qed.

Lemma digit_code (k : Z) :
  0 <= k < 10 -> Z.of_nat (nat_of_ascii (JS.digit k)) - 48 = k.
Proof.
  intros H. unfold JS.digit. rewrite nat_ascii_embedding by lia. lia.
Qed.

(** With fuel for its digits, a natural number prints as its decimal
    digits. *)
Lemma digits_value (fuel : nat) :
  forall n : Z,
    0 <= n < 10 ^ Z.of_nat (S fuel) ->
    JS.value_of (JS.digits fuel n "") 0 = n.
Proof.
  induction fuel as [|fuel IH]; intros n Hn; cbn [JS.digits].
  - simpl in Hn. cbn [JS.value_of]. rewrite Z.mod_small by lia.
    rewrite digit_code by lia. lia.
  - destruct (n <? 10) eqn:E.
    + apply Z.ltb_lt in E. cbn [JS.value_of]. rewrite digit_code by lia. lia.
    + apply Z.ltb_ge in E.
      rewrite digits_acc, value_of_append, IH.
      * cbn [JS.value_of].
        rewrite digit_code by (apply Z.mod_pos_bound; lia).
        pose proof (Z.div_mod n 10 ltac:(lia)). lia.
      * split; [apply Z.div_pos; lia|].
        apply Z.div_lt_upper_bound; [lia|].
        replace (Z.of_nat (S (S fuel))) with (Z.succ (Z.of_nat (S fuel))) in Hn by lia.
        rewrite Z.pow_succ_r in Hn by lia. lia.
Qed.

(** [String(n)] is the decimal numeral of [n]: the fuel of [toString]
    is enough for every natural number. *)
Lemma toString_value (n : Z) :
  0 <= n -> JS.value_of (JS.toString n) 0 = n.
Proof.
  intros Hn. unfold JS.toString.
  destruct (n <? 0) eqn:E; [apply Z.ltb_lt in E; lia|].
  apply digits_value. split; [exact Hn|].
  destruct (Z.eq_dec n 0) as [->|Hpos]; [simpl; lia|].
  pose proof (Z.log2_spec n ltac:(lia)) as [_ Hlog].
  pose proof (Z.log2_nonneg n) as Hnn.
  rewrite Nat2Z.inj_succ, Z2Nat.id by exact Hnn.
  eapply Z.lt_le_trans; [exact Hlog|].
  apply Z.pow_le_mono_l. lia.
Qed.

Lemma join4 (a b c d : string) :
  join [a; b; c; d] = a ++ " " ++ b ++ " " ++ c ++ " " ++ d.
Proof. reflexivity. Qed.

(* ================================================================= *)
(** ** The placeholder and the byte range *)

Section Layout.

Variable this : SignPdf.
Variable pdf : Buffer.

Lemma byteRangeString_length :
  String.length (byteRangeString this)
  = (20 + 3 * String.length (byteRangePlaceholder this))%nat.
Proof.
  unfold byteRangeString. rewrite join4.
  change (JS.toString 0) with "0".
  rewrite !string_length_append. cbn [String.length]. lia.
Qed.

Lemma placeholderPos_range :
  placeholderPos this pdf = -1
  \/ 0 <= placeholderPos this pdf < Buf.length pdf.
Proof.
  unfold placeholderPos.
  destruct (indexOf_spec pdf "<" (contentsTagPos this pdf)) as [H | (H1 & H2 & _)];
    [left; exact H | right]. simpl in H2. lia.
Qed.

Lemma placeholderEnd_range :
  placeholderEnd this pdf = -1
  \/ 0 <= placeholderEnd this pdf < Buf.length pdf.
Proof.
  unfold placeholderEnd.
  destruct (indexOf_spec pdf ">" (placeholderPos this pdf)) as [H | (H1 & H2 & _)];
    [left; exact H | right]. simpl in H2. lia.
Qed.

(** The byte at an occurrence of a one-character string. *)
Lemma indexOf_char (c : ascii) (byteOffset : Z) :
  Buf.indexOf pdf (String c "") byteOffset <> -1 ->
  nth_error pdf (Z.to_nat (Buf.indexOf pdf (String c "") byteOffset))
  = Some (byte_of_ascii c).
Proof.
  intros H. destruct (indexOf_found pdf _ byteOffset H) as [rest Hrest].
  rewrite <- (Nat.add_0_r (Z.to_nat _)), <- nth_error_skipn, Hrest.
  reflexivity.
Qed.

(** With both brackets found, the closing one comes after the opening
    one. *)
Lemma brackets_ordered :
  placeholderPos this pdf <> -1 -> placeholderEnd this pdf <> -1 ->
  0 <= placeholderPos this pdf < placeholderEnd this pdf
  /\ placeholderEnd this pdf < Buf.length pdf.
Proof.
  intros Hp He.
  destruct placeholderPos_range as [|Hp']; [contradiction|].
  destruct placeholderEnd_range as [|He']; [contradiction|].
  assert (Hle : placeholderPos this pdf <= placeholderEnd this pdf).
  { unfold placeholderEnd at 1.
    destruct (indexOf_spec pdf ">" (placeholderPos this pdf)) as [H | (_ & _ & _ & H)].
    - unfold placeholderEnd in He. contradiction.
    - apply H. lia. }
  assert (Hne : placeholderPos this pdf <> placeholderEnd this pdf).
  { intros Heq.
    pose proof (indexOf_char "<" (contentsTagPos this pdf) Hp) as H1.
    pose proof (indexOf_char ">" (placeholderPos this pdf) He) as H2.
    fold (placeholderPos this pdf) in H1. fold (placeholderEnd this pdf) in H2.
    rewrite <- Heq in H2. rewrite H1 in H2. discriminate. }
  lia.
Qed.

End Layout.

Section Rewrite.

Variable this : SignPdf.
Variable pdf : Buffer.

Lemma byteRangePos_found :
  byteRangePos this pdf <> -1 ->
  0 <= byteRangePos this pdf /\ byteRangeEnd this pdf <= Buf.length pdf.
Proof.
  intros H. unfold byteRangeEnd, byteRangePos in *.
  destruct (indexOf_spec pdf (byteRangeString this) 0) as [E | (H1 & H2 & _)];
    [contradiction | lia].
Qed.

(** When line 70 does not throw, the padded text is as wide as the
    placeholder text. *)
Lemma paddedByteRange_length (text : string) :
  paddedByteRange this pdf = Return text ->
  String.length text = String.length (byteRangeString this)
  /\ exists padding, text = actualByteRange this pdf ++ padding.
Proof.
  unfold paddedByteRange, JS.repeat.
  destruct (_ <? 0) eqn:E; [discriminate|].
  apply Z.ltb_ge in E. cbn [bind]. intros H. apply Return_inj in H. subst text.
  split; [|eexists; reflexivity].
  rewrite string_length_append, repeat_nat_length. cbn [String.length]. lia.
Qed.

Lemma paddedByteRange_fits :
  (String.length (actualByteRange this pdf) <= String.length (byteRangeString this))%nat ->
  exists text, paddedByteRange this pdf = Return text.
Proof.
  intros H. unfold paddedByteRange. rewrite repeat_Return by lia.
  eexists. reflexivity.
Qed.

Lemma rewriteByteRange_eq (text : string) :
  byteRangePos this pdf <> -1 ->
  rewriteByteRange this pdf text
  = (firstn (Z.to_nat (byteRangePos this pdf)) pdf
     ++ Buf.from text
     ++ skipn (Z.to_nat (byteRangeEnd this pdf)) pdf)%list.
Proof.
  intros H. destruct (byteRangePos_found H) as [H0 H1].
  assert (0 <= byteRangeEnd this pdf) by (unfold byteRangeEnd; lia).
  unfold rewriteByteRange, Buf.concat. cbn [List.concat].
  rewrite slice_prefix, slice_from_in, app_nil_r; [reflexivity | lia |].
  unfold byteRangeEnd in *. lia.
Qed.

(** A replacement text as wide as the placeholder text leaves the length
    of the buffer and every byte outside the placeholder text where
    they were. *)
Lemma rewriteByteRange_keeps (text : string) :
  byteRangePos this pdf <> -1 ->
  String.length text = String.length (byteRangeString this) ->
  Buf.length (rewriteByteRange this pdf text) = Buf.length pdf
  /\ (forall i : nat,
        Z.of_nat i < byteRangePos this pdf \/ byteRangeEnd this pdf <= Z.of_nat i ->
        nth_error (rewriteByteRange this pdf text) i = nth_error pdf i)
  /\ Buf.slice (rewriteByteRange this pdf text)
       (byteRangePos this pdf) (byteRangeEnd this pdf) = Buf.from text.
Proof.
  intros Hpos Hlen. destruct (byteRangePos_found Hpos) as [H0 H1].
  rewrite (rewriteByteRange_eq text Hpos).
  pose proof (from_length text) as Hfrom. rewrite Hlen in Hfrom.
  set (pos := byteRangePos this pdf) in *.
  assert (Hend : byteRangeEnd this pdf = pos + Z.of_nat (String.length (byteRangeString this)))
    by reflexivity.
  set (fin := byteRangeEnd this pdf) in *.
  set (w := String.length (byteRangeString this)) in *.
  assert (Hf : List.length (firstn (Z.to_nat pos) pdf) = Z.to_nat pos).
  { rewrite length_firstn. unfold Buf.length in *. lia. }
  assert (Ht : List.length (Buf.from text) = w).
  { unfold Buf.length in Hfrom. lia. }
  assert (Hs : List.length (skipn (Z.to_nat fin) pdf) = (List.length pdf - Z.to_nat fin)%nat).
  { apply length_skipn. }
  assert (Htotal : Buf.length
            (firstn (Z.to_nat pos) pdf ++ Buf.from text ++ skipn (Z.to_nat fin) pdf)%list
          = Buf.length pdf).
  { unfold Buf.length in *. rewrite !List.length_app, Hf, Ht, Hs. lia. }
  split; [exact Htotal|]. split.
  - intros i [Hi | Hi].
    + rewrite nth_error_app1 by lia.
      rewrite nth_error_firstn.
      destruct (Nat.ltb_spec i (Z.to_nat pos)); [reflexivity | lia].
    + rewrite nth_error_app2 by lia.
      rewrite nth_error_app2 by lia.
      rewrite nth_error_skipn. f_equal. unfold Buf.length in *. lia.
  - rewrite slice_in by lia.
    replace (Z.to_nat pos) with (List.length (firstn (Z.to_nat pos) pdf) + 0)%nat at 1 by lia.
    rewrite skipn_app, skipn_all2 by lia.
    replace (_ + 0 - _)%nat with 0%nat by lia.
    cbn [skipn app].
    replace (Z.to_nat (fin - pos)) with (List.length (Buf.from text) + 0)%nat by lia.
    rewrite firstn_app_2. cbn [firstn]. apply app_nil_r.
Qed.

(** The three computed numbers, whatever the searches found. *)
Lemma byteRange_numbers :
  -1 <= placeholderPos this pdf < Buf.length pdf
  /\ 0 <= placeholderPos this pdf + placeholderLengthWithBrackets this pdf <= Buf.length pdf
  /\ 0 <= Buf.length pdf
          - (placeholderPos this pdf + placeholderLengthWithBrackets this pdf)
       <= Buf.length pdf.
Proof.
  unfold placeholderLengthWithBrackets.
  pose proof (length_nonneg pdf).
  destruct (placeholderPos_range this pdf), (placeholderEnd_range this pdf); lia.
Qed.

Lemma actualByteRange_length :
  Buf.length pdf < 10 ^ 11 ->
  (String.length (actualByteRange this pdf) <= 50)%nat.
Proof.
  intros Hlen. destruct byteRange_numbers as (H1 & H2 & H3).
  unfold actualByteRange, byteRange. cbn [map]. rewrite join4.
  change (JS.toString 0) with "0".
  rewrite !string_length_append. cbn [String.length].
  pose proof (toString_length 11 (placeholderPos this pdf) ltac:(lia)
                ltac:(simpl Z.of_nat; lia)).
  pose proof (toString_length 11
                (placeholderPos this pdf + placeholderLengthWithBrackets this pdf)
                ltac:(lia) ltac:(simpl Z.of_nat; lia)).
  pose proof (toString_length 11
                (Buf.length pdf
                 - (placeholderPos this pdf + placeholderLengthWithBrackets this pdf))
                ltac:(lia) ltac:(simpl Z.of_nat; lia)).
  lia.
Qed.

End Rewrite.

(* ================================================================= *)
(** ** Claims about the byte range *)

(** C7. In a document that holds the placeholder text, the actual
    [/ByteRange] array is written, padded with spaces, over exactly the
    width of the placeholder text: line 70 does not throw, the buffer
    keeps its length, and every byte outside the placeholder text keeps
    its position. The signer has the default placeholder and the buffer
    is shorter than 10^11 bytes, as every Node Buffer is (its largest
    length was 2^31-1, later 2^32): the three numbers then have at most
    eleven digits each. *)
Theorem byteRange_rewrite_preserves_offsets (this : SignPdf) (pdf : Buffer) :
  byteRangePlaceholder this = DEFAULT_BYTE_RANGE_PLACEHOLDER ->
  Buf.length pdf < 10 ^ 11 ->
  byteRangePos this pdf <> -1 ->
  exists text,
    paddedByteRange this pdf = Return text
    /\ String.length text = String.length (byteRangeString this)
    /\ Buf.length (rewriteByteRange this pdf text) = Buf.length pdf
    /\ (forall i : nat,
          Z.of_nat i < byteRangePos this pdf \/ byteRangeEnd this pdf <= Z.of_nat i ->
          nth_error (rewriteByteRange this pdf text) i = nth_error pdf i)
    /\ Buf.slice (rewriteByteRange this pdf text)
         (byteRangePos this pdf) (byteRangeEnd this pdf) = Buf.from text.
Proof.
  intros Hdefault Hlen Hpos.
  destruct (paddedByteRange_fits this pdf) as [text Htext].
  { rewrite byteRangeString_length, Hdefault.
    pose proof (actualByteRange_length this pdf Hlen).
    change (String.length DEFAULT_BYTE_RANGE_PLACEHOLDER) with 10%nat. lia. }
  exists text. split; [exact Htext|].
  destruct (paddedByteRange_length this pdf text Htext) as [Hw _].
  split; [exact Hw|].
  exact (rewriteByteRange_keeps this pdf text Hpos Hw).
Qed.

(* ================================================================= *)
(** ** Excising the placeholder and placing the signature *)

Lemma toString_hex_zeroes (k : nat) :
  Buf.toString_hex (Buf.from (JS.repeat_nat (String zero "") k)) = JS.repeat_nat "00" k.
Proof.
  induction k as [|k IH]; [reflexivity|].
  cbn [JS.repeat_nat]. rewrite from_append.
  change (Buf.from (String zero "")) with ["000"%byte].
  cbn [app Buf.toString_hex]. rewrite IH. reflexivity.
Qed.

Section Embed.

Variable this : SignPdf.
Variable pdf : Buffer.

(** What line 174 appends: [trunc((L - 2 r) / 2)] times "00". *)
Lemma paddedSignature_eq (raw : string) :
  Z.of_nat (String.length raw) * 2 <= placeholderLength this pdf ->
  paddedSignature this pdf raw
  = Return (hexSignature raw
            ++ JS.repeat_nat "00"
                 (Z.to_nat ((placeholderLength this pdf
                             - 2 * Z.of_nat (String.length raw)) / 2))).
Proof.
  intros H. unfold paddedSignature.
  rewrite Z.quot_div_nonneg by lia.
  rewrite repeat_Return by (apply Z.div_pos; lia).
  cbn [bind]. now rewrite toString_hex_zeroes.
Qed.

Lemma hexSignature_length (raw : string) :
  Z.of_nat (String.length (hexSignature raw)) = 2 * Z.of_nat (String.length raw).
Proof. unfold hexSignature. now rewrite toString_hex_length, from_length. Qed.

(** The width of the payload: the placeholder length rounded down to an
    even number. *)
Lemma paddedSignature_length (raw payload : string) :
  Z.of_nat (String.length raw) * 2 <= placeholderLength this pdf ->
  paddedSignature this pdf raw = Return payload ->
  Z.of_nat (String.length payload) = 2 * (placeholderLength this pdf / 2).
Proof.
  intros H Hp. rewrite paddedSignature_eq in Hp by assumption.
  apply Return_inj in Hp. subst payload.
  rewrite string_length_append, repeat_nat_length, Nat2Z.inj_add, hexSignature_length.
  cbn [String.length].
  set (L := placeholderLength this pdf) in *.
  set (r := Z.of_nat (String.length raw)) in *.
  assert (Hdiv : (L - 2 * r) / 2 = L / 2 - r).
  { replace (L - 2 * r) with (L + (- r) * 2) by lia.
    rewrite Z.div_add by lia. lia. }
  assert (0 <= L / 2 - r).
  { rewrite <- Hdiv. apply Z.div_pos; lia. }
  rewrite Hdiv. lia.
Qed.

Hypothesis Hpos : byteRangePos this pdf <> -1.
Hypothesis Hp : placeholderPos this pdf <> -1.
Hypothesis He : placeholderEnd this pdf <> -1.

Variable rewritten : Buffer.
Hypothesis Hrewritten : Buf.length rewritten = Buf.length pdf.

Let p := placeholderPos this pdf.
Let W := placeholderLengthWithBrackets this pdf.

Lemma field_inside : 0 <= p /\ 2 <= W /\ p + W <= Buf.length pdf.
Proof.
  subst p W. unfold placeholderLengthWithBrackets.
  pose proof (brackets_ordered this pdf Hp He). lia.
Qed.

(** Lines 80-83 cut exactly the bytes [p, p + W) out. *)
Lemma removePlaceholder_eq :
  removePlaceholder this pdf rewritten
  = (firstn (Z.to_nat p) rewritten ++ skipn (Z.to_nat (p + W)) rewritten)%list.
Proof.
  destruct field_inside as (H0 & H1 & H2).
  unfold removePlaceholder, byteRange, Buf.concat. cbn [nth List.concat].
  fold p W. rewrite app_nil_r.
  rewrite slice_prefix by lia.
  replace (p + W + (Buf.length pdf - (p + W))) with (Buf.length rewritten) by lia.
  fold (Buf.slice_from rewritten (p + W)).
  rewrite slice_from_in by lia. reflexivity.
Qed.

Lemma removePlaceholder_length :
  Buf.length (removePlaceholder this pdf rewritten) = Buf.length pdf - W.
Proof.
  destruct field_inside as (H0 & H1 & H2).
  rewrite removePlaceholder_eq. unfold Buf.length in *.
  rewrite List.length_app, length_firstn, length_skipn. lia.
Qed.

(** Lines 179-183 insert the bracketed payload where the field was. *)
Lemma placeSignature_eq (payload : string) :
  placeSignature this pdf (removePlaceholder this pdf rewritten) payload
  = (firstn (Z.to_nat p) rewritten
     ++ Buf.from ("<" ++ payload ++ ">")
     ++ skipn (Z.to_nat (p + W)) rewritten)%list.
Proof.
  destruct field_inside as (H0 & H1 & H2).
  pose proof removePlaceholder_length as Hlen.
  unfold placeSignature, byteRange, Buf.concat. cbn [nth List.concat].
  fold p. rewrite app_nil_r.
  rewrite slice_prefix, slice_from_in by lia.
  rewrite removePlaceholder_eq.
  assert (Hf : List.length (firstn (Z.to_nat p) rewritten) = Z.to_nat p).
  { rewrite length_firstn. unfold Buf.length in *. lia. }
  rewrite firstn_app, skipn_app, Hf, Nat.sub_diag. cbn [firstn skipn].
  rewrite app_nil_r, firstn_firstn, Nat.min_id.
  rewrite skipn_all2 by lia. reflexivity.
Qed.

(** The signed buffer is the excised buffer with the bracketed payload
    inserted at [p], and nothing else changed. *)
Lemma placeSignature_insertion (payload : string) :
  let excised := removePlaceholder this pdf rewritten in
  placeSignature this pdf excised payload
  = (firstn (Z.to_nat p) excised
     ++ Buf.from ("<" ++ payload ++ ">")
     ++ skipn (Z.to_nat p) excised)%list.
Proof.
  intros excised. destruct field_inside as (H0 & H1 & H2).
  pose proof removePlaceholder_length as Hlen. fold excised in Hlen.
  unfold placeSignature, byteRange, Buf.concat. cbn [nth List.concat].
  fold p. rewrite app_nil_r.
  rewrite slice_prefix, slice_from_in by lia. reflexivity.
Qed.

Lemma placeSignature_length (payload : string) :
  Buf.length (placeSignature this pdf (removePlaceholder this pdf rewritten) payload)
  = Buf.length pdf - W + 2 + Z.of_nat (String.length payload).
Proof.
  destruct field_inside as (H0 & H1 & H2).
  rewrite placeSignature_eq, !length_app, from_length.
  rewrite !string_length_append. cbn [String.length].
  unfold Buf.length in *. rewrite length_firstn, length_skipn. lia.
Qed.

End Embed.

(* ================================================================= *)
(** ** What a run of [sign] went through *)

Section SignResults.

Context {forge : Toolkit}.

(** A run that returns a buffer passed every stage. *)
Lemma sign_staged_Return now pdf p12Buffer o this out this' :
  sign_staged now pdf p12Buffer o this = (Return out, this') ->
  byteRangePos this pdf <> -1
  /\ exists text raw payload,
       paddedByteRange this pdf = Return text
       /\ buildSignature now (removePlaceholder this pdf (rewriteByteRange this pdf text))
            p12Buffer o = Return raw
       /\ Z.of_nat (String.length raw) * 2 <= placeholderLength this pdf
       /\ paddedSignature this pdf raw = Return payload
       /\ out = placeSignature this pdf
                  (removePlaceholder this pdf (rewriteByteRange this pdf text)) payload
       /\ this' = stored this (hexSignature raw).
Proof.
  unfold sign_staged.
  destruct (byteRangePos this pdf =? -1) eqn:Epos; [discriminate|].
  apply Z.eqb_neq in Epos.
  destruct (paddedByteRange this pdf) as [text|]; [|discriminate].
  destruct (buildSignature _ _ _ _) as [raw|] eqn:Eraw; [|discriminate].
  destruct (_ >? _) eqn:Efit; [discriminate|].
  destruct (paddedSignature this pdf raw) as [payload|] eqn:Epay; [|discriminate].
  intros H. injection H as <- <-.
  split; [exact Epos|]. exists text, raw, payload.
  repeat split; try assumption.
  rewrite Z.gtb_ltb in Efit. apply Z.ltb_ge in Efit. exact Efit.
Qed.

(** A signature that fits is always placed. *)
Lemma sign_staged_fits now pdf p12Buffer o this text raw :
  byteRangePos this pdf <> -1 ->
  paddedByteRange this pdf = Return text ->
  buildSignature now (removePlaceholder this pdf (rewriteByteRange this pdf text))
    p12Buffer o = Return raw ->
  Z.of_nat (String.length raw) * 2 <= placeholderLength this pdf ->
  exists payload,
    paddedSignature this pdf raw = Return payload
    /\ sign_staged now pdf p12Buffer o this
       = (Return (placeSignature this pdf
                    (removePlaceholder this pdf (rewriteByteRange this pdf text)) payload),
          stored this (hexSignature raw)).
Proof.
  intros Hpos Htext Hraw Hfit.
  eexists. split; [apply paddedSignature_eq; exact Hfit|].
  unfold sign_staged.
  apply Z.eqb_neq in Hpos. rewrite Hpos, Htext, Hraw.
  replace (_ >? _) with false
    by (symmetry; rewrite Z.gtb_ltb; apply Z.ltb_ge; exact Hfit).
  rewrite paddedSignature_eq by exact Hfit. reflexivity.
Qed.

End SignResults.

(* ================================================================= *)
(** ** Claims about [sign] *)

(** C5. Whenever the hexadecimal signature -- twice as long as the DER
    bytes -- is longer than the placeholder, [sign] throws the input
    error "Signature exceeds placeholder length: ..." and returns no
    buffer; the signer instance is left as it was (the signature is not
    stored). *)
Theorem oversized_signature_is_rejected {forge : Toolkit}
    (removeTrailingNewLine : Buffer -> Buffer)
    (now : Z) (pdfBuffer p12Buffer : Buffer) (o : Options) (this : SignPdf)
    (text raw : string) :
  let pdf := removeTrailingNewLine pdfBuffer in
  byteRangePos this pdf <> -1 ->
  paddedByteRange this pdf = Return text ->
  buildSignature now (removePlaceholder this pdf (rewriteByteRange this pdf text))
    p12Buffer o = Return raw ->
  Z.of_nat (String.length (hexSignature raw)) > placeholderLength this pdf ->
  Z.of_nat (String.length (hexSignature raw)) = Z.of_nat (String.length raw) * 2
  /\ sign removeTrailingNewLine now (VBuffer pdfBuffer) (VBuffer p12Buffer) o this
     = (Throw (SignPdfError
                 ("Signature exceeds placeholder length: "
                  ++ JS.toString (Z.of_nat (String.length (hexSignature raw)))
                  ++ " > " ++ JS.toString (placeholderLength this pdf))
                 TYPE_INPUT),
        this).
Proof.
  intros pdf Hpos Htext Hraw Hlong.
  pose proof (hexSignature_length raw) as Hhex.
  split; [lia|].
  rewrite sign_stages. fold pdf. unfold sign_staged.
  apply Z.eqb_neq in Hpos. rewrite Hpos, Htext, Hraw.
  replace (_ >? _) with true by (symmetry; apply Z.gtb_lt; lia).
  unfold signatureTooLong. rewrite Hhex.
  replace (2 * Z.of_nat (String.length raw)) with (Z.of_nat (String.length raw) * 2) by lia.
  reflexivity.
Qed.

(* ================================================================= *)
(** ** The signed buffer *)

Lemma slice_app_l (a b : Buffer) (s e : Z) :
  0 <= s <= e -> e <= Buf.length a ->
  Buf.slice (a ++ b)%list s e = Buf.slice a s e.
Proof.
  intros H1 H2. pose proof (length_nonneg b).
  rewrite !slice_in by (rewrite ?length_app; lia).
  unfold Buf.length in *.
  rewrite skipn_app, firstn_app, length_skipn.
  replace (Z.to_nat (e - s) - (List.length a - Z.to_nat s))%nat with 0%nat by lia.
  cbn [firstn]. apply app_nil_r.
Qed.

Lemma slice_firstn (b : Buffer) (k s e : Z) :
  0 <= s <= e -> e <= k -> k <= Buf.length b ->
  Buf.slice (firstn (Z.to_nat k) b) s e = Buf.slice b s e.
Proof.
  intros H1 H2 H3.
  rewrite <- (firstn_skipn (Z.to_nat k) b) at 2.
  rewrite slice_app_l; [reflexivity | lia |].
  unfold Buf.length in *. rewrite length_firstn. lia.
Qed.

Lemma slice_to_end (b : Buffer) (s e : Z) :
  0 <= s <= Buf.length b -> Buf.length b <= e ->
  Buf.slice b s e = skipn (Z.to_nat s) b.
Proof.
  intros H1 H2. unfold Buf.slice.
  rewrite (adjustOffset_in s) by lia.
  assert (He : Buf.adjustOffset e (Buf.length b) = Buf.length b).
  { unfold Buf.adjustOffset.
    destruct (e <? 0) eqn:E1; [apply Z.ltb_lt in E1; lia|].
    destruct (e <? Buf.length b) eqn:E2; [apply Z.ltb_lt in E2; lia | reflexivity]. }
  rewrite He. apply firstn_all2. rewrite length_skipn. unfold Buf.length in *. lia.
Qed.

Section Signed.

Variable this : SignPdf.
Variable pdf : Buffer.
Variable text : string.

Hypothesis Hpos : byteRangePos this pdf <> -1.
Hypothesis Hc : contentsTagPos this pdf <> -1.
Hypothesis Hp : placeholderPos this pdf <> -1.
Hypothesis He : placeholderEnd this pdf <> -1.
Hypothesis Hwidth : String.length text = String.length (byteRangeString this).

Let p := placeholderPos this pdf.
Let W := placeholderLengthWithBrackets this pdf.
Let rewritten := rewriteByteRange this pdf text.
Let excised := removePlaceholder this pdf rewritten.

Lemma rewritten_length : Buf.length rewritten = Buf.length pdf.
Proof. subst rewritten. now apply rewriteByteRange_keeps. Qed.

(** The placeholder text lies before the signature field. *)
Lemma byteRange_before_field :
  0 <= byteRangePos this pdf /\ byteRangeEnd this pdf <= p.
Proof.
  destruct (byteRangePos_found this pdf Hpos) as [H0 H1].
  assert (Hend : 0 <= byteRangeEnd this pdf) by (unfold byteRangeEnd; lia).
  split; [exact H0|].
  assert (Hct : byteRangeEnd this pdf <= contentsTagPos this pdf).
  { unfold contentsTagPos in *.
    destruct (indexOf_spec pdf "/Contents " (byteRangeEnd this pdf))
      as [E | (_ & _ & _ & H)]; [contradiction | now apply H]. }
  subst p. unfold placeholderPos in *.
  destruct (indexOf_spec pdf "<" (contentsTagPos this pdf))
    as [E | (_ & _ & _ & H)]; [contradiction|].
  specialize (H ltac:(lia)). lia.
Qed.

(** The byte range written at line 73 is still where it was in the
    signed buffer. *)
Lemma signed_byteRange_text (payload : string) :
  Buf.slice (placeSignature this pdf excised payload)
    (byteRangePos this pdf) (byteRangeEnd this pdf) = Buf.from text.
Proof.
  destruct byteRange_before_field as [H0 H1].
  destruct (field_inside this pdf Hp He) as (Hp0 & HW & Hfit).
  pose proof rewritten_length as Hlen.
  assert (Hend : byteRangePos this pdf <= byteRangeEnd this pdf)
    by (unfold byteRangeEnd; lia).
  subst excised. rewrite (placeSignature_eq this pdf Hp He rewritten Hlen).
  fold p W in Hp0, HW, Hfit |- *.
  rewrite slice_app_l.
  - rewrite slice_firstn by lia.
    subst rewritten. now apply rewriteByteRange_keeps.
  - lia.
  - unfold Buf.length in *. rewrite length_firstn. lia.
Qed.

(** The bytes that the written byte range designates in the signed
    buffer, when the payload is as wide as the placeholder: they are
    the bytes that were signed. *)
Lemma signedSpans_full (payload : string) :
  Z.of_nat (String.length payload) = placeholderLength this pdf ->
  signedSpans (placeSignature this pdf excised payload) (byteRange this pdf) = excised.
Proof.
  intros Hpay.
  destruct (field_inside this pdf Hp He) as (Hp0 & HW & Hfit).
  pose proof rewritten_length as Hlen.
  subst excised.
  rewrite (placeSignature_eq this pdf Hp He rewritten Hlen).
  rewrite (removePlaceholder_eq this pdf Hp He rewritten Hlen).
  fold p W in Hp0, HW, Hfit |- *.
  unfold signedSpans, byteRange, Buf.concat. cbn [nth List.concat]. fold p W.
  rewrite app_nil_r, Z.add_0_l.
  set (A := firstn (Z.to_nat p) rewritten).
  set (F := Buf.from ("<" ++ payload ++ ">")).
  set (B := skipn (Z.to_nat (p + W)) rewritten).
  assert (HA : Buf.length A = p).
  { subst A. unfold Buf.length in *. rewrite length_firstn. lia. }
  assert (HF : Buf.length F = W).
  { subst F. rewrite from_length, !string_length_append. cbn [String.length].
    unfold placeholderLength in Hpay. fold W in Hpay. lia. }
  assert (HB : Buf.length B = Buf.length pdf - (p + W)).
  { subst B. unfold Buf.length in *. rewrite length_skipn. lia. }
  f_equal.
  - rewrite slice_app_l by lia. rewrite slice_prefix by lia.
    rewrite <- HA. unfold Buf.length. rewrite Nat2Z.id. apply firstn_all.
  - rewrite slice_to_end by (rewrite !length_app; lia).
    rewrite app_assoc.
    replace (Z.to_nat (p + W)) with (List.length (A ++ F)%list + 0)%nat
      by (unfold Buf.length in *; rewrite List.length_app; lia).
    rewrite skipn_app, skipn_all2 by lia.
    replace (_ + 0 - _)%nat with 0%nat by lia. reflexivity.
Qed.

(** The same when the payload is one character short: the second span
    starts one byte late, and the designated bytes are one fewer than
    the signed ones. *)
Lemma signedSpans_short (payload : string) :
  Z.of_nat (String.length payload) = placeholderLength this pdf - 1 ->
  p + W < Buf.length pdf ->
  Buf.length (signedSpans (placeSignature this pdf excised payload) (byteRange this pdf))
  = Buf.length excised - 1.
Proof.
  intros Hpay Hafter.
  destruct (field_inside this pdf Hp He) as (Hp0 & HW & Hfit).
  pose proof rewritten_length as Hlen.
  pose proof (removePlaceholder_length this pdf Hp He rewritten Hlen) as Hex.
  fold excised W in Hex. rewrite Hex.
  subst excised.
  rewrite (placeSignature_eq this pdf Hp He rewritten Hlen).
  fold p W in Hp0, HW, Hfit |- *.
  unfold signedSpans, byteRange, Buf.concat. cbn [nth List.concat]. fold p W.
  rewrite app_nil_r, Z.add_0_l.
  set (A := firstn (Z.to_nat p) rewritten).
  set (F := Buf.from ("<" ++ payload ++ ">")).
  set (B := skipn (Z.to_nat (p + W)) rewritten).
  assert (HA : Buf.length A = p).
  { subst A. unfold Buf.length in *. rewrite length_firstn. lia. }
  assert (HF : Buf.length F = W - 1).
  { subst F. rewrite from_length, !string_length_append. cbn [String.length].
    unfold placeholderLength in Hpay. fold W in Hpay. lia. }
  assert (HB : Buf.length B = Buf.length pdf - (p + W)).
  { subst B. unfold Buf.length in *. rewrite length_skipn. lia. }
  rewrite length_app.
  rewrite slice_app_l by lia. rewrite slice_length by lia.
  rewrite slice_to_end by (rewrite !length_app; lia).
  unfold Buf.length in *. rewrite length_skipn, !List.length_app. lia.
Qed.

End Signed.

(** C6, amended. [pdf] is the buffer that [removeTrailingNewLine]
    returned for the document, the one [sign] works on from line 40 on.
    If it holds the placeholder text and, after it, the [/Contents] tag
    and the "<" and ">" of the signature field, then the byte range that
    [sign] computes starts at 0 and consists of two spans around that
    field: the first ends at its "<", the second begins after its ">"
    and runs to the end of [pdf], so the two lengths and the bracketed
    width of the field add up to the length of [pdf]. Lines 80-83 remove
    exactly the field, and a buffer that [sign] returns holds this byte
    range, padded, where the placeholder text was. *)
Theorem byteRange_spans_cover_document {forge : Toolkit}
    (removeTrailingNewLine : Buffer -> Buffer)
    (now : Z) (pdfBuffer p12Buffer : Buffer) (o : Options) (this : SignPdf) :
  let pdf := removeTrailingNewLine pdfBuffer in
  let width := placeholderLengthWithBrackets this pdf in
  byteRangePos this pdf <> -1 ->
  contentsTagPos this pdf <> -1 ->
  placeholderPos this pdf <> -1 ->
  placeholderEnd this pdf <> -1 ->
  exists len0 start1 len1,
    byteRange this pdf = [0; len0; start1; len1]
    /\ actualByteRange this pdf
       = "/ByteRange [0 " ++ JS.toString len0 ++ " " ++ JS.toString start1
         ++ " " ++ JS.toString len1 ++ "]"
    /\ len0 = placeholderPos this pdf
    /\ start1 = len0 + width
    /\ 0 <= byteRangeEnd this pdf <= len0
    /\ 2 <= width
    /\ 0 <= len1
    /\ nth_error pdf (Z.to_nat len0) = Some "<"%byte
    /\ nth_error pdf (Z.to_nat (start1 - 1)) = Some ">"%byte
    /\ start1 + len1 = Buf.length pdf
    /\ len0 + len1 + width = Buf.length pdf
    /\ (forall text,
          paddedByteRange this pdf = Return text ->
          let rewritten := rewriteByteRange this pdf text in
          (exists padding, text = actualByteRange this pdf ++ padding)
          /\ removePlaceholder this pdf rewritten
             = (firstn (Z.to_nat len0) rewritten
                ++ skipn (Z.to_nat start1) rewritten)%list)
    /\ (forall out this',
          sign removeTrailingNewLine now (VBuffer pdfBuffer) (VBuffer p12Buffer) o this
          = (Return out, this') ->
          exists padding,
            Buf.slice out (byteRangePos this pdf) (byteRangeEnd this pdf)
            = Buf.from (actualByteRange this pdf ++ padding)).
Proof.
  intros pdf width Hpos Hc Hp He.
  exists (placeholderPos this pdf), (placeholderPos this pdf + width),
    (Buf.length pdf - (placeholderPos this pdf + width)).
  destruct (field_inside this pdf Hp He) as (H0 & H1 & H2). fold width in H1, H2.
  split; [reflexivity|]. split.
  { unfold actualByteRange, byteRange. cbn [map]. rewrite join4.
    change (JS.toString 0) with "0". fold width.
    rewrite !string_append_assoc. reflexivity. }
  split; [reflexivity|]. split; [reflexivity|]. split.
  { destruct (byteRange_before_field this pdf (byteRangeString this)
                Hpos Hc Hp eq_refl) as [Hstart Hbefore].
    split; [unfold byteRangeEnd; lia | exact Hbefore]. }
  split; [exact H1|]. split; [lia|]. split.
  { exact (indexOf_char pdf "<" (contentsTagPos this pdf) Hp). }
  split.
  { replace (placeholderPos this pdf + width - 1) with (placeholderEnd this pdf)
      by (subst width; unfold placeholderLengthWithBrackets; lia).
    exact (indexOf_char pdf ">" (placeholderPos this pdf) He). }
  split; [lia|]. split; [lia|]. split.
  { intros text Htext rewritten.
    destruct (paddedByteRange_length this pdf text Htext) as [Hw Hpad].
    split; [exact Hpad|].
    apply removePlaceholder_eq; [exact Hp | exact He |].
    subst rewritten. now apply rewriteByteRange_keeps. }
  intros out this' Hsign.
  rewrite sign_stages in Hsign. fold pdf in Hsign.
  destruct (sign_staged_Return _ _ _ _ _ _ _ Hsign)
    as (_ & text & raw & payload & Htext & _ & _ & _ & Hout & _).
  destruct (paddedByteRange_length this pdf text Htext) as [Hw (padding & Hpad)].
  exists padding. rewrite <- Hpad, Hout.
  exact (signed_byteRange_text this pdf text Hpos Hc Hp He Hw payload).
Qed.

(** C8, on the code: in a run of [sign] that returns, the payload
    between the brackets is the hexadecimal signature followed by "00"
    repeated [trunc((placeholderLength - 2 raw.length) / 2)] times, and the
    signed buffer is the excised buffer with that bracketed payload
    inserted at the offset of the field. The payload is as long as the
    placeholder when that length is even, and one character shorter
    when it is odd. *)
Theorem signature_payload_width {forge : Toolkit}
    (removeTrailingNewLine : Buffer -> Buffer)
    (now : Z) (pdfBuffer p12Buffer : Buffer) (o : Options) (this this' : SignPdf)
    (out : Buffer) :
  let pdf := removeTrailingNewLine pdfBuffer in
  sign removeTrailingNewLine now (VBuffer pdfBuffer) (VBuffer p12Buffer) o this
  = (Return out, this') ->
  placeholderPos this pdf <> -1 ->
  exists text raw payload,
    paddedByteRange this pdf = Return text
    /\ buildSignature now (removePlaceholder this pdf (rewriteByteRange this pdf text))
         p12Buffer o = Return raw
    /\ payload = hexSignature raw
                 ++ JS.repeat_nat "00"
                      (Z.to_nat ((placeholderLength this pdf
                                  - 2 * Z.of_nat (String.length raw)) / 2))
    /\ (let excised := removePlaceholder this pdf (rewriteByteRange this pdf text) in
        out = (firstn (Z.to_nat (placeholderPos this pdf)) excised
               ++ Buf.from ("<" ++ payload ++ ">")
               ++ skipn (Z.to_nat (placeholderPos this pdf)) excised)%list)
    /\ (Z.even (placeholderLength this pdf) = true ->
        Z.of_nat (String.length payload) = placeholderLength this pdf)
    /\ (Z.odd (placeholderLength this pdf) = true ->
        Z.of_nat (String.length payload) = placeholderLength this pdf - 1).
Proof.
  intros pdf Hsign Hp. rewrite sign_stages in Hsign. fold pdf in Hsign.
  destruct (sign_staged_Return _ _ _ _ _ _ _ Hsign)
    as (Hpos & text & raw & payload & Htext & Hraw & Hfit & Hpay & Hout & _).
  assert (He : placeholderEnd this pdf <> -1).
  { destruct (placeholderPos_range this pdf) as [|Hr]; [contradiction|].
    unfold placeholderLength, placeholderLengthWithBrackets in Hfit. lia. }
  destruct (paddedByteRange_length this pdf text Htext) as [Hw _].
  destruct (rewriteByteRange_keeps this pdf text Hpos Hw) as (Hlen & _).
  pose proof (paddedSignature_length this pdf raw payload Hfit Hpay) as Hsize.
  rewrite paddedSignature_eq in Hpay by exact Hfit. apply Return_inj in Hpay.
  exists text, raw, payload.
  split; [exact Htext|]. split; [exact Hraw|]. split; [now symmetry|]. split.
  { cbv zeta. rewrite Hout. now apply placeSignature_insertion. }
  split; intros Hparity.
  - apply Zeven_bool_iff, Zeven_div2 in Hparity.
    rewrite Z.div2_div in Hparity. lia.
  - apply Zodd_bool_iff, Zodd_div2 in Hparity.
    rewrite Z.div2_div in Hparity. lia.
Qed.

(** C2, on the code: in a run of [sign] that returns for a document
    whose placeholder has an odd length and is followed by further
    bytes, the byte range written into the signed buffer designates one
    byte fewer than the content that was signed, so the digest that
    [verify] recomputes over the designated bytes is not taken over the
    signed content. *)
Theorem odd_placeholder_breaks_signed_bytes {forge : Toolkit}
    (removeTrailingNewLine : Buffer -> Buffer)
    (now : Z) (pdfBuffer p12Buffer : Buffer) (o : Options) (this this' : SignPdf)
    (out : Buffer) :
  let pdf := removeTrailingNewLine pdfBuffer in
  sign removeTrailingNewLine now (VBuffer pdfBuffer) (VBuffer p12Buffer) o this
  = (Return out, this') ->
  contentsTagPos this pdf <> -1 ->
  placeholderPos this pdf <> -1 ->
  Z.odd (placeholderLength this pdf) = true ->
  placeholderEnd this pdf + 1 < Buf.length pdf ->
  exists text raw,
    let content := removePlaceholder this pdf (rewriteByteRange this pdf text) in
    paddedByteRange this pdf = Return text
    /\ buildSignature now content p12Buffer o = Return raw
    /\ Buf.slice out (byteRangePos this pdf) (byteRangeEnd this pdf) = Buf.from text
    /\ Buf.length (signedSpans out (byteRange this pdf)) = Buf.length content - 1
    /\ signedSpans out (byteRange this pdf) <> content.
Proof.
  intros pdf Hsign Hc Hp Hodd Hafter. pose proof Hsign as Hsign'.
  rewrite sign_stages in Hsign. fold pdf in Hsign.
  destruct (sign_staged_Return _ _ _ _ _ _ _ Hsign)
    as (Hpos & text & raw & payload & Htext & Hraw & Hfit & Hpay & Hout & _).
  assert (He : placeholderEnd this pdf <> -1).
  { destruct (placeholderPos_range this pdf) as [|Hr]; [contradiction|].
    unfold placeholderLength, placeholderLengthWithBrackets in Hfit. lia. }
  destruct (paddedByteRange_length this pdf text Htext) as [Hw _].
  pose proof (paddedSignature_length this pdf raw payload Hfit Hpay) as Hsize.
  assert (Hshort : Z.of_nat (String.length payload) = placeholderLength this pdf - 1).
  { apply Zodd_bool_iff, Zodd_div2 in Hodd. rewrite Z.div2_div in Hodd. lia. }
  assert (Hlen : Buf.length (signedSpans out (byteRange this pdf))
                 = Buf.length (removePlaceholder this pdf (rewriteByteRange this pdf text)) - 1).
  { rewrite Hout. apply signedSpans_short; try assumption.
    unfold placeholderLengthWithBrackets. lia. }
  exists text, raw. cbv zeta.
  split; [exact Htext|]. split; [exact Hraw|]. split.
  { rewrite Hout. now apply signed_byteRange_text. }
  split; [exact Hlen|].
  intros Heq. rewrite Heq in Hlen. lia.
Qed.

(** The even case, for comparison: the byte range written into the
    signed buffer designates exactly the content that was signed. *)
Lemma even_placeholder_keeps_signed_bytes {forge : Toolkit}
    (removeTrailingNewLine : Buffer -> Buffer)
    (now : Z) (pdfBuffer p12Buffer : Buffer) (o : Options) (this this' : SignPdf)
    (out : Buffer) :
  let pdf := removeTrailingNewLine pdfBuffer in
  sign removeTrailingNewLine now (VBuffer pdfBuffer) (VBuffer p12Buffer) o this
  = (Return out, this') ->
  contentsTagPos this pdf <> -1 ->
  placeholderPos this pdf <> -1 ->
  Z.even (placeholderLength this pdf) = true ->
  exists text raw,
    let content := removePlaceholder this pdf (rewriteByteRange this pdf text) in
    paddedByteRange this pdf = Return text
    /\ buildSignature now content p12Buffer o = Return raw
    /\ Buf.slice out (byteRangePos this pdf) (byteRangeEnd this pdf) = Buf.from text
    /\ Buf.length out = Buf.length pdf
    /\ signedSpans out (byteRange this pdf) = content.
Proof.
  intros pdf Hsign Hc Hp Heven.
  rewrite sign_stages in Hsign. fold pdf in Hsign.
  destruct (sign_staged_Return _ _ _ _ _ _ _ Hsign)
    as (Hpos & text & raw & payload & Htext & Hraw & Hfit & Hpay & Hout & _).
  assert (He : placeholderEnd this pdf <> -1).
  { destruct (placeholderPos_range this pdf) as [|Hr]; [contradiction|].
    unfold placeholderLength, placeholderLengthWithBrackets in Hfit. lia. }
  destruct (paddedByteRange_length this pdf text Htext) as [Hw _].
  destruct (rewriteByteRange_keeps this pdf text Hpos Hw) as (Hsame & _).
  pose proof (paddedSignature_length this pdf raw payload Hfit Hpay) as Hsize.
  assert (Hfull : Z.of_nat (String.length payload) = placeholderLength this pdf).
  { apply Zeven_bool_iff, Zeven_div2 in Heven. rewrite Z.div2_div in Heven. lia. }
  exists text, raw. cbv zeta.
  split; [exact Htext|]. split; [exact Hraw|]. split.
  { rewrite Hout. now apply signed_byteRange_text. }
  split.
  { rewrite Hout, (placeSignature_length this pdf Hp He _ Hsame), Hfull.
    unfold placeholderLength. lia. }
  rewrite Hout. now apply signedSpans_full.
Qed.

(* ================================================================= *)
(** ** Errors of the signature builder *)

Section BuilderErrors.

Context {forge : Toolkit}.

Lemma lib_not_parse_error {A} (r : string + A) (err : exn) :
  lib r = Throw err -> is_parse_error err = false.
Proof. destruct r; intros H; [injection H as <-; reflexivity | discriminate]. Qed.

(** Lines 86-159 throw library errors, a TypeError or the input error
    of line 127, never a parse error. *)
Lemma buildSignature_no_parse_error now content p12Buffer o err :
  buildSignature now content p12Buffer o = Throw err -> is_parse_error err = false.
Proof.
  unfold buildSignature.
  destruct (lib (asn1_fromDer _)) as [p12Asn1|e0] eqn:E0; cbn [bind];
    [|intros H; injection H as <-; exact (lib_not_parse_error _ _ E0)].
  destruct (lib (pkcs12FromAsn1 _ _ _)) as [p12|e1] eqn:E1; cbn [bind];
    [|intros H; injection H as <-; exact (lib_not_parse_error _ _ E1)].
  destruct (keyBags p12) as [|keyBag0 others];
    [intros H; injection H as <-; reflexivity|].
  destruct (forEach_certBags _ _ _ _) as [p7 [certificate|]];
    [|intros H; injection H as <-; reflexivity].
  destruct (lib (addSigner _ _)) as [p7a|e2] eqn:E2; cbn [bind];
    [|intros H; injection H as <-; exact (lib_not_parse_error _ _ E2)].
  destruct (lib (sign_detached _)) as [p7b|e3] eqn:E3; cbn [bind];
    [|intros H; injection H as <-; exact (lib_not_parse_error _ _ E3)].
  destruct (lib (toAsn1 _)) as [p7Asn1|e4] eqn:E4; cbn [bind];
    [|intros H; injection H as <-; exact (lib_not_parse_error _ _ E4)].
  apply lib_not_parse_error.
Qed.

Lemma paddedByteRange_error this pdf err :
  paddedByteRange this pdf = Throw err -> err = RangeError.
Proof.
  unfold paddedByteRange, JS.repeat.
  destruct (_ <? 0); cbn [bind]; [intros H; now injection H | discriminate].
Qed.

(** With the placeholder text found but a negative placeholder length,
    [sign] always throws, and never a parse error. *)
Lemma negative_placeholder_no_parse_error now pdf p12Buffer o this :
  byteRangePos this pdf <> -1 ->
  placeholderLength this pdf < 0 ->
  exists err,
    sign_staged now pdf p12Buffer o this = (Throw err, this)
    /\ is_parse_error err = false.
Proof.
  intros Hpos Hneg. unfold sign_staged.
  apply Z.eqb_neq in Hpos. rewrite Hpos.
  destruct (paddedByteRange this pdf) as [text|err] eqn:Etext.
  - destruct (buildSignature _ _ _ _) as [raw|err] eqn:Eraw.
    + replace (_ >? _) with true by (symmetry; apply Z.gtb_lt; lia).
      eexists. split; reflexivity.
    + exists err. split; [reflexivity|].
      exact (buildSignature_no_parse_error _ _ _ _ _ Eraw).
  - exists err. split; [reflexivity|].
    now rewrite (paddedByteRange_error _ _ _ Etext).
Qed.

End BuilderErrors.

(** C3, on the code: a document with the placeholder text but no
    [/Contents] entry. The searches of lines 60-62 all answer -1, the
    placeholder length is -1, and [sign] goes on to build the
    signature; whatever the toolkit and the container, it ends in an
    error that is not a parse error. *)
Theorem missing_contents_is_no_parse_error {forge : Toolkit}
    (now : Z) (p12Buffer : value) (o : Options) (last : option string) :
  let this := {| byteRangePlaceholder := DEFAULT_BYTE_RANGE_PLACEHOLDER;
                 lastSignature := last |} in
  let pdf := Samples.trim Samples.document_without_contents in
  byteRangePos this pdf = 86
  /\ contentsTagPos this pdf = -1
  /\ byteRange this pdf = [0; -1; 0; Buf.length pdf]
  /\ placeholderLength this pdf = -1
  /\ exists err,
       sign Samples.trim now (VBuffer Samples.document_without_contents) p12Buffer o this
       = (Throw err, this)
       /\ is_parse_error err = false.
Proof.
  intros this pdf.
  assert (Hpos : byteRangePos this pdf = 86) by (vm_compute; reflexivity).
  assert (Hlen : placeholderLength this pdf = -1) by (vm_compute; reflexivity).
  split; [exact Hpos|].
  split; [vm_compute; reflexivity|].
  split; [vm_compute; reflexivity|].
  split; [exact Hlen|].
  destruct p12Buffer as [| |k|s|p12Buffer];
    [eexists; split; reflexivity .. |].
  rewrite sign_stages. fold pdf.
  apply negative_placeholder_no_parse_error; [rewrite Hpos; discriminate | lia].
Qed.

(* ================================================================= *)
(** ** The signing certificate *)

Lemma find_app_last {A} (f : A -> bool) (l : list A) (x : A) :
  List.find f (l ++ [x]) =
  match List.find f l with
  | Some y => Some y
  | None => if f x then Some x else None
  end.
Proof.
  induction l as [|y l IH]; simpl; [reflexivity|].
  destruct (f y); [reflexivity | exact IH].
Qed.

Section Certificates.

Context {forge : Toolkit}.

(** The loop leaves in [certificate] the last certificate, in bag
    order, that matches the private key, and its initial value when
    none does. *)
Lemma forEach_certBags_last (privateKey : PrivateKey) (bags : list CertBag) :
  forall (p7 : Pkcs7) (certificate : option Certificate),
    snd (forEach_certBags privateKey bags p7 certificate)
    = match List.find (matches privateKey) (rev (map cert bags)) with
      | Some c => Some c
      | None => certificate
      end.
Proof.
  induction bags as [|bag rest IH]; intros p7 certificate; [reflexivity|].
  cbn [forEach_certBags map rev]. rewrite IH, find_app_last.
  fold (matches privateKey (cert bag)).
  destruct (List.find (matches privateKey) (rev (map cert rest))); [reflexivity|].
  destruct (matches privateKey (cert bag)); reflexivity.
Qed.

End Certificates.

(** C4, as the code has it: of the certificates whose public key has the
    modulus and the exponent of the private key, the last one in bag
    order is the signing certificate -- it is the one passed to
    [addSigner]; when no certificate matches, [sign] throws the input
    error of line 127. *)
Theorem signing_certificate_is_last_match {forge : Toolkit}
    (removeTrailingNewLine : Buffer -> Buffer)
    (now : Z) (pdfBuffer p12Buffer : Buffer) (o : Options) (this : SignPdf)
    (text : string) (p12Asn1 : jsv) (p12 : Pkcs12)
    (keyBag0 : KeyBag) (others : list KeyBag) :
  let pdf := removeTrailingNewLine pdfBuffer in
  let content := removePlaceholder this pdf (rewriteByteRange this pdf text) in
  let privateKey := key keyBag0 in
  byteRangePos this pdf <> -1 ->
  paddedByteRange this pdf = Return text ->
  asn1_fromDer (Buf.toString_binary p12Buffer) = inr p12Asn1 ->
  pkcs12FromAsn1 p12Asn1
    match asn1StrictParsing o with Some b => b | None => false end
    match passphrase o with Some s => s | None => "" end = inr p12 ->
  keyBags p12 = keyBag0 :: others ->
  match List.find (matches privateKey) (rev (map cert (certBags p12))) with
  | None =>
      sign removeTrailingNewLine now (VBuffer pdfBuffer) (VBuffer p12Buffer) o this
      = (Throw (SignPdfError
                  "Failed to find a certificate that matches the private key."
                  TYPE_INPUT),
         this)
  | Some certificate =>
      buildSignature now content p12Buffer o
      = (p7 <- lib (addSigner
                      (fst (forEach_certBags privateKey (certBags p12)
                              (set_content createSignedData
                                 (Buf.toString_binary content))
                              None))
                      {| signer_key := privateKey;
                         signer_certificate := certificate;
                         digestAlgorithm := oids.sha256;
                         authenticatedAttributes := [
                           {| attr_type := oids.contentType;
                              attr_value := Some (OidValue oids.data) |};
                           {| attr_type := oids.messageDigest;
                              attr_value := None |};
                           {| attr_type := oids.signingTime;
                              attr_value := Some (DateValue now) |} ] |}) ;;
         p7 <- lib (sign_detached p7) ;;
         p7Asn1 <- lib (toAsn1 p7) ;;
         lib (asn1_toDer p7Asn1))
  end.
Proof.
  intros pdf content privateKey Hpos Htext Hder Hp12 Hkey.
  assert (Hbuild : forall c : Buffer,
    buildSignature now c p12Buffer o
    = let '(p7, certificate) :=
        forEach_certBags privateKey (certBags p12)
          (set_content createSignedData (Buf.toString_binary c)) None in
      match certificate with
      | None =>
          Throw (SignPdfError
                   "Failed to find a certificate that matches the private key."
                   TYPE_INPUT)
      | Some certificate =>
          p7 <- lib (addSigner p7
                 {| signer_key := privateKey;
                    signer_certificate := certificate;
                    digestAlgorithm := oids.sha256;
                    authenticatedAttributes := [
                      {| attr_type := oids.contentType;
                         attr_value := Some (OidValue oids.data) |};
                      {| attr_type := oids.messageDigest;
                         attr_value := None |};
                      {| attr_type := oids.signingTime;
                         attr_value := Some (DateValue now) |} ] |}) ;;
          p7 <- lib (sign_detached p7) ;;
          p7Asn1 <- lib (toAsn1 p7) ;;
          lib (asn1_toDer p7Asn1)
      end).
  { intros c. unfold buildSignature. rewrite Hder. cbn [lib bind].
    rewrite Hp12. cbn [lib bind]. rewrite Hkey. reflexivity. }
  pose proof (fun c => forEach_certBags_last privateKey (certBags p12)
                (set_content createSignedData (Buf.toString_binary c)) None) as Hlast.
  destruct (List.find (matches privateKey) (rev (map cert (certBags p12))))
    as [certificate|] eqn:Efind.
  - rewrite Hbuild. specialize (Hlast content).
    destruct (forEach_certBags _ _ _ _) as [p7 chosen]. cbn [snd fst] in *.
    rewrite Hlast. reflexivity.
  - rewrite sign_stages. fold pdf. unfold sign_staged.
    apply Z.eqb_neq in Hpos. rewrite Hpos, Htext. fold content.
    rewrite Hbuild. specialize (Hlast content).
    destruct (forEach_certBags _ _ _ _) as [p7 chosen]. cbn [snd] in Hlast.
    rewrite Hlast. reflexivity.
Qed.

(* ================================================================= *)
(** ** What [verify] can catch *)

Lemma lib_error {A} (r : string + A) (err : exn) :
  lib r = Throw err -> instanceofSignPdfError err = false.
Proof. destruct r; intros H; [injection H as <-; reflexivity | discriminate]. Qed.

Lemma get_value_error (x : jsv) (err : exn) :
  get_value x = Throw err -> instanceofSignPdfError err = false.
Proof. destruct x; intros H; try discriminate. injection H as <-. reflexivity. Qed.

Lemma get_index_error (x : jsv) (i : nat) (err : exn) :
  get_index x i = Throw err -> instanceofSignPdfError err = false.
Proof.
  destruct x as [|s|l|]; cbn [get_index]; intros H; try discriminate.
  - injection H as <-. reflexivity.
  - destruct (String.get i s); discriminate.
Qed.

Lemma find_array_error (callback : jsv -> result bool) (l : list jsv) (err : exn) :
  (forall x e, callback x = Throw e -> instanceofSignPdfError e = false) ->
  find_array callback l = Throw err -> instanceofSignPdfError err = false.
Proof.
  intros Hcb. induction l as [|x l IH]; cbn [find_array]; [discriminate|].
  destruct (callback x) as [[|]|e] eqn:E; cbn [bind].
  - discriminate.
  - exact IH.
  - intros H. injection H as <-. exact (Hcb _ _ E).
Qed.

(** One step of a sequence: either the step threw, which [lemma]
    settles, or the sequence goes on. *)
Ltac step lemma :=
  match goal with
  | |- bind ?m _ = Throw _ -> _ =>
      let E := fresh "E" in
      destruct m eqn:E; cbn [bind];
      [ | let H := fresh in intros H; injection H as <-; exact (lemma _ _ E) ]
  end.

Section Caught.

Context {forge : Toolkit}.
Variable extractSignature : Buffer -> result (string * Buffer).

(** The second half of the [try] block never throws a [SignPdfError]. *)
Lemma verify_contentDigest_error (c : Checked) (err : exn) :
  verify_contentDigest c = Throw err -> instanceofSignPdfError err = false.
Proof.
  unfold verify_contentDigest.
  destruct (find (attrs c) _) as [fullAttrDigest|e] eqn:E; cbn [bind].
  - step get_value_error.
    match goal with
    | |- bind (get_index ?x ?i) _ = _ -> _ =>
        destruct (get_index x i) eqn:Ei; cbn [bind];
        [|intros H; injection H as <-; exact (get_index_error _ _ _ Ei)]
    end.
    step get_value_error.
    match goal with
    | |- bind (get_index ?x ?i) _ = _ -> _ =>
        destruct (get_index x i) eqn:Ej; cbn [bind];
        [|intros H; injection H as <-; exact (get_index_error _ _ _ Ej)]
    end.
    step get_value_error.
    step (@lib_error Buffer).
    discriminate.
  - intros H. injection H as <-.
    unfold find in E. destruct (attrs c) as [| |l|]; try (injection E as <-; reflexivity).
    revert E. apply find_array_error.
    intros x e0. step get_value_error.
    match goal with
    | |- bind (get_index ?x ?i) _ = _ -> _ =>
        destruct (get_index x i) eqn:Ei; cbn [bind];
        [|intros H; injection H as <-; exact (get_index_error _ _ _ Ei)]
    end.
    step get_value_error.
    step (@lib_error string).
    discriminate.
Qed.

(** The first half throws a [SignPdfError] only when [extractSignature]
    does. *)
Lemma verify_authenticatedAttributes_error (pdfBuffer : Buffer) (err : exn) :
  verify_authenticatedAttributes extractSignature pdfBuffer = Throw err ->
  instanceofSignPdfError err = true ->
  extractSignature pdfBuffer = Throw err.
Proof.
  unfold verify_authenticatedAttributes.
  destruct (extractSignature pdfBuffer) as [[signature signed]|e] eqn:E; cbn [bind];
    [|intros H _; injection H as <-; reflexivity].
  intros H Hinst. exfalso. revert H.
  assert (Hno : instanceofSignPdfError err <> false) by (rewrite Hinst; discriminate).
  revert Hno. generalize err. clear err Hinst. intros err Hno.
  destruct (lib (asn1_fromDer signature)) as [p7Asn1|e0] eqn:E0; cbn [bind];
    [|intros H; injection H as <-; exact (Hno (lib_error _ _ E0))].
  destruct (lib (messageFromAsn1 p7Asn1)) as [message|e1] eqn:E1; cbn [bind];
    [|intros H; injection H as <-; exact (Hno (lib_error _ _ E1))].
  destruct (rawCapture message) as [rc|]; cbn [bind];
    [|intros H; injection H as <-; exact (Hno eq_refl)].
  destruct (lib (asn1_derToOid _)) as [oid|e2] eqn:E2; cbn [bind];
    [|intros H; injection H as <-; exact (Hno (lib_error _ _ E2))].
  destruct (oids_lookup oid) as [name|]; cbn [bind];
    [|intros H; injection H as <-; exact (Hno eq_refl)].
  destruct (lib (asn1_toDer _)) as [der|e3] eqn:E3; cbn [bind];
    [|intros H; injection H as <-; exact (Hno (lib_error _ _ E3))].
  destruct (lib (certificateToPem _)) as [pem|e4] eqn:E4; cbn [bind];
    [|intros H; injection H as <-; exact (Hno (lib_error _ _ E4))].
  destruct (lib (crypto_verify _ _ _ _)) as [valid|e5] eqn:E5; cbn [bind];
    [|intros H; injection H as <-; exact (Hno (lib_error _ _ E5))].
  discriminate.
Qed.

End Caught.

(* ================================================================= *)
(** ** Claims about [verify] *)

(** C1, as the code has it: on a Buffer [verify] never throws -- it
    returns [{verified: true}] or [{verified: false, message}] with a
    message, leaving the instance as it was -- and on any other value it
    throws the input error "PDF expected as Buffer.". (The field the
    spec calls [reason] is [message] in the source.) *)
Theorem verify_returns_on_buffers {forge : Toolkit}
    (extractSignature : Buffer -> result (string * Buffer))
    (pdfBuffer : value) (this : SignPdf) :
  match pdfBuffer with
  | VBuffer _ =>
      exists r,
        verify extractSignature pdfBuffer this = (Return r, this)
        /\ (r = {| verified := true; message := None |}
            \/ exists reason, r = {| verified := false; message := Some reason |})
  | _ =>
      verify extractSignature pdfBuffer this
      = (Throw (SignPdfError "PDF expected as Buffer." TYPE_INPUT), this)
  end.
Proof.
  destruct pdfBuffer as [| |k|s|b]; try reflexivity.
  unfold verify, verify_try.
  destruct (verify_authenticatedAttributes extractSignature b) as [c|err]; cbn [bind].
  - destruct (negb (validAuthenticatedAttributes c)).
    + eexists. split; [reflexivity|]. right. eexists. reflexivity.
    + destruct (verify_contentDigest c) as [[|]|err]; cbn [bind negb];
        eexists; (split; [reflexivity|]); [left | right; eexists | right; eexists];
        reflexivity.
  - eexists. split; [reflexivity|]. right. eexists. reflexivity.
Qed.

(** C9, amended. The two failures of [verify] are reported apart: a
    signature that does not verify over the authenticated attributes
    gives "Wrong authenticated attributes", a digest of the signed data
    that differs from the message digest attribute gives "Wrong content
    digest". Any other error gives "couldn't verify file signature"
    unless it is a [SignPdfError], whose own message is the answer; the
    toolkit and the walk through the attributes throw none, so that one
    is thrown by [extractSignature]. The three messages differ, and
    [verify] gives no other answer on a buffer. (The field the spec
    calls [reason] is [message] in the source.) *)
Theorem verify_failure_reasons {forge : Toolkit}
    (extractSignature : Buffer -> result (string * Buffer))
    (pdfBuffer : Buffer) (this : SignPdf) :
  let failed reason :=
    (Return {| verified := false; message := Some reason |}, this) in
  (forall c,
      verify_authenticatedAttributes extractSignature pdfBuffer = Return c ->
      validAuthenticatedAttributes c = false ->
      verify extractSignature (VBuffer pdfBuffer) this
      = failed "Wrong authenticated attributes")
  /\ (forall c,
        verify_authenticatedAttributes extractSignature pdfBuffer = Return c ->
        validAuthenticatedAttributes c = true ->
        verify_contentDigest c = Return false ->
        verify extractSignature (VBuffer pdfBuffer) this
        = failed "Wrong content digest")
  /\ (forall err,
        instanceofSignPdfError err = false ->
        verify_authenticatedAttributes extractSignature pdfBuffer = Throw err
        \/ (exists c,
              verify_authenticatedAttributes extractSignature pdfBuffer = Return c
              /\ validAuthenticatedAttributes c = true
              /\ verify_contentDigest c = Throw err) ->
        verify extractSignature (VBuffer pdfBuffer) this
        = failed "couldn't verify file signature")
  /\ (forall c err,
        verify_contentDigest c = Throw err -> instanceofSignPdfError err = false)
  /\ (forall err,
        verify_authenticatedAttributes extractSignature pdfBuffer = Throw err ->
        instanceofSignPdfError err = true ->
        extractSignature pdfBuffer = Throw err)
  /\ (forall reason type,
        extractSignature pdfBuffer = Throw (SignPdfError reason type) ->
        verify extractSignature (VBuffer pdfBuffer) this = failed reason)
  /\ (verify extractSignature (VBuffer pdfBuffer) this
      = (Return {| verified := true; message := None |}, this)
      \/ verify extractSignature (VBuffer pdfBuffer) this
         = failed "Wrong authenticated attributes"
      \/ verify extractSignature (VBuffer pdfBuffer) this
         = failed "Wrong content digest"
      \/ verify extractSignature (VBuffer pdfBuffer) this
         = failed "couldn't verify file signature"
      \/ exists reason type,
           extractSignature pdfBuffer = Throw (SignPdfError reason type)
           /\ verify extractSignature (VBuffer pdfBuffer) this = failed reason)
  /\ "Wrong authenticated attributes" <> "Wrong content digest"
  /\ "Wrong authenticated attributes" <> "couldn't verify file signature"
  /\ "Wrong content digest" <> "couldn't verify file signature".
Proof.
  intros failed.
  assert (Hkept : forall reason type,
             extractSignature pdfBuffer = Throw (SignPdfError reason type) ->
             verify extractSignature (VBuffer pdfBuffer) this = failed reason).
  { intros reason type Hextract.
    unfold verify, verify_try, verify_authenticatedAttributes.
    rewrite Hextract. reflexivity. }
  assert (Hall :
            verify extractSignature (VBuffer pdfBuffer) this
            = (Return {| verified := true; message := None |}, this)
            \/ verify extractSignature (VBuffer pdfBuffer) this
               = failed "Wrong authenticated attributes"
            \/ verify extractSignature (VBuffer pdfBuffer) this
               = failed "Wrong content digest"
            \/ verify extractSignature (VBuffer pdfBuffer) this
               = failed "couldn't verify file signature"
            \/ exists reason type,
                 extractSignature pdfBuffer = Throw (SignPdfError reason type)
                 /\ verify extractSignature (VBuffer pdfBuffer) this = failed reason).
  { destruct (verify_authenticatedAttributes extractSignature pdfBuffer)
      as [c|err] eqn:Hc.
    - destruct (validAuthenticatedAttributes c) eqn:Hvalid.
      + destruct (verify_contentDigest c) as [[|]|err] eqn:Hdigest.
        * left. unfold verify, verify_try.
          rewrite Hc. cbn [bind]. rewrite Hvalid, Hdigest. reflexivity.
        * right. right. left. unfold verify, verify_try.
          rewrite Hc. cbn [bind]. rewrite Hvalid, Hdigest. reflexivity.
        * right. right. right. left. unfold verify, verify_try.
          rewrite Hc. cbn [bind]. rewrite Hvalid, Hdigest. cbn [bind negb].
          rewrite (verify_contentDigest_error c err Hdigest). reflexivity.
      + right. left. unfold verify, verify_try.
        rewrite Hc. cbn [bind]. rewrite Hvalid. reflexivity.
    - destruct (instanceofSignPdfError err) eqn:Hinst.
      + right. right. right. right.
        pose proof (verify_authenticatedAttributes_error extractSignature
                      pdfBuffer err Hc Hinst) as Hextract.
        destruct err as [reason type| | |]; try discriminate Hinst.
        exists reason, type. split; [exact Hextract | exact (Hkept _ _ Hextract)].
      + right. right. right. left. unfold verify, verify_try.
        rewrite Hc. cbn [bind]. rewrite Hinst. reflexivity. }
  unfold verify, verify_try in *.
  split.
  { intros c Hc Hvalid. rewrite Hc. cbn [bind]. rewrite Hvalid. reflexivity. }
  split.
  { intros c Hc Hvalid Hdigest. rewrite Hc. cbn [bind].
    rewrite Hvalid, Hdigest. reflexivity. }
  split.
  { intros err Hinst [Hc | (c & Hc & Hvalid & Hdigest)]; rewrite Hc; cbn [bind].
    - rewrite Hinst. reflexivity.
    - rewrite Hvalid, Hdigest. cbn [bind negb]. rewrite Hinst. reflexivity. }
  split; [exact verify_contentDigest_error|].
  split; [exact (verify_authenticatedAttributes_error extractSignature pdfBuffer)|].
  split; [exact Hkept|]. split; [exact Hall|].
  repeat split; discriminate.
Qed.

(* ================================================================= *)
(** ** The methods on the sample documents *)

(** [H : t = v] for the value [v] that the closed term [t] computes to. *)
Ltac evaluated t H :=
  let v := eval vm_compute in t in
  assert (H : t = v) by (vm_compute; reflexivity).

Example sign_then_verify :
  fst (@verify Toy.toolkit Extract.extractSignature (VBuffer Samples.signed) constructor)
  = Return {| verified := true; message := None |}.
Proof. vm_compute. reflexivity. Qed.

Example sign_stores_the_signature :
  lastSignature
    (snd (@sign Toy.toolkit Samples.trim Samples.now (VBuffer (Samples.document 20))
            (VBuffer Samples.p12) no_options constructor))
  = Some "6b4154a33d53cf6b".
Proof. vm_compute. reflexivity. Qed.

Example sign_writes_the_byte_range :
  Buf.toString_binary (Buf.slice Samples.signed 86 169)
  = "/ByteRange [0 147 169 16]                          /Contents <6b4154a33d53cf6b0000>".
Proof. vm_compute. reflexivity. Qed.

(** An odd placeholder: 21 characters reserved, 20 written, and the
    signed document does not verify. *)
Example sign_then_verify_odd_placeholder :
  match fst (@sign Toy.toolkit Samples.trim Samples.now (VBuffer (Samples.document 21))
               (VBuffer Samples.p12) no_options constructor) with
  | Return pdf =>
      Buf.toString_binary (Buf.slice pdf 86 169)
      = "/ByteRange [0 147 170 16]                          /Contents <6b4154a33553c76b0000>"
      /\ Buf.length pdf = Buf.length (Samples.document 21) - 2
      /\ fst (@verify Toy.toolkit Extract.extractSignature (VBuffer pdf) constructor)
         = Return {| verified := false; message := Some "Wrong content digest" |}
  | Throw _ => False
  end.
Proof. vm_compute. repeat split; reflexivity. Qed.

(** No [/Contents] entry: the run ends at the capacity check. *)
Example sign_without_contents :
  @sign Toy.toolkit Samples.trim Samples.now (VBuffer Samples.document_without_contents)
    (VBuffer Samples.p12) no_options constructor
  = (Throw (SignPdfError "Signature exceeds placeholder length: 16 > -1" TYPE_INPUT),
     constructor).
Proof. vm_compute. reflexivity. Qed.

(** A [/Contents] entry without "<", in a buffer that ends with ">":
    [sign] returns a buffer. *)
Example sign_without_brackets :
  match fst (@sign Toy.toolkit Samples.trim Samples.now (VBuffer Samples.document_without_brackets)
               (VBuffer Samples.p12) no_options constructor) with
  | Return pdf =>
      Buf.toString_binary (Buf.slice_from pdf 86)
      = "/ByteRange [0 -1 156 0]                            /Contents (none) "
        ++ "<6b41549b1d53a76b" ++ JS.repeat_nat "0" 138 ++ ">>"
  | Throw _ => False
  end.
Proof. vm_compute. reflexivity. Qed.

Example verify_unsigned_document :
  fst (@verify Toy.toolkit Extract.extractSignature (VBuffer (Samples.document 20))
         constructor)
  = Return {| verified := false; message := Some "Failed to parse the ByteRange." |}.
Proof. vm_compute. reflexivity. Qed.

(* ================================================================= *)
(** ** Instances of the claims *)

Lemma oversized_signature_is_rejected_witness :
  @sign Toy.toolkit Samples.trim Samples.now (VBuffer (Samples.document 14)) (VBuffer Samples.p12)
    no_options constructor
  = (Throw (SignPdfError "Signature exceeds placeholder length: 16 > 14" TYPE_INPUT),
     constructor).
Proof.
  pose (pdf := Samples.trim (Samples.document 14)).
  assert (Hpos : byteRangePos constructor pdf <> -1) by (vm_compute; discriminate).
  evaluated (paddedByteRange constructor pdf) Htext.
  match type of Htext with
  | _ = Return ?text =>
      evaluated (@buildSignature Toy.toolkit Samples.now
                   (removePlaceholder constructor pdf
                      (rewriteByteRange constructor pdf text))
                   Samples.p12 no_options) Hraw
  end.
  match type of Hraw with
  | _ = Return ?raw =>
      assert (Hlong : Z.of_nat (String.length (hexSignature raw))
                      > placeholderLength constructor pdf)
        by (vm_compute; reflexivity)
  end.
  pose proof (proj2 (oversized_signature_is_rejected
                       Samples.trim Samples.now (Samples.document 14) Samples.p12 no_options
                       constructor _ _ Hpos Htext Hraw Hlong)) as H.
  vm_compute in H |- *. exact H.
Defined.

Lemma byteRange_spans_cover_document_witness :
  let pdf := Samples.trim (Samples.document 20) in
  byteRange constructor pdf = [0; 147; 169; 16]
  /\ 147 + 16 + placeholderLengthWithBrackets constructor pdf = Buf.length pdf
  /\ nth_error pdf 147 = Some "<"%byte
  /\ nth_error pdf 168 = Some ">"%byte
  /\ exists padding,
       Buf.slice Samples.signed 86 136
       = Buf.from ("/ByteRange [0 147 169 16]" ++ padding).
Proof.
  intros pdf.
  assert (Hpos : byteRangePos constructor pdf <> -1) by (vm_compute; discriminate).
  assert (Hc : contentsTagPos constructor pdf <> -1) by (vm_compute; discriminate).
  assert (Hp : placeholderPos constructor pdf <> -1) by (vm_compute; discriminate).
  assert (He : placeholderEnd constructor pdf <> -1) by (vm_compute; discriminate).
  evaluated (@sign Toy.toolkit Samples.trim Samples.now (VBuffer (Samples.document 20))
               (VBuffer Samples.p12) no_options constructor) Hsign.
  destruct (@byteRange_spans_cover_document Toy.toolkit Samples.trim Samples.now
              (Samples.document 20) Samples.p12 no_options constructor
              Hpos Hc Hp He)
    as (len0 & start1 & len1 & Hrange & _ & _ & _ & _ & _ & _ & Hopen & Hclose
        & _ & Hsum & _ & Hwritten).
  fold pdf in Hrange, Hopen, Hclose, Hsum, Hwritten.
  evaluated (byteRange constructor pdf) Hnumbers.
  rewrite Hnumbers in Hrange.
  injection Hrange as <- <- <-.
  split; [exact Hnumbers|]. split; [exact Hsum|].
  split; [exact Hopen|]. split; [exact Hclose|].
  destruct (Hwritten _ _ Hsign) as (padding & Hslice).
  exists padding. exact Hslice.
Defined.

(** C6 as stated fails. The document of 186 bytes ends with a line
    feed: with a helper that drops it, the byte range that [sign] writes
    adds up, with the width of the field, to 185. And a document that
    holds the placeholder text and [/Contents], but no "<" after it,
    makes [sign] return a buffer with a byte range whose first span has
    the length -1: there is no field for the spans to lie around. *)
Lemma byteRange_needs_the_field_and_the_trimmed_length :
  Buf.length (Samples.document 20) = 186
  /\ Buf.toString_binary (Buf.slice Samples.signed 86 111) = "/ByteRange [0 147 169 16]"
  /\ 147 + 16 + placeholderLengthWithBrackets constructor
                  (Samples.trim (Samples.document 20)) = 185
  /\ Samples.trim Samples.document_without_brackets = Samples.document_without_brackets
  /\ placeholderPos constructor Samples.document_without_brackets = -1
  /\ match fst (@sign Toy.toolkit Samples.trim Samples.now
                  (VBuffer Samples.document_without_brackets)
                  (VBuffer Samples.p12) no_options constructor) with
     | Return out =>
         Buf.toString_binary (Buf.slice out 86 109) = "/ByteRange [0 -1 156 0]"
     | Throw _ => False
     end.
Proof. vm_compute. repeat split; reflexivity. Qed.

Lemma byteRange_rewrite_preserves_offsets_witness :
  let pdf := Samples.trim (Samples.document 20) in
  exists text,
    paddedByteRange constructor pdf = Return text
    /\ Buf.length (rewriteByteRange constructor pdf text) = Buf.length pdf.
Proof.
  intros pdf.
  assert (Hlen : Buf.length pdf < 10 ^ 11) by (vm_compute; reflexivity).
  assert (Hpos : byteRangePos constructor pdf <> -1) by (vm_compute; discriminate).
  destruct (byteRange_rewrite_preserves_offsets constructor pdf eq_refl Hlen Hpos)
    as (text & Htext & _ & Hsame & _).
  exists text. split; [exact Htext | exact Hsame].
Defined.

Lemma signature_payload_width_witness :
  let pdf := Samples.trim (Samples.document 21) in
  placeholderLength constructor pdf = 21
  /\ exists payload,
       payload = "6b4154a33553c76b0000"
       /\ Z.of_nat (String.length payload) = placeholderLength constructor pdf - 1.
Proof.
  intros pdf.
  evaluated (@sign Toy.toolkit Samples.trim Samples.now (VBuffer (Samples.document 21))
               (VBuffer Samples.p12) no_options constructor) Hsign.
  assert (Hp : placeholderPos constructor pdf <> -1) by (vm_compute; discriminate).
  split; [vm_compute; reflexivity|].
  destruct (signature_payload_width Samples.trim Samples.now (Samples.document 21) Samples.p12
              no_options constructor _ _ Hsign Hp)
    as (text & raw & payload & Htext & Hraw & Hpayload & _ & _ & Hodd).
  exists payload. split.
  - fold pdf in Htext, Hraw, Hpayload.
    evaluated (paddedByteRange constructor pdf) Htext'.
    rewrite Htext' in Htext. apply Return_inj in Htext. subst text.
    match type of Hraw with
    | ?build = _ => evaluated build Hraw'
    end.
    rewrite Hraw' in Hraw. apply Return_inj in Hraw. subst raw.
    subst payload. vm_compute. reflexivity.
  - apply Hodd. vm_compute. reflexivity.
Defined.

Lemma odd_placeholder_breaks_signed_bytes_witness :
  let pdf := Samples.trim (Samples.document 21) in
  exists out text,
    fst (@sign Toy.toolkit Samples.trim Samples.now (VBuffer (Samples.document 21))
           (VBuffer Samples.p12) no_options constructor) = Return out
    /\ Buf.length (signedSpans out (byteRange constructor pdf))
       = Buf.length (removePlaceholder constructor pdf
                       (rewriteByteRange constructor pdf text)) - 1.
Proof.
  intros pdf.
  evaluated (@sign Toy.toolkit Samples.trim Samples.now (VBuffer (Samples.document 21))
               (VBuffer Samples.p12) no_options constructor) Hsign.
  assert (Hc : contentsTagPos constructor pdf <> -1) by (vm_compute; discriminate).
  assert (Hp : placeholderPos constructor pdf <> -1) by (vm_compute; discriminate).
  assert (Hodd : Z.odd (placeholderLength constructor pdf) = true)
    by (vm_compute; reflexivity).
  assert (Hafter : placeholderEnd constructor pdf + 1 < Buf.length pdf)
    by (vm_compute; reflexivity).
  destruct (odd_placeholder_breaks_signed_bytes Samples.trim Samples.now (Samples.document 21)
              Samples.p12 no_options constructor _ _ Hsign Hc Hp Hodd Hafter)
    as (text & raw & _ & _ & _ & Hlen & _).
  eexists _, text. split; [rewrite Hsign; reflexivity | exact Hlen].
Defined.

Lemma signing_certificate_is_last_match_witness :
  @sign Toy.toolkit Samples.trim Samples.now (VBuffer (Samples.document 20))
    (VBuffer Samples.p12_no_match) no_options constructor
  = (Throw (SignPdfError
              "Failed to find a certificate that matches the private key."
              TYPE_INPUT),
     constructor).
Proof.
  pose (pdf := Samples.trim (Samples.document 20)).
  assert (Hpos : byteRangePos constructor pdf <> -1) by (vm_compute; discriminate).
  evaluated (paddedByteRange constructor pdf) Htext.
  assert (Hder : @asn1_fromDer Toy.toolkit (Buf.toString_binary Samples.p12_no_match)
                 = inr (JString "kzZ")) by reflexivity.
  assert (Hp12 : @pkcs12FromAsn1 Toy.toolkit (JString "kzZ")
                   match asn1StrictParsing no_options with Some b => b | None => false end
                   match passphrase no_options with Some s => s | None => "" end
                 = inr {| certBags := Toy.bags "zZ";
                          keyBags := [ {| key := {| n := 107; e := 3; d := 107 |} |} ] |})
    by reflexivity.
  pose proof (signing_certificate_is_last_match
                Samples.trim Samples.now (Samples.document 20) Samples.p12_no_match no_options
                constructor _ _ _ _ _ Hpos Htext Hder Hp12 eq_refl) as H.
  vm_compute in H |- *. exact H.
Defined.

(** C4 as stated fails: of two matching certificates, "A" before "B",
    the loop keeps "B", and the document is signed as with a container
    that holds "B" alone. *)
Lemma first_match_is_not_the_signing_certificate :
  let privateKey := {| n := 107; e := 3; d := 107 |} in
  let bags := Toy.bags "kAzZkB" in
  let certA := {| publicKey := {| pub_n := 107; pub_e := 3 |}; tbs := "A" |} in
  let certB := {| publicKey := {| pub_n := 107; pub_e := 3 |}; tbs := "B" |} in
  List.find (matches privateKey) (map cert bags) = Some certA
  /\ snd (@forEach_certBags Toy.toolkit privateKey bags createSignedData None)
     = Some certB
  /\ certA <> certB
  /\ @sign Toy.toolkit Samples.trim Samples.now (VBuffer (Samples.document 20))
       (VBuffer Samples.p12_two_matches) no_options constructor
     = @sign Toy.toolkit Samples.trim Samples.now (VBuffer (Samples.document 20))
         (VBuffer (Buf.from "kkB")) no_options constructor
  /\ @sign Toy.toolkit Samples.trim Samples.now (VBuffer (Samples.document 20))
       (VBuffer Samples.p12_two_matches) no_options constructor
     <> @sign Toy.toolkit Samples.trim Samples.now (VBuffer (Samples.document 20))
          (VBuffer (Buf.from "kkA")) no_options constructor.
Proof.
  cbv zeta. split; [reflexivity|]. split; [reflexivity|].
  split; [discriminate|]. split; [vm_compute; reflexivity|].
  vm_compute. discriminate.
Qed.

(** C9 as stated fails: [extractSignature] throws a [SignPdfError] of
    its own for a buffer that is no signed document, and [verify]
    answers with its message, not with the general one. *)
Lemma verify_keeps_the_message_of_extractSignature :
  @verify Toy.toolkit Extract.extractSignature (VBuffer (Buf.from "not a pdf"))
    constructor
  = (Return {| verified := false; message := Some "Failed to locate ByteRange." |},
     constructor)
  /\ String.eqb "Failed to locate ByteRange." "couldn't verify file signature" = false.
Proof. vm_compute. split; reflexivity. Qed.

(** C1 as stated fails: a value that is not a Buffer makes [verify]
    throw. *)
Lemma verify_throws_on_a_string :
  @verify Toy.toolkit Extract.extractSignature (VString "%PDF-1.3") constructor
  = (Throw (SignPdfError "PDF expected as Buffer." TYPE_INPUT), constructor).
Proof. reflexivity. Qed.

Lemma verify_failure_reasons_witness :
  let failed reason :=
    (Return {| verified := false; message := Some reason |}, constructor) in
  @verify Toy.toolkit Extract.extractSignature
    (VBuffer Samples.signed_other_signature) constructor
  = failed "Wrong authenticated attributes"
  /\ @verify Toy.toolkit Extract.extractSignature
       (VBuffer Samples.signed_other_content) constructor
     = failed "Wrong content digest"
  /\ @verify Toy.toolkit Extract.extractSignature
       (VBuffer Samples.signed_no_hex) constructor
     = failed "couldn't verify file signature".
Proof.
  intros failed. split; [|split].
  - destruct (@verify_failure_reasons Toy.toolkit Extract.extractSignature
                Samples.signed_other_signature constructor) as (H & _).
    evaluated (@verify_authenticatedAttributes Toy.toolkit Extract.extractSignature
                 Samples.signed_other_signature) Hc.
    exact (H _ Hc eq_refl).
  - destruct (@verify_failure_reasons Toy.toolkit Extract.extractSignature
                Samples.signed_other_content constructor) as (_ & H & _).
    evaluated (@verify_authenticatedAttributes Toy.toolkit Extract.extractSignature
                 Samples.signed_other_content) Hc.
    match type of Hc with
    | _ = Return ?c =>
        assert (Hd : @verify_contentDigest Toy.toolkit c = Return false)
          by (vm_compute; reflexivity)
    end.
    exact (H _ Hc eq_refl Hd).
  - destruct (@verify_failure_reasons Toy.toolkit Extract.extractSignature
                Samples.signed_no_hex constructor) as (_ & _ & H & _).
    evaluated (@verify_authenticatedAttributes Toy.toolkit Extract.extractSignature
                 Samples.signed_no_hex) Hc.
    exact (H (LibraryError "Too few bytes to parse DER.") eq_refl (or_introl Hc)).
Defined.

(* ================================================================= *)
(** * Further properties of [sign] and [verify] *)

(** ** Occurrences of a text in a buffer *)

Lemma starts_with_self (needle rest : Buffer) :
  Buf.starts_with needle (needle ++ rest)%list = true.
Proof.
  induction needle as [|x needle IH]; [reflexivity|].
  simpl. unfold Buf.byte_eqb. rewrite Byte.byte_dec_lb by reflexivity. exact IH.
Qed.

(** [search] answers the first occurrence: it is found as soon as there
    is one, and not after it. *)
Lemma search_least (needle : Buffer) :
  forall (hay : Buffer) (pos : Z) (k : nat),
    0 <= pos ->
    Buf.starts_with needle (skipn k hay) = true ->
    Buf.search needle hay pos <> -1
    /\ Buf.search needle hay pos <= pos + Z.of_nat k.
Proof.
  induction hay as [|y hay IH]; intros pos k Hpos Hk.
  - rewrite skipn_nil in Hk. cbn [Buf.search]. rewrite Hk. lia.
  - cbn [Buf.search]. destruct (Buf.starts_with needle (y :: hay)) eqn:E; [lia|].
    destruct k as [|k]; [cbn [skipn] in Hk; congruence|].
    cbn [skipn] in Hk.
    destruct (IH (pos + 1) k ltac:(lia) Hk) as [H1 H2]. lia.
Qed.

Lemma indexOf_least (b : Buffer) (value : string) (byteOffset : Z) (i : nat) :
  0 <= byteOffset <= Z.of_nat i ->
  Z.of_nat i <= Buf.length b ->
  Buf.starts_with (Buf.from value) (skipn i b) = true ->
  Buf.indexOf b value byteOffset <> -1
  /\ Buf.indexOf b value byteOffset <= Z.of_nat i.
Proof.
  intros Hoff Hi Hocc. unfold Buf.indexOf.
  destruct (byteOffset <? 0) eqn:E0; [apply Z.ltb_lt in E0; lia|].
  destruct (Buf.length b <? byteOffset) eqn:E1; [apply Z.ltb_lt in E1; lia|].
  destruct (search_least (Buf.from value) (skipn (Z.to_nat byteOffset) b) byteOffset
              (i - Z.to_nat byteOffset) ltac:(lia)) as [H1 H2].
  - rewrite skipn_skipn.
    replace (i - Z.to_nat byteOffset + Z.to_nat byteOffset)%nat with i by lia.
    exact Hocc.
  - lia.
Qed.

(** [indexOf] from the start answers -1 exactly for a text that does
    not occur. *)
Lemma indexOf_absent (b : Buffer) (value : string) :
  Buf.indexOf b value 0 = -1
  <-> forall prefix suffix, b <> (prefix ++ Buf.from value ++ suffix)%list.
Proof.
  split.
  - intros Hnone prefix suffix ->.
    assert (Hin : Z.of_nat (List.length prefix)
                  <= Buf.length (prefix ++ Buf.from value ++ suffix)%list).
    { rewrite length_app. unfold Buf.length. lia. }
    assert (Hocc : Buf.starts_with (Buf.from value)
                     (skipn (List.length prefix)
                        (prefix ++ Buf.from value ++ suffix)%list) = true).
    { rewrite skipn_app, skipn_all, Nat.sub_diag. cbn [skipn app].
      apply starts_with_self. }
    destruct (indexOf_least _ value 0 (List.length prefix) ltac:(lia) Hin Hocc)
      as [H _].
    contradiction.
  - intros Habsent.
    destruct (Z.eq_dec (Buf.indexOf b value 0) (-1)) as [E|E]; [exact E | exfalso].
    destruct (indexOf_found b value 0 E) as [rest Hrest].
    apply (Habsent (firstn (Z.to_nat (Buf.indexOf b value 0)) b) rest).
    rewrite <- Hrest. symmetry. apply firstn_skipn.
Qed.

(* ================================================================= *)
(** ** When [sign] throws, and when it returns *)

Section Outcomes.

Context {forge : Toolkit}.

(** A run that throws leaves the instance as it was. *)
Lemma sign_staged_Throw now pdf p12Buffer o this err this' :
  sign_staged now pdf p12Buffer o this = (Throw err, this') ->
  this' = this
  /\ (is_parse_error err = true -> byteRangePos this pdf = -1).
Proof.
  unfold sign_staged.
  destruct (byteRangePos this pdf =? -1) eqn:Epos.
  { apply Z.eqb_eq in Epos. intros H. injection H as <- <-. now split. }
  destruct (paddedByteRange this pdf) as [text|e0] eqn:Etext.
  - destruct (buildSignature _ _ _ _) as [raw|e1] eqn:Eraw.
    + destruct (_ >? _) eqn:Efit.
      * intros H. injection H as <- <-. split; [reflexivity | discriminate].
      * rewrite Z.gtb_ltb in Efit. apply Z.ltb_ge in Efit.
        rewrite paddedSignature_eq by exact Efit. discriminate.
    + intros H. injection H as <- <-. split; [reflexivity|].
      rewrite (buildSignature_no_parse_error _ _ _ _ _ Eraw). discriminate.
  - intros H. injection H as <- <-. split; [reflexivity|].
    rewrite (paddedByteRange_error _ _ _ Etext). discriminate.
Qed.

End Outcomes.

(** X1. For a placeholder of ASCII characters, and [pdf] the buffer
    that [removeTrailingNewLine] returned: [sign] throws a parse error
    exactly when the placeholder text does not occur in [pdf]; the
    error then names the text it looked for, and the instance is left
    as it was. *)
Theorem sign_parse_error_iff_placeholder_absent {forge : Toolkit}
    (removeTrailingNewLine : Buffer -> Buffer)
    (now : Z) (pdfBuffer p12Buffer : Buffer) (o : Options) (this : SignPdf) :
  let pdf := removeTrailingNewLine pdfBuffer in
  let absent :=
    forall prefix suffix,
      pdf <> (prefix ++ Buf.from (byteRangeString this) ++ suffix)%list in
  isASCII (byteRangePlaceholder this) = true ->
  ((exists err this',
      sign removeTrailingNewLine now (VBuffer pdfBuffer) (VBuffer p12Buffer) o this
      = (Throw err, this')
      /\ is_parse_error err = true)
   <-> absent)
  /\ (absent ->
      sign removeTrailingNewLine now (VBuffer pdfBuffer) (VBuffer p12Buffer) o this
      = (Throw (SignPdfError
                  ("Could not find ByteRange placeholder: " ++ byteRangeString this)
                  TYPE_PARSE),
         this)).
Proof.
  intros pdf absent _.
  assert (Hthrow : absent ->
            sign removeTrailingNewLine now (VBuffer pdfBuffer) (VBuffer p12Buffer) o this
            = (Throw (SignPdfError
                        ("Could not find ByteRange placeholder: " ++ byteRangeString this)
                        TYPE_PARSE),
               this)).
  { intros Habsent.
    apply (proj2 (indexOf_absent pdf (byteRangeString this))) in Habsent.
    rewrite sign_stages. fold pdf. unfold sign_staged.
    fold (byteRangePos this pdf) in Habsent. rewrite Habsent. reflexivity. }
  split; [|exact Hthrow]. split.
  - intros (err & this' & Hsign & Hparse).
    rewrite sign_stages in Hsign. fold pdf in Hsign.
    destruct (sign_staged_Throw _ _ _ _ _ _ _ Hsign) as [_ Hpos].
    exact (proj1 (indexOf_absent pdf (byteRangeString this)) (Hpos Hparse)).
  - intros Habsent. eexists _, _. split; [exact (Hthrow Habsent) | reflexivity].
Qed.

Lemma sign_parse_error_iff_placeholder_absent_witness :
  @sign Toy.toolkit Samples.trim Samples.now
    (VBuffer MoreSamples.document_without_placeholder) (VBuffer Samples.p12)
    no_options constructor
  = (Throw (SignPdfError
              ("Could not find ByteRange placeholder: "
               ++ "/ByteRange [0 /********** /********** /**********]")
              TYPE_PARSE),
     constructor).
Proof.
  destruct (@sign_parse_error_iff_placeholder_absent Toy.toolkit Samples.trim
              Samples.now MoreSamples.document_without_placeholder Samples.p12
              no_options constructor eq_refl) as [Hiff Hthrow].
  apply Hthrow, Hiff.
  eexists _, _. split; [vm_compute; reflexivity | reflexivity].
Defined.

(** X2. [sign] returns a buffer exactly when the placeholder text is
    found, the byte range fits the width of that text, the toolkit
    delivers a DER signature, and its hexadecimal form is not longer
    than the placeholder. The returned buffer and the stored signature
    are then determined: the excised buffer with the padded signature
    placed in it, and the hexadecimal signature without padding. *)
Theorem sign_returns_iff {forge : Toolkit}
    (removeTrailingNewLine : Buffer -> Buffer)
    (now : Z) (pdfBuffer p12Buffer : Buffer) (o : Options) (this : SignPdf) :
  let pdf := removeTrailingNewLine pdfBuffer in
  forall (out : Buffer) (this' : SignPdf),
    sign removeTrailingNewLine now (VBuffer pdfBuffer) (VBuffer p12Buffer) o this
    = (Return out, this')
    <-> byteRangePos this pdf <> -1
        /\ exists text raw,
             let excised := removePlaceholder this pdf (rewriteByteRange this pdf text) in
             paddedByteRange this pdf = Return text
             /\ buildSignature now excised p12Buffer o = Return raw
             /\ Z.of_nat (String.length (hexSignature raw)) <= placeholderLength this pdf
             /\ out = placeSignature this pdf excised
                        (hexSignature raw
                         ++ JS.repeat_nat "00"
                              (Z.to_nat ((placeholderLength this pdf
                                          - Z.of_nat (String.length (hexSignature raw))) / 2)))
             /\ this' = stored this (hexSignature raw).
Proof.
  intros pdf out this'. rewrite sign_stages. fold pdf. split.
  - intros Hsign.
    destruct (sign_staged_Return _ _ _ _ _ _ _ Hsign)
      as (Hpos & text & raw & payload & Htext & Hraw & Hfit & Hpay & Hout & Hthis).
    split; [exact Hpos|]. exists text, raw. cbv zeta.
    rewrite hexSignature_length.
    rewrite paddedSignature_eq in Hpay by exact Hfit. apply Return_inj in Hpay.
    repeat split; try assumption; try lia.
    rewrite Hout, <- Hpay. reflexivity.
  - intros (Hpos & text & raw & Htext & Hraw & Hfit & Hout & Hthis).
    rewrite hexSignature_length in Hfit, Hout.
    destruct (sign_staged_fits now pdf p12Buffer o this text raw Hpos Htext Hraw
                ltac:(lia)) as (payload & Hpay & Hsign).
    rewrite paddedSignature_eq in Hpay by lia. apply Return_inj in Hpay.
    rewrite Hsign, Hout, Hthis, <- Hpay. reflexivity.
Qed.

(** X3. A call of [sign] that throws -- for whatever arguments and at
    whatever line -- leaves the instance untouched; one that returns
    has stored a hexadecimal signature and has not changed the
    placeholder of the instance. *)
Theorem sign_touches_only_lastSignature {forge : Toolkit}
    (removeTrailingNewLine : Buffer -> Buffer)
    (now : Z) (pdfBuffer p12Buffer : value) (o : Options) (this : SignPdf) :
  match sign removeTrailingNewLine now pdfBuffer p12Buffer o this with
  | (Throw _, this') => this' = this
  | (Return _, this') =>
      byteRangePlaceholder this' = byteRangePlaceholder this
      /\ exists raw, lastSignature this' = Some (Buf.toString_hex (Buf.from raw))
  end.
Proof.
  destruct pdfBuffer as [| |k|s|pdfBuffer]; [reflexivity .. |].
  destruct p12Buffer as [| |k|s|p12Buffer]; [reflexivity .. |].
  destruct (sign removeTrailingNewLine now (VBuffer pdfBuffer) (VBuffer p12Buffer) o this)
    as [[out|err] this'] eqn:Hsign; rewrite sign_stages in Hsign.
  - destruct (sign_staged_Return _ _ _ _ _ _ _ Hsign)
      as (_ & text & raw & payload & _ & _ & _ & _ & _ & ->).
    split; [reflexivity|]. exists raw. reflexivity.
  - exact (proj1 (sign_staged_Throw _ _ _ _ _ _ _ Hsign)).
Qed.

(* ================================================================= *)
(** ** Which field [sign] fills *)

Lemma starts_with_byte (c : byte) (l : Buffer) :
  Buf.starts_with [c] l = true <-> nth_error l 0 = Some c.
Proof.
  destruct l as [|y l]; cbn [Buf.starts_with nth_error]; [split; discriminate|].
  rewrite andb_true_r. unfold Buf.byte_eqb. split.
  - intros H. apply Byte.byte_dec_bl in H. now subst.
  - intros H. injection H as ->. now apply Byte.byte_dec_lb.
Qed.

Lemma nth_error_skipn_0 (l : Buffer) (i : nat) :
  nth_error (skipn i l) 0 = nth_error l i.
Proof. rewrite nth_error_skipn. f_equal. lia. Qed.

(** Before the position that [indexOf] answers, and not before a
    non-negative offset, there is no occurrence. *)
Lemma indexOf_first (b : Buffer) (value : string) (byteOffset : Z) (i : nat) :
  0 <= byteOffset <= Z.of_nat i ->
  Z.of_nat i < Buf.indexOf b value byteOffset ->
  Buf.starts_with (Buf.from value) (skipn i b) = false.
Proof.
  intros Hoff Hi.
  destruct (Buf.starts_with (Buf.from value) (skipn i b)) eqn:E; [exfalso | reflexivity].
  destruct (indexOf_spec b value byteOffset) as [H | (_ & H & _)]; [lia|].
  destruct (indexOf_least b value byteOffset i Hoff ltac:(lia) E) as [_ Hle]. lia.
Qed.

Lemma indexOf_first_char (b : Buffer) (c : ascii) (byteOffset : Z) (i : nat) :
  0 <= byteOffset <= Z.of_nat i ->
  Z.of_nat i < Buf.indexOf b (String c "") byteOffset ->
  nth_error b i <> Some (byte_of_ascii c).
Proof.
  intros Hoff Hi Hnth.
  pose proof (indexOf_first b (String c "") byteOffset i Hoff Hi) as H.
  change (Buf.from (String c "")) with [byte_of_ascii c] in H.
  rewrite <- nth_error_skipn_0 in Hnth.
  apply starts_with_byte in Hnth. congruence.
Qed.

(** X4. When the four searches of lines 50 and 60-62 all find what they
    look for, [sign] fills the first field: the placeholder text it
    rewrites is the first one in the document, the [/Contents] tag is
    the first one after that text, "<" is the first one from the tag on
    and ">" the first one after it -- so the field holds no ">" and
    nothing but the tag lies between the tag and the field's "<". *)
Theorem sign_targets_the_first_field (this : SignPdf) (pdf : Buffer) :
  byteRangePos this pdf <> -1 ->
  contentsTagPos this pdf <> -1 ->
  placeholderPos this pdf <> -1 ->
  placeholderEnd this pdf <> -1 ->
  (forall i : nat,
      Z.of_nat i < byteRangePos this pdf ->
      Buf.starts_with (Buf.from (byteRangeString this)) (skipn i pdf) = false)
  /\ byteRangeEnd this pdf <= contentsTagPos this pdf
  /\ (forall i : nat,
        byteRangeEnd this pdf <= Z.of_nat i < contentsTagPos this pdf ->
        Buf.starts_with (Buf.from "/Contents ") (skipn i pdf) = false)
  /\ contentsTagPos this pdf + 10 <= placeholderPos this pdf
  /\ (forall i : nat,
        contentsTagPos this pdf <= Z.of_nat i < placeholderPos this pdf ->
        nth_error pdf i <> Some "<"%byte)
  /\ placeholderPos this pdf < placeholderEnd this pdf
  /\ (forall i : nat,
        placeholderPos this pdf <= Z.of_nat i < placeholderEnd this pdf ->
        nth_error pdf i <> Some ">"%byte).
Proof.
  intros Hpos Hc Hp He.
  destruct (byteRangePos_found this pdf Hpos) as [H0 Hend].
  assert (Hend0 : 0 <= byteRangeEnd this pdf) by (unfold byteRangeEnd; lia).
  assert (Hct : byteRangeEnd this pdf <= contentsTagPos this pdf).
  { unfold contentsTagPos in *.
    destruct (indexOf_spec pdf "/Contents " (byteRangeEnd this pdf))
      as [E | (_ & _ & _ & H)]; [contradiction | now apply H]. }
  assert (Hcp : contentsTagPos this pdf <= placeholderPos this pdf).
  { unfold placeholderPos in *.
    destruct (indexOf_spec pdf "<" (contentsTagPos this pdf))
      as [E | (_ & _ & _ & H)]; [contradiction | apply H; lia]. }
  destruct (brackets_ordered this pdf Hp He) as [Hpe _].
  assert (Hfirst_lt : forall i : nat,
            contentsTagPos this pdf <= Z.of_nat i < placeholderPos this pdf ->
            nth_error pdf i <> Some "<"%byte).
  { intros i Hi. apply (indexOf_first_char pdf "<" (contentsTagPos this pdf) i); [lia|].
    fold (placeholderPos this pdf). lia. }
  split.
  { intros i Hi. apply (indexOf_first pdf _ 0 i); [lia | exact Hi]. }
  split; [exact Hct|]. split.
  { intros i Hi. apply (indexOf_first pdf _ (byteRangeEnd this pdf) i); [lia|].
    fold (contentsTagPos this pdf). lia. }
  split.
  { destruct (indexOf_found pdf "/Contents " (byteRangeEnd this pdf) Hc) as [rest Hrest].
    fold (contentsTagPos this pdf) in Hrest.
    pose proof (indexOf_char pdf "<" (contentsTagPos this pdf) Hp) as Hlt.
    fold (placeholderPos this pdf) in Hlt.
    destruct (Z_lt_le_dec (placeholderPos this pdf) (contentsTagPos this pdf + 10))
      as [Hin|]; [exfalso | assumption].
    assert (Hnth : nth_error pdf (Z.to_nat (placeholderPos this pdf))
                   = nth_error (Buf.from "/Contents " ++ rest)%list
                       (Z.to_nat (placeholderPos this pdf - contentsTagPos this pdf))).
    { rewrite <- Hrest, nth_error_skipn. f_equal. lia. }
    rewrite Hlt in Hnth.
    remember (Z.to_nat (placeholderPos this pdf - contentsTagPos this pdf)) as j eqn:Hj.
    assert (Hj10 : (j < 10)%nat) by lia.
    do 10 (destruct j as [|j]; [discriminate Hnth|]). lia. }
  split; [exact Hfirst_lt|]. split; [lia|].
  intros i Hi. apply (indexOf_first_char pdf ">" (placeholderPos this pdf) i); [lia|].
  fold (placeholderEnd this pdf).
  destruct (Z.eq_dec (Z.of_nat i) (placeholderEnd this pdf)); lia.
Qed.

(* ================================================================= *)
(** ** The returned buffer *)

Lemma firstn_app_exact {A} (a b : list A) (k : nat) :
  (List.length a <= k)%nat -> firstn k (a ++ b) = (a ++ firstn (k - List.length a) b)%list.
Proof.
  intros H. rewrite firstn_app. f_equal. apply firstn_all2. exact H.
Qed.

Lemma skipn_app_exact {A} (a b : list A) (k : nat) :
  (List.length a <= k)%nat -> skipn k (a ++ b) = skipn (k - List.length a) b.
Proof.
  intros H. rewrite skipn_app, skipn_all2 by exact H. reflexivity.
Qed.

(** X5. The returned buffer, part by part: the document up to the
    placeholder text, the byte range text of the same width, the
    document from the end of that text to the field, the bracketed
    payload, and the document after the field. Every byte outside the
    placeholder text and the field is carried over, in order. *)
Theorem sign_output_layout {forge : Toolkit}
    (removeTrailingNewLine : Buffer -> Buffer)
    (now : Z) (pdfBuffer p12Buffer : Buffer) (o : Options) (this this' : SignPdf)
    (out : Buffer) :
  let pdf := removeTrailingNewLine pdfBuffer in
  sign removeTrailingNewLine now (VBuffer pdfBuffer) (VBuffer p12Buffer) o this
  = (Return out, this') ->
  contentsTagPos this pdf <> -1 ->
  placeholderPos this pdf <> -1 ->
  exists text payload,
    paddedByteRange this pdf = Return text
    /\ String.length text = String.length (byteRangeString this)
    /\ Z.of_nat (String.length payload) = 2 * (placeholderLength this pdf / 2)
    /\ out = Buf.concat [
               Buf.slice pdf 0 (byteRangePos this pdf);
               Buf.from text;
               Buf.slice pdf (byteRangeEnd this pdf) (placeholderPos this pdf);
               Buf.from ("<" ++ payload ++ ">");
               Buf.slice_from pdf (placeholderEnd this pdf + 1) ].
Proof.
  intros pdf Hsign Hc Hp.
  rewrite sign_stages in Hsign. fold pdf in Hsign.
  destruct (sign_staged_Return _ _ _ _ _ _ _ Hsign)
    as (Hpos & text & raw & payload & Htext & Hraw & Hfit & Hpay & Hout & _).
  assert (He : placeholderEnd this pdf <> -1).
  { destruct (placeholderPos_range this pdf) as [|Hr]; [contradiction|].
    unfold placeholderLength, placeholderLengthWithBrackets in Hfit. lia. }
  destruct (paddedByteRange_length this pdf text Htext) as [Hw _].
  destruct (rewriteByteRange_keeps this pdf text Hpos Hw) as (Hsame & _).
  pose proof (paddedSignature_length this pdf raw payload Hfit Hpay) as Hsize.
  destruct (byteRange_before_field this pdf text Hpos Hc Hp Hw) as [H0 Hbefore].
  destruct (field_inside this pdf Hp He) as (Hp0 & HW & Hin).
  exists text, payload.
  split; [exact Htext|]. split; [exact Hw|]. split; [exact Hsize|].
  rewrite Hout, (placeSignature_eq this pdf Hp He _ Hsame).
  rewrite (rewriteByteRange_eq this pdf text Hpos).
  unfold Buf.concat. cbn [List.concat]. rewrite app_nil_r.
  assert (Hend : byteRangeEnd this pdf
                 = byteRangePos this pdf + Z.of_nat (String.length (byteRangeString this)))
    by reflexivity.
  set (pos := byteRangePos this pdf) in *.
  set (fin := byteRangeEnd this pdf) in *.
  set (p := placeholderPos this pdf) in *.
  set (W := placeholderLengthWithBrackets this pdf) in *.
  assert (HW' : placeholderEnd this pdf + 1 = p + W)
    by (subst W p; unfold placeholderLengthWithBrackets; lia).
  rewrite HW'.
  rewrite slice_prefix, (slice_in pdf fin p), slice_from_in by lia.
  assert (HA : List.length (firstn (Z.to_nat pos) pdf) = Z.to_nat pos).
  { rewrite length_firstn. unfold Buf.length in *. lia. }
  assert (HT : List.length (Buf.from text) = Z.to_nat (fin - pos)).
  { pose proof (from_length text) as Hf. unfold Buf.length in Hf. lia. }
  rewrite !firstn_app_exact by (rewrite ?HA, ?HT; lia).
  rewrite !skipn_app_exact by (rewrite ?HA, ?HT; lia).
  rewrite HA, HT, skipn_skipn, <- !app_assoc.
  repeat f_equal; lia.
Qed.

(* ================================================================= *)
(** ** The errors of [sign] *)

Section SignErrors.

Context {forge : Toolkit}.

(** Lines 86-159 throw a library error, the TypeError of line 103 or
    the input error of line 127. *)
Lemma buildSignature_errors now content p12Buffer o err :
  buildSignature now content p12Buffer o = Throw err ->
  err = TypeError
  \/ err = SignPdfError "Failed to find a certificate that matches the private key."
             TYPE_INPUT
  \/ exists msg, err = LibraryError msg.
Proof.
  assert (Hlib : forall A (r : string + A) e,
            lib r = Throw e -> exists msg, e = LibraryError msg).
  { intros A [msg|a] e H; [injection H as <-; now exists msg | discriminate]. }
  unfold buildSignature.
  destruct (lib (asn1_fromDer _)) as [p12Asn1|e0] eqn:E0; cbn [bind];
    [|intros H; injection H as <-; right; right; exact (Hlib _ _ _ E0)].
  destruct (lib (pkcs12FromAsn1 _ _ _)) as [p12|e1] eqn:E1; cbn [bind];
    [|intros H; injection H as <-; right; right; exact (Hlib _ _ _ E1)].
  destruct (keyBags p12) as [|keyBag0 others];
    [intros H; injection H as <-; now left|].
  destruct (forEach_certBags _ _ _ _) as [p7 [certificate|]];
    [|intros H; injection H as <-; right; now left].
  destruct (lib (addSigner _ _)) as [p7a|e2] eqn:E2; cbn [bind];
    [|intros H; injection H as <-; right; right; exact (Hlib _ _ _ E2)].
  destruct (lib (sign_detached _)) as [p7b|e3] eqn:E3; cbn [bind];
    [|intros H; injection H as <-; right; right; exact (Hlib _ _ _ E3)].
  destruct (lib (toAsn1 _)) as [p7Asn1|e4] eqn:E4; cbn [bind];
    [|intros H; injection H as <-; right; right; exact (Hlib _ _ _ E4)].
  intros H. right; right. exact (Hlib _ _ _ H).
Qed.

End SignErrors.

(** X6. Everything [sign] can throw: its four input and parse errors, a
    RangeError from line 70, a TypeError from line 103, or an error of
    the toolkit. It never throws an error of type [VERIFY_SIGNATURE]. *)
Theorem sign_errors {forge : Toolkit}
    (removeTrailingNewLine : Buffer -> Buffer)
    (now : Z) (pdfBuffer p12Buffer : value) (o : Options) (this : SignPdf) :
  match fst (sign removeTrailingNewLine now pdfBuffer p12Buffer o this) with
  | Return _ => True
  | Throw err =>
      err = SignPdfError "PDF expected as Buffer." TYPE_INPUT
      \/ err = SignPdfError "p12 certificate expected as Buffer." TYPE_INPUT
      \/ err = SignPdfError
                 ("Could not find ByteRange placeholder: " ++ byteRangeString this)
                 TYPE_PARSE
      \/ err = RangeError
      \/ err = TypeError
      \/ err = SignPdfError "Failed to find a certificate that matches the private key."
                 TYPE_INPUT
      \/ (exists produced reserved,
            err = SignPdfError
                    ("Signature exceeds placeholder length: " ++ JS.toString produced
                     ++ " > " ++ JS.toString reserved)
                    TYPE_INPUT
            /\ produced > reserved)
      \/ (exists msg, err = LibraryError msg)
  end.
Proof.
  destruct pdfBuffer as [| |k|s|pdfBuffer]; [left; reflexivity .. |].
  destruct p12Buffer as [| |k|s|p12Buffer]; [right; left; reflexivity .. |].
  rewrite sign_stages. unfold sign_staged.
  set (pdf := removeTrailingNewLine pdfBuffer).
  destruct (byteRangePos this pdf =? -1); [cbn [fst]; tauto|].
  destruct (paddedByteRange this pdf) as [text|e0] eqn:Etext; cbn [fst].
  - destruct (buildSignature _ _ _ _) as [raw|e1] eqn:Eraw; cbn [fst].
    + destruct (_ >? _) eqn:Efit; cbn [fst].
      * apply Z.gtb_lt in Efit. do 6 right. left.
        eexists _, _. split; [reflexivity | lia].
      * rewrite Z.gtb_ltb in Efit. apply Z.ltb_ge in Efit.
        rewrite paddedSignature_eq by exact Efit. exact I.
    + destruct (buildSignature_errors _ _ _ _ _ Eraw) as [-> | [-> | H]]; tauto.
  - rewrite (paddedByteRange_error _ _ _ Etext). tauto.
Qed.

(** X7. For a placeholder of ASCII characters, and [pdf] the buffer
    that [removeTrailingNewLine] returned: [sign] throws a RangeError
    exactly when the placeholder text is found and the byte range,
    written out, is longer than that text -- [20 + 3 n] characters for
    a placeholder of [n] characters. The instance is then left as it
    was, and nothing was signed. *)
Theorem sign_RangeError_iff {forge : Toolkit}
    (removeTrailingNewLine : Buffer -> Buffer)
    (now : Z) (pdfBuffer p12Buffer : Buffer) (o : Options) (this : SignPdf) :
  let pdf := removeTrailingNewLine pdfBuffer in
  isASCII (byteRangePlaceholder this) = true ->
  String.length (byteRangeString this)
  = (20 + 3 * String.length (byteRangePlaceholder this))%nat
  /\ (sign removeTrailingNewLine now (VBuffer pdfBuffer) (VBuffer p12Buffer) o this
      = (Throw RangeError, this)
      <-> byteRangePos this pdf <> -1
          /\ (String.length (byteRangeString this)
              < String.length (actualByteRange this pdf))%nat).
Proof.
  intros pdf _. split; [apply byteRangeString_length|].
  rewrite sign_stages. fold pdf. unfold sign_staged, paddedByteRange, JS.repeat.
  destruct (byteRangePos this pdf =? -1) eqn:Epos.
  { apply Z.eqb_eq in Epos. split; [discriminate | intros [H _]; contradiction]. }
  apply Z.eqb_neq in Epos.
  destruct (_ <? 0) eqn:Efit; cbn [bind].
  - apply Z.ltb_lt in Efit. split; [intros _; split; [exact Epos | lia] | reflexivity].
  - apply Z.ltb_ge in Efit.
    split; [|intros [_ H]; lia].
    destruct (buildSignature _ _ _ _) as [raw|e1] eqn:Eraw.
    + destruct (_ >? _) eqn:Elong; [discriminate|].
      rewrite Z.gtb_ltb in Elong. apply Z.ltb_ge in Elong.
      replace (JS.repeat_nat " " _) with
        (JS.repeat_nat " " (Z.to_nat (Z.of_nat (String.length (byteRangeString this))
                                      - Z.of_nat (String.length (actualByteRange this pdf)))))
        in Eraw |- * by reflexivity.
      match goal with
      | |- context [paddedSignature this pdf raw] =>
          rewrite (paddedSignature_eq this pdf raw Elong)
      end.
      discriminate.
    + intros H. injection H as ->.
      destruct (buildSignature_errors _ _ _ _ _ Eraw) as [H | [H | [msg H]]];
        discriminate.
Qed.

Lemma sign_RangeError_iff_witness :
  @sign Toy.toolkit Samples.trim Samples.now
    (VBuffer MoreSamples.document_short_placeholder) (VBuffer Samples.p12)
    no_options MoreSamples.short_signer
  = (Throw RangeError, MoreSamples.short_signer).
Proof.
  destruct (@sign_RangeError_iff Toy.toolkit Samples.trim Samples.now
              MoreSamples.document_short_placeholder Samples.p12 no_options
              MoreSamples.short_signer eq_refl) as [_ [_ Hthrows]].
  apply Hthrows. split; [vm_compute; discriminate|].
  apply Nat.ltb_lt. vm_compute. reflexivity.
Defined.

(* ================================================================= *)
(** ** The certificates of the container *)

(** X8. The loop over the certificate bags adds every certificate of
    the container to the SignedData, in bag order, whether or not it
    matches the private key and whatever certificate is chosen. *)
Theorem all_certificates_are_added {forge : Toolkit}
    (privateKey : PrivateKey) (bags : list CertBag) (p7 : Pkcs7)
    (certificate : option Certificate) :
  fst (forEach_certBags privateKey bags p7 certificate)
  = fold_left addCertificate (map cert bags) p7.
Proof.
  revert p7 certificate.
  induction bags as [|bag rest IH]; intros p7 certificate; [reflexivity|].
  cbn [forEach_certBags map fold_left]. apply IH.
Qed.

(* ================================================================= *)
(** ** Signing again *)

Section Again.

Context {forge : Toolkit}.

Variable placeholder : string.
Variables last last' : option string.

Let this := {| byteRangePlaceholder := placeholder; lastSignature := last |}.
Let this0 := {| byteRangePlaceholder := placeholder; lastSignature := last' |}.

(** The stages read of the instance its placeholder alone. *)
Lemma byteRangeString_same : byteRangeString this0 = byteRangeString this.
Proof. reflexivity. Qed.

Lemma byteRangePos_same pdf : byteRangePos this0 pdf = byteRangePos this pdf.
Proof. unfold byteRangePos. now rewrite byteRangeString_same. Qed.

Lemma byteRangeEnd_same pdf : byteRangeEnd this0 pdf = byteRangeEnd this pdf.
Proof. unfold byteRangeEnd. now rewrite byteRangePos_same, byteRangeString_same. Qed.

Lemma placeholderPos_same pdf : placeholderPos this0 pdf = placeholderPos this pdf.
Proof. unfold placeholderPos, contentsTagPos. now rewrite byteRangeEnd_same. Qed.

Lemma placeholderLengthWithBrackets_same pdf :
  placeholderLengthWithBrackets this0 pdf = placeholderLengthWithBrackets this pdf.
Proof.
  unfold placeholderLengthWithBrackets, placeholderEnd.
  now rewrite placeholderPos_same.
Qed.

Lemma placeholderLength_same pdf :
  placeholderLength this0 pdf = placeholderLength this pdf.
Proof. unfold placeholderLength. now rewrite placeholderLengthWithBrackets_same. Qed.

Lemma byteRange_same pdf : byteRange this0 pdf = byteRange this pdf.
Proof.
  unfold byteRange. now rewrite placeholderPos_same, placeholderLengthWithBrackets_same.
Qed.

Lemma paddedByteRange_same pdf : paddedByteRange this0 pdf = paddedByteRange this pdf.
Proof.
  unfold paddedByteRange, actualByteRange.
  now rewrite byteRange_same, byteRangeString_same.
Qed.

Lemma rewriteByteRange_same pdf text :
  rewriteByteRange this0 pdf text = rewriteByteRange this pdf text.
Proof. unfold rewriteByteRange. now rewrite byteRangePos_same, byteRangeEnd_same. Qed.

Lemma removePlaceholder_same pdf rewritten :
  removePlaceholder this0 pdf rewritten = removePlaceholder this pdf rewritten.
Proof. unfold removePlaceholder. now rewrite byteRange_same. Qed.

Lemma paddedSignature_same pdf raw :
  paddedSignature this0 pdf raw = paddedSignature this pdf raw.
Proof. unfold paddedSignature. now rewrite placeholderLength_same. Qed.

Lemma placeSignature_same pdf excised payload :
  placeSignature this0 pdf excised payload = placeSignature this pdf excised payload.
Proof. unfold placeSignature. now rewrite byteRange_same. Qed.

Lemma signatureTooLong_same pdf raw :
  signatureTooLong this0 pdf raw = signatureTooLong this pdf raw.
Proof. unfold signatureTooLong. now rewrite placeholderLength_same. Qed.

(** The stored signature has no part in what [sign] computes. *)
Lemma sign_staged_ignores_lastSignature now pdf p12Buffer o :
  fst (sign_staged now pdf p12Buffer o this0)
  = fst (sign_staged now pdf p12Buffer o this).
Proof.
  unfold sign_staged.
  rewrite byteRangePos_same, byteRangeString_same, paddedByteRange_same,
    placeholderLength_same.
  destruct (byteRangePos this pdf =? -1); [reflexivity|].
  destruct (paddedByteRange this pdf) as [text|]; [|reflexivity].
  rewrite rewriteByteRange_same, removePlaceholder_same.
  destruct (buildSignature _ _ _ _) as [raw|]; [|reflexivity].
  rewrite signatureTooLong_same, paddedSignature_same.
  destruct (_ >? _); [reflexivity|].
  destruct (paddedSignature this pdf raw) as [payload|]; [|reflexivity].
  now rewrite placeSignature_same.
Qed.

End Again.

(** X9. Signing again on the same instance, with the same arguments and
    the same clock reading, gives the same result: the signature that
    the first call stored has no influence on the second. *)
Theorem sign_again_same_result {forge : Toolkit}
    (removeTrailingNewLine : Buffer -> Buffer)
    (now : Z) (pdfBuffer p12Buffer : value) (o : Options) (this : SignPdf) :
  fst (sign removeTrailingNewLine now pdfBuffer p12Buffer o
         (snd (sign removeTrailingNewLine now pdfBuffer p12Buffer o this)))
  = fst (sign removeTrailingNewLine now pdfBuffer p12Buffer o this).
Proof.
  destruct pdfBuffer as [| |k|s|pdfBuffer]; [reflexivity .. |].
  destruct p12Buffer as [| |k|s|p12Buffer]; [reflexivity .. |].
  destruct (sign removeTrailingNewLine now (VBuffer pdfBuffer) (VBuffer p12Buffer) o this)
    as [[out|err] this'] eqn:Hsign; cbn [snd fst].
  - rewrite sign_stages in Hsign.
    destruct (sign_staged_Return _ _ _ _ _ _ _ Hsign)
      as (_ & text & raw & payload & _ & _ & _ & _ & _ & ->).
    rewrite sign_stages. destruct this as [ph last]. unfold stored.
    cbn [byteRangePlaceholder].
    rewrite (sign_staged_ignores_lastSignature ph last), Hsign. reflexivity.
  - rewrite sign_stages in Hsign.
    destruct (sign_staged_Throw _ _ _ _ _ _ _ Hsign) as [-> _].
    rewrite sign_stages, Hsign. reflexivity.
Qed.

(* ================================================================= *)
(** ** Errors of the container *)

(** X10. An error of the toolkit while it reads the container -- a
    malformed container, a wrong passphrase -- comes out of [sign] as
    it is, not wrapped in a [SignPdfError]; the options reach the
    toolkit with [false] and the empty passphrase as defaults. *)
Theorem container_errors_pass_through {forge : Toolkit}
    (removeTrailingNewLine : Buffer -> Buffer)
    (now : Z) (pdfBuffer p12Buffer : Buffer) (o : Options) (this : SignPdf)
    (text msg : string) :
  let pdf := removeTrailingNewLine pdfBuffer in
  let strict := match asn1StrictParsing o with Some b => b | None => false end in
  let pass := match passphrase o with Some s => s | None => "" end in
  byteRangePos this pdf <> -1 ->
  paddedByteRange this pdf = Return text ->
  asn1_fromDer (Buf.toString_binary p12Buffer) = inl msg
  \/ (exists p12Asn1,
        asn1_fromDer (Buf.toString_binary p12Buffer) = inr p12Asn1
        /\ pkcs12FromAsn1 p12Asn1 strict pass = inl msg) ->
  sign removeTrailingNewLine now (VBuffer pdfBuffer) (VBuffer p12Buffer) o this
  = (Throw (LibraryError msg), this).
Proof.
  intros pdf strict pass Hpos Htext Hfail.
  rewrite sign_stages. fold pdf. unfold sign_staged.
  apply Z.eqb_neq in Hpos. rewrite Hpos, Htext.
  unfold buildSignature. fold strict pass.
  destruct Hfail as [H | (p12Asn1 & H1 & H2)].
  - rewrite H. reflexivity.
  - rewrite H1. cbn [lib bind]. rewrite H2. reflexivity.
Qed.

Lemma container_errors_pass_through_witness :
  @sign MoreSamples.with_passphrase Samples.trim Samples.now (VBuffer (Samples.document 20))
    (VBuffer Samples.p12) no_options constructor
  = (Throw (LibraryError "PKCS#12 MAC could not be verified. Invalid password?"),
     constructor)
  /\ exists out this',
       @sign MoreSamples.with_passphrase Samples.trim Samples.now (VBuffer (Samples.document 20))
         (VBuffer Samples.p12)
         {| asn1StrictParsing := None; passphrase := Some "secret" |} constructor
       = (Return out, this').
Proof.
  split.
  - pose (pdf := Samples.trim (Samples.document 20)).
    assert (Hpos : byteRangePos constructor pdf <> -1) by (vm_compute; discriminate).
    evaluated (paddedByteRange constructor pdf) Htext.
    refine (@container_errors_pass_through MoreSamples.with_passphrase
              Samples.trim Samples.now (Samples.document 20) Samples.p12 no_options constructor
              _ _ Hpos Htext _).
    right. exists (JString "kkA"). split; reflexivity.
  - eexists _, _. vm_compute. reflexivity.
Defined.

(** X11. A container without a key bag makes [sign] throw a TypeError
    at line 103, whatever certificates it holds. *)
Theorem sign_without_key_bag {forge : Toolkit}
    (removeTrailingNewLine : Buffer -> Buffer)
    (now : Z) (pdfBuffer p12Buffer : Buffer) (o : Options) (this : SignPdf)
    (text : string) (p12Asn1 : jsv) (p12 : Pkcs12) :
  let pdf := removeTrailingNewLine pdfBuffer in
  byteRangePos this pdf <> -1 ->
  paddedByteRange this pdf = Return text ->
  asn1_fromDer (Buf.toString_binary p12Buffer) = inr p12Asn1 ->
  pkcs12FromAsn1 p12Asn1
    match asn1StrictParsing o with Some b => b | None => false end
    match passphrase o with Some s => s | None => "" end = inr p12 ->
  keyBags p12 = [] ->
  sign removeTrailingNewLine now (VBuffer pdfBuffer) (VBuffer p12Buffer) o this
  = (Throw TypeError, this).
Proof.
  intros pdf Hpos Htext Hder Hp12 Hkeys.
  rewrite sign_stages. fold pdf. unfold sign_staged.
  apply Z.eqb_neq in Hpos. rewrite Hpos, Htext.
  unfold buildSignature. rewrite Hder. cbn [lib bind].
  rewrite Hp12. cbn [lib bind]. rewrite Hkeys. reflexivity.
Qed.

Lemma sign_without_key_bag_witness :
  @sign MoreSamples.without_key Samples.trim Samples.now (VBuffer (Samples.document 20))
    (VBuffer Samples.p12) no_options constructor
  = (Throw TypeError, constructor).
Proof.
  pose (pdf := Samples.trim (Samples.document 20)).
  assert (Hpos : byteRangePos constructor pdf <> -1) by (vm_compute; discriminate).
  evaluated (paddedByteRange constructor pdf) Htext.
  exact (@sign_without_key_bag MoreSamples.without_key
           Samples.trim Samples.now (Samples.document 20) Samples.p12 no_options constructor
           _ (JString "kkA") _ Hpos Htext eq_refl eq_refl eq_refl).
Defined.

(* ================================================================= *)
(** ** The verdict of [verify] *)

Section Verified.

Context {forge : Toolkit}.
Variable extractSignature : Buffer -> result (string * Buffer).

(** The callback of line 226 on one attribute. *)
Lemma messageDigest_callback (attr : jsv) (hit : bool) :
  bind (get_value attr) (fun v =>
    bind (get_index v 0) (fun v0 =>
      bind (get_value v0) (fun oidBytes =>
        bind (lib (asn1_derToOid oidBytes)) (fun oid =>
          Return (String.eqb oid oids.messageDigest))))) = Return hit
  <-> exists type,
        attribute_type attr = Return type
        /\ String.eqb type oids.messageDigest = hit.
Proof.
  unfold attribute_type.
  destruct (get_value attr) as [v|]; cbn [bind];
    [|split; [discriminate | intros (type & H & _); discriminate]].
  destruct (get_index v 0) as [v0|]; cbn [bind];
    [|split; [discriminate | intros (type & H & _); discriminate]].
  destruct (get_value v0) as [oidBytes|]; cbn [bind];
    [|split; [discriminate | intros (type & H & _); discriminate]].
  destruct (lib (asn1_derToOid oidBytes)) as [oid|]; cbn [bind];
    [|split; [discriminate | intros (type & H & _); discriminate]].
  split.
  - intros H. apply Return_inj in H. now exists oid.
  - intros (type & H & <-). apply Return_inj in H. now subst type.
Qed.

(** [find] returns the first element on which the callback answers
    [true], having answered [false] on those before it. *)
Lemma find_array_first (callback : jsv -> result bool) (l : list jsv) (x : jsv) :
  find_array callback l = Return x ->
  (exists before after,
      l = (before ++ x :: after)%list
      /\ Forall (fun y => callback y = Return false) before
      /\ callback x = Return true)
  \/ (x = JUndefined /\ Forall (fun y => callback y = Return false) l).
Proof.
  induction l as [|y l IH]; cbn [find_array].
  - intros H. apply Return_inj in H. right. now split.
  - destruct (callback y) as [[|]|] eqn:Ey; cbn [bind]; [| |discriminate].
    + intros H. apply Return_inj in H. subst y.
      left. exists [], l. now split.
    + intros H. destruct (IH H) as [(before & after & -> & Hb & Hx) | [-> Hall]].
      * left. exists (y :: before), after. split; [reflexivity|].
        split; [now constructor | exact Hx].
      * right. split; [reflexivity | now constructor].
Qed.

Lemma find_array_found (callback : jsv -> result bool) (before after : list jsv)
    (x : jsv) :
  Forall (fun y => callback y = Return false) before ->
  callback x = Return true ->
  find_array callback (before ++ x :: after) = Return x.
Proof.
  intros Hb Hx. induction Hb as [|y before Hy Hb IH]; cbn [app find_array].
  - rewrite Hx. reflexivity.
  - rewrite Hy. cbn [bind]. exact IH.
Qed.

(** The second check succeeds exactly when the first attribute of type
    [messageDigest] holds the digest of the signed data. *)
Lemma verify_contentDigest_true (c : Checked) :
  verify_contentDigest c = Return true
  <-> exists before digestAttr after dataDigest,
        attrs c = JArray (before ++ digestAttr :: after)
        /\ Forall (fun attr =>
                     exists type,
                       attribute_type attr = Return type
                       /\ String.eqb type oids.messageDigest = false) before
        /\ attribute_type digestAttr = Return oids.messageDigest
        /\ crypto_hash (hashAlgorithm c) (signedData c) = inr dataDigest
        /\ attribute_first_value digestAttr
           = Return (JString (Buf.toString_binary dataDigest)).
Proof.
  unfold verify_contentDigest, attribute_first_value. split.
  - destruct (attrs c) as [|s|l|tagClass type constructed value];
      cbn [find bind]; try discriminate.
    destruct (find_array _ l) as [fullAttrDigest|] eqn:Efind; cbn [bind];
      [|discriminate].
    destruct (find_array_first _ _ _ Efind)
      as [(before & after & -> & Hbefore & Hhit) | [-> _]];
      [|discriminate].
    apply messageDigest_callback in Hhit. destruct Hhit as (type & Htype & Heq).
    apply String.eqb_eq in Heq. subst type.
    assert (Hothers : Forall (fun attr =>
                                exists type,
                                  attribute_type attr = Return type
                                  /\ String.eqb type oids.messageDigest = false)
                        before).
    { eapply Forall_impl; [|exact Hbefore].
      intros attr Hattr. now apply messageDigest_callback. }
    clear Hbefore Efind.
    destruct (get_value fullAttrDigest) as [v|] eqn:G1; cbn [bind]; [|discriminate].
    destruct (get_index v 1) as [v1|] eqn:G2; cbn [bind]; [|discriminate].
    destruct (get_value v1) as [v1v|] eqn:G3; cbn [bind]; [|discriminate].
    destruct (get_index v1v 0) as [v1v0|] eqn:G4; cbn [bind]; [|discriminate].
    destruct (get_value v1v0) as [attrDigest|] eqn:G5; cbn [bind]; [|discriminate].
    destruct (crypto_hash _ _) as [msg|dataDigest] eqn:Ehash; cbn [lib bind];
      [discriminate|].
    intros H. apply Return_inj in H.
    destruct attrDigest as [|s| |]; cbn [strict_eq_string] in H; try discriminate.
    apply String.eqb_eq in H. subst s.
    exists before, fullAttrDigest, after, dataDigest.
    split; [reflexivity|]. split; [exact Hothers|].
    split; [exact Htype|]. split; [reflexivity|].
    rewrite G1. cbn [bind]. rewrite G2. cbn [bind]. rewrite G3. cbn [bind].
    rewrite G4. cbn [bind]. exact G5.
  - intros (before & digestAttr & after & dataDigest & -> & Hbefore & Htype & Hhash
            & Hvalue).
    cbn [find].
    rewrite (find_array_found _ before after digestAttr).
    + cbn [bind]. revert Hvalue.
      destruct (get_value digestAttr) as [v|]; cbn [bind]; [|discriminate].
      destruct (get_index v 1) as [v1|]; cbn [bind]; [|discriminate].
      destruct (get_value v1) as [v1v|]; cbn [bind]; [|discriminate].
      destruct (get_index v1v 0) as [v1v0|]; cbn [bind]; [|discriminate].
      intros Hvalue. rewrite Hvalue. cbn [bind]. rewrite Hhash. cbn [lib bind].
      cbn [strict_eq_string]. now rewrite String.eqb_refl.
    + eapply Forall_impl; [|exact Hbefore].
      intros attr Hattr. now apply messageDigest_callback.
    + apply messageDigest_callback. exists oids.messageDigest.
      split; [exact Htype | apply String.eqb_refl].
Qed.

(** The first half of the [try] block returns exactly when every call
    up to the signature check returned. *)
Lemma verify_authenticatedAttributes_Return (pdfBuffer : Buffer) (c : Checked) :
  verify_authenticatedAttributes extractSignature pdfBuffer = Return c
  <-> exists signature p7Asn1 msg rc oid name der pem,
        extractSignature pdfBuffer = Return (signature, signedData c)
        /\ asn1_fromDer signature = inr p7Asn1
        /\ messageFromAsn1 p7Asn1 = inr msg
        /\ rawCapture msg = Some rc
        /\ asn1_derToOid (rc_digestAlgorithm rc) = inr oid
        /\ oids_lookup oid = Some name
        /\ asn1_toDer (asn1_create Class_UNIVERSAL Type_SET true
                         (rc_authenticatedAttributes rc)) = inr der
        /\ certificateToPem (nth_error (certificates msg) 0) = inr pem
        /\ crypto_verify (JS.toUpperCase name) (Buf.from der) pem (rc_signature rc)
           = inr (validAuthenticatedAttributes c)
        /\ attrs c = rc_authenticatedAttributes rc
        /\ hashAlgorithm c = JS.toUpperCase name.
Proof.
  unfold verify_authenticatedAttributes. split.
  - destruct (extractSignature pdfBuffer) as [[signature signed]|]; cbn [bind];
      [|discriminate].
    destruct (asn1_fromDer signature) as [|p7Asn1] eqn:E1; cbn [lib bind];
      [discriminate|].
    destruct (messageFromAsn1 p7Asn1) as [|msg] eqn:E2; cbn [lib bind];
      [discriminate|].
    destruct (rawCapture msg) as [rc|] eqn:E3; cbn [bind]; [|discriminate].
    destruct (asn1_derToOid _) as [|oid] eqn:E4; cbn [lib bind]; [discriminate|].
    destruct (oids_lookup oid) as [name|] eqn:E5; cbn [bind]; [|discriminate].
    destruct (asn1_toDer _) as [|der] eqn:E6; cbn [lib bind]; [discriminate|].
    destruct (certificateToPem _) as [|pem] eqn:E7; cbn [lib bind]; [discriminate|].
    destruct (crypto_verify _ _ _ _) as [|valid] eqn:E8; cbn [lib bind];
      [discriminate|].
    intros H. apply Return_inj in H. subst c. cbn.
    exists signature, p7Asn1, msg, rc, oid, name, der, pem.
    repeat (split; [first [reflexivity | assumption]|]). reflexivity.
  - intros (signature & p7Asn1 & msg & rc & oid & name & der & pem
            & H0 & H1 & H2 & H3 & H4 & H5 & H6 & H7 & H8 & H9 & H10).
    rewrite H0. cbn [bind]. rewrite H1. cbn [lib bind]. rewrite H2. cbn [lib bind].
    rewrite H3. cbn [bind]. rewrite H4. cbn [lib bind]. rewrite H5. cbn [bind].
    rewrite H6. cbn [lib bind]. rewrite H7. cbn [lib bind]. rewrite H8.
    cbn [lib bind]. destruct c as [sd a h v]. cbn in H9, H10. now subst a h.
Qed.

End Verified.

(** X12. [verify] answers [{verified: true}] exactly when every call of
    the [try] block returns, the toolkit accepts the signature of the
    message over the DER encoding of the SET of its authenticated
    attributes -- with the first certificate of the message and the
    digest algorithm the message names -- and the first attribute whose
    type is [messageDigest] holds, as a binary string, the digest of the
    signed data that [extractSignature] returned. *)
Theorem verify_true_iff {forge : Toolkit}
    (extractSignature : Buffer -> result (string * Buffer))
    (pdfBuffer : Buffer) (this : SignPdf) :
  (exists r, verify extractSignature (VBuffer pdfBuffer) this = (Return r, this)
             /\ verified r = true)
  <-> exists signature signedData p7Asn1 msg rc oid name der pem
             before digestAttr after dataDigest,
        extractSignature pdfBuffer = Return (signature, signedData)
        /\ asn1_fromDer signature = inr p7Asn1
        /\ messageFromAsn1 p7Asn1 = inr msg
        /\ rawCapture msg = Some rc
        /\ asn1_derToOid (rc_digestAlgorithm rc) = inr oid
        /\ oids_lookup oid = Some name
        /\ asn1_toDer (asn1_create Class_UNIVERSAL Type_SET true
                         (rc_authenticatedAttributes rc)) = inr der
        /\ certificateToPem (nth_error (certificates msg) 0) = inr pem
        /\ crypto_verify (JS.toUpperCase name) (Buf.from der) pem (rc_signature rc)
           = inr true
        /\ rc_authenticatedAttributes rc = JArray (before ++ digestAttr :: after)
        /\ Forall (fun attr =>
                     exists type,
                       attribute_type attr = Return type
                       /\ String.eqb type oids.messageDigest = false) before
        /\ attribute_type digestAttr = Return oids.messageDigest
        /\ crypto_hash (JS.toUpperCase name) signedData = inr dataDigest
        /\ attribute_first_value digestAttr
           = Return (JString (Buf.toString_binary dataDigest)).
Proof.
  split.
  - intros (r & Hr & Hv). unfold verify, verify_try in Hr.
    destruct (verify_authenticatedAttributes extractSignature pdfBuffer)
      as [c|err] eqn:Hc; cbn [bind] in Hr;
      [|injection Hr as <-; discriminate Hv].
    destruct (validAuthenticatedAttributes c) eqn:Hvalid; cbn [negb] in Hr;
      [|injection Hr as <-; discriminate Hv].
    destruct (verify_contentDigest c) as [[|]|err] eqn:Hd; cbn [bind negb] in Hr;
      [|injection Hr as <-; discriminate Hv ..].
    apply verify_authenticatedAttributes_Return in Hc.
    destruct Hc as (signature & p7Asn1 & msg & rc & oid & name & der & pem
                    & H0 & H1 & H2 & H3 & H4 & H5 & H6 & H7 & H8 & H9 & H10).
    apply verify_contentDigest_true in Hd.
    destruct Hd as (before & digestAttr & after & dataDigest
                    & Hattrs & Hbefore & Htype & Hhash & Hvalue).
    rewrite Hvalid in H8. rewrite H9 in Hattrs. rewrite H10 in Hhash.
    exists signature, (signedData c), p7Asn1, msg, rc, oid, name, der, pem,
      before, digestAttr, after, dataDigest.
    repeat (split; [assumption|]). assumption.
  - intros (signature & signed & p7Asn1 & msg & rc & oid & name & der & pem
            & before & digestAttr & after & dataDigest
            & H0 & H1 & H2 & H3 & H4 & H5 & H6 & H7 & H8
            & Hattrs & Hbefore & Htype & Hhash & Hvalue).
    set (c := {| signedData := signed;
                 attrs := rc_authenticatedAttributes rc;
                 hashAlgorithm := JS.toUpperCase name;
                 validAuthenticatedAttributes := true |}).
    assert (Hc : verify_authenticatedAttributes extractSignature pdfBuffer = Return c).
    { apply verify_authenticatedAttributes_Return.
      exists signature, p7Asn1, msg, rc, oid, name, der, pem.
      repeat (split; [first [assumption | reflexivity]|]). reflexivity. }
    assert (Hd : verify_contentDigest c = Return true).
    { apply verify_contentDigest_true.
      exists before, digestAttr, after, dataDigest.
      repeat (split; [assumption|]). assumption. }
    unfold verify, verify_try. rewrite Hc. cbn [bind]. cbn [validAuthenticatedAttributes c negb].
    rewrite Hd. cbn [bind negb]. eexists. split; reflexivity.
Qed.

(** X13. A message without a [rawCapture], or one whose digest
    algorithm is not in the toolkit's table of object identifiers,
    makes [verify] answer "couldn't verify file signature": lines 200
    and 206 throw a TypeError, which the [catch] turns into the general
    message. *)
Theorem verify_unreadable_message {forge : Toolkit}
    (extractSignature : Buffer -> result (string * Buffer))
    (pdfBuffer : Buffer) (this : SignPdf)
    (signature : string) (signed : Buffer) (p7Asn1 : jsv) (msg : Message) :
  extractSignature pdfBuffer = Return (signature, signed) ->
  asn1_fromDer signature = inr p7Asn1 ->
  messageFromAsn1 p7Asn1 = inr msg ->
  rawCapture msg = None
  \/ (exists rc oid,
        rawCapture msg = Some rc
        /\ asn1_derToOid (rc_digestAlgorithm rc) = inr oid
        /\ oids_lookup oid = None) ->
  verify extractSignature (VBuffer pdfBuffer) this
  = (Return {| verified := false;
               message := Some "couldn't verify file signature" |}, this).
Proof.
  intros Hex Hder Hmsg Hbad.
  unfold verify, verify_try, verify_authenticatedAttributes.
  rewrite Hex. cbn [bind]. rewrite Hder. cbn [lib bind]. rewrite Hmsg. cbn [lib bind].
  destruct Hbad as [Hnone | (rc & oid & Hrc & Hoid & Hname)].
  - rewrite Hnone. reflexivity.
  - rewrite Hrc. cbn [bind]. rewrite Hoid. cbn [lib bind]. rewrite Hname. reflexivity.
Qed.

Lemma verify_unreadable_message_witness :
  let failed :=
    (Return {| verified := false;
               message := Some "couldn't verify file signature" |}, constructor) in
  @verify MoreSamples.without_capture Extract.extractSignature
    (VBuffer Samples.signed) constructor = failed
  /\ @verify MoreSamples.without_names Extract.extractSignature
       (VBuffer Samples.signed) constructor = failed.
Proof.
  intros failed.
  evaluated (Extract.extractSignature Samples.signed) Hex.
  match type of Hex with
  | _ = Return (?sig, _) =>
      evaluated (@asn1_fromDer Toy.toolkit sig) Hder
  end.
  split.
  - refine (@verify_unreadable_message MoreSamples.without_capture
              Extract.extractSignature Samples.signed constructor
              _ _ _ _ Hex Hder eq_refl _).
    left. reflexivity.
  - match type of Hder with
    | _ = inr ?a => evaluated (@messageFromAsn1 Toy.toolkit a) Hmsg
    end.
    refine (@verify_unreadable_message MoreSamples.without_names
              Extract.extractSignature Samples.signed constructor
              _ _ _ _ Hex Hder Hmsg _).
    right. eexists _, _. repeat split; reflexivity.
Defined.

(* ================================================================= *)
(** ** The payload as text *)

Lemma list_ascii_of_string_append (a b : string) :
  list_ascii_of_string (a ++ b)
  = (list_ascii_of_string a ++ list_ascii_of_string b)%list.
Proof. induction a as [|c a IH]; simpl; [reflexivity | now rewrite IH]. Qed.

Lemma hex_digits_of_byte (x : byte) :
  lower_hex (Buf.hex_digit (Byte.to_N x / 16)) = true
  /\ lower_hex (Buf.hex_digit (Byte.to_N x mod 16)) = true.
Proof. destruct x; split; vm_compute; reflexivity. Qed.

(** [toString('hex')] yields lowercase hexadecimal digits only. *)
Lemma toString_hex_digits (b : Buffer) :
  Forall (fun c => lower_hex c = true) (list_ascii_of_string (Buf.toString_hex b)).
Proof.
  induction b as [|x b IH]; [constructor|].
  cbn [Buf.toString_hex list_ascii_of_string].
  destruct (hex_digits_of_byte x) as [H1 H2].
  constructor; [exact H1|]. constructor; [exact H2 | exact IH].
Qed.

Lemma lower_hex_not_bracket (c : ascii) :
  lower_hex c = true -> byte_of_ascii c <> ">"%byte.
Proof.
  intros H E.
  assert (Hc : c = ">"%char).
  { rewrite <- (ascii_of_byte_of_ascii c), E. reflexivity. }
  subst c. discriminate H.
Qed.

Section Payload.

Context {forge : Toolkit}.

(** What line 174 yields is hexadecimal. *)
Lemma paddedSignature_digits this pdf raw payload :
  paddedSignature this pdf raw = Return payload ->
  Forall (fun c => lower_hex c = true) (list_ascii_of_string payload).
Proof.
  unfold paddedSignature, hexSignature.
  destruct (JS.repeat _ _) as [zeroes|]; [|discriminate].
  cbn [bind]. intros H. apply Return_inj in H. subst payload.
  rewrite list_ascii_of_string_append. apply Forall_app.
  split; apply toString_hex_digits.
Qed.

End Payload.

(** No byte of "<" followed by hexadecimal digits is ">". *)
Lemma open_field_has_no_closing_bracket (payload : string) :
  Forall (fun c => lower_hex c = true) (list_ascii_of_string payload) ->
  Forall (fun x => x <> ">"%byte) (Buf.from ("<" ++ payload)).
Proof.
  intros H. unfold Buf.from, list_byte_of_string.
  cbn [append list_ascii_of_string map].
  constructor; [discriminate|].
  induction H as [|c l Hc Hl IH]; [constructor|].
  cbn [map]. constructor; [now apply lower_hex_not_bracket | exact IH].
Qed.

(** X14. When [sign] returns and line 61 had found the "<" of the
    field ([placeholderPos] is not -1), the value written into
    [/Contents] is a well-formed hexadecimal string: its payload
    consists of lowercase hexadecimal digits, it sits in the returned
    buffer at the offset of the field, and a search for "<" and then
    ">" from that offset -- the way line 61 and 62 located the
    placeholder -- delimits exactly this payload. *)
Theorem written_field_is_delimited {forge : Toolkit}
    (removeTrailingNewLine : Buffer -> Buffer)
    (now : Z) (pdfBuffer p12Buffer : Buffer) (o : Options) (this this' : SignPdf)
    (out : Buffer) :
  let pdf := removeTrailingNewLine pdfBuffer in
  let p := placeholderPos this pdf in
  sign removeTrailingNewLine now (VBuffer pdfBuffer) (VBuffer p12Buffer) o this
  = (Return out, this') ->
  p <> -1 ->
  exists payload,
    Forall (fun c => lower_hex c = true) (list_ascii_of_string payload)
    /\ Buf.slice out p (p + Z.of_nat (String.length payload) + 2)
       = Buf.from ("<" ++ payload ++ ">")
    /\ Buf.indexOf out "<" p = p
    /\ Buf.indexOf out ">" p = p + Z.of_nat (String.length payload) + 1.
Proof.
  intros pdf p Hsign Hp.
  rewrite sign_stages in Hsign. fold pdf in Hsign.
  destruct (sign_staged_Return _ _ _ _ _ _ _ Hsign)
    as (Hpos & text & raw & payload & Htext & Hraw & Hfit & Hpay & Hout & _).
  assert (He : placeholderEnd this pdf <> -1).
  { destruct (placeholderPos_range this pdf) as [|Hr]; [contradiction|].
    unfold placeholderLength, placeholderLengthWithBrackets in Hfit. lia. }
  destruct (paddedByteRange_length this pdf text Htext) as [Hw _].
  destruct (rewriteByteRange_keeps this pdf text Hpos Hw) as (Hsame & _).
  destruct (field_inside this pdf Hp He) as (Hp0 & HW & Hin). fold p in Hp0, Hin.
  pose proof (paddedSignature_digits this pdf raw payload Hpay) as Hdigits.
  rewrite (placeSignature_eq this pdf Hp He _ Hsame) in Hout. fold p in Hout.
  set (A := firstn (Z.to_nat p) (rewriteByteRange this pdf text)) in *.
  set (B := skipn _ (rewriteByteRange this pdf text)) in *.
  assert (HA : List.length A = Z.to_nat p).
  { subst A. rewrite length_firstn. unfold Buf.length in *. lia. }
  set (n := String.length payload).
  assert (Hfield : Buf.from ("<" ++ payload ++ ">")
                   = (Buf.from ("<" ++ payload) ++ [">"%byte])%list).
  { rewrite <- (string_append_assoc "<" payload ">"), from_append. reflexivity. }
  assert (Hopen : List.length (Buf.from ("<" ++ payload)) = S n).
  { pose proof (from_length ("<" ++ payload)) as H.
    rewrite string_length_append in H. unfold Buf.length in H.
    change (String.length "<") with 1%nat in H. subst n. lia. }
  assert (Hlen : Buf.length out = p + (Z.of_nat n + 2) + Buf.length B).
  { rewrite Hout, !length_app, Hfield, length_app. unfold Buf.length.
    rewrite HA, Hopen. cbn [List.length]. lia. }
  pose proof (length_nonneg B) as HB.
  assert (Hskip : forall k : nat,
            (k <= S n)%nat ->
            skipn (Z.to_nat p + k) out
            = (skipn k (Buf.from ("<" ++ payload)) ++ [">"%byte] ++ B)%list).
  { intros k Hk. rewrite Hout, Hfield, <- app_assoc.
    rewrite skipn_app_exact by lia.
    replace (Z.to_nat p + k - List.length A)%nat with k by lia.
    rewrite skipn_app. replace (k - _)%nat with 0%nat by lia. reflexivity. }
  assert (Hlt : Buf.indexOf out "<" p = p).
  { destruct (indexOf_least out "<" p (Z.to_nat p)) as [H1 H2]; try lia.
    - rewrite <- (Nat.add_0_r (Z.to_nat p)), Hskip by lia. reflexivity.
    - destruct (indexOf_spec out "<" p) as [E | (_ & _ & _ & H)];
        [contradiction | specialize (H Hp0); lia]. }
  assert (Hgt : Buf.indexOf out ">" p = p + Z.of_nat n + 1).
  { destruct (indexOf_least out ">" p (Z.to_nat p + S n)) as [H1 H2]; try lia.
    - rewrite Hskip by lia. rewrite skipn_all2 by lia. reflexivity.
    - destruct (indexOf_spec out ">" p) as [E | (_ & _ & _ & H)]; [contradiction|].
      specialize (H Hp0).
      set (r := Buf.indexOf out ">" p) in *.
      destruct (Z.eq_dec r (p + Z.of_nat n + 1)) as [|Hne]; [assumption | exfalso].
      pose proof (indexOf_char out ">" p H1) as Hnth. fold r in Hnth.
      rewrite <- nth_error_skipn_0 in Hnth.
      replace (Z.to_nat r) with (Z.to_nat p + Z.to_nat (r - p))%nat in Hnth by lia.
      rewrite Hskip in Hnth by lia.
      rewrite nth_error_app1 in Hnth by (rewrite length_skipn; lia).
      rewrite nth_error_skipn_0 in Hnth.
      pose proof (open_field_has_no_closing_bracket payload Hdigits) as Hall.
      rewrite Forall_forall in Hall.
      apply nth_error_In in Hnth. exact (Hall _ Hnth eq_refl). }
  exists payload. split; [exact Hdigits|]. split; [|split; assumption].
  fold n. rewrite slice_in by lia.
  replace (Z.to_nat p) with (Z.to_nat p + 0)%nat at 1 by lia.
  rewrite Hskip by lia. cbn [skipn].
  rewrite app_assoc, <- Hfield.
  replace (Z.to_nat (p + Z.of_nat n + 2 - p))
    with (List.length (Buf.from ("<" ++ payload ++ ">")) + 0)%nat.
  - rewrite firstn_app_2. cbn [firstn]. apply app_nil_r.
  - rewrite Hfield, List.length_app, Hopen. cbn [List.length]. lia.
Qed.

(* ================================================================= *)
(** ** The content of the placeholder *)

Lemma starts_with_in_prefix (needle : Buffer) :
  forall (front rest rest' : Buffer),
    (List.length needle <= List.length front)%nat ->
    Buf.starts_with needle (front ++ rest)%list
    = Buf.starts_with needle (front ++ rest')%list.
Proof.
  induction needle as [|x needle IH]; intros front rest rest' H; [reflexivity|].
  destruct front as [|y front]; [cbn in H; lia|].
  cbn [app Buf.starts_with]. f_equal. apply IH. cbn in H. lia.
Qed.

(** An occurrence found inside a common front part is found there
    whatever follows the front part. *)
Lemma search_in_prefix (needle : Buffer) :
  forall (front rest rest' : Buffer) (pos : Z),
    Buf.search needle (front ++ rest)%list pos <> -1 ->
    Buf.search needle (front ++ rest)%list pos - pos + Buf.length needle
      <= Buf.length front ->
    Buf.search needle (front ++ rest')%list pos
    = Buf.search needle (front ++ rest)%list pos.
Proof.
  induction front as [|y front IH]; intros rest rest' pos Hfound Hin.
  - destruct (search_spec needle ([] ++ rest)%list pos) as [E | (Hge & _)];
      [contradiction|].
    assert (Hnil : needle = []).
    { destruct needle; [reflexivity|].
      unfold Buf.length in Hin. cbn [List.length] in Hin. lia. }
    subst needle. destruct rest, rest'; reflexivity.
  - cbn [app] in *. cbn [Buf.search] in *.
    destruct (Buf.starts_with needle (y :: front ++ rest)) eqn:E.
    + rewrite Z.sub_diag in Hin.
      assert (Hs : Buf.starts_with needle (y :: front ++ rest')
                   = Buf.starts_with needle (y :: front ++ rest)).
      { apply (starts_with_in_prefix needle (y :: front) rest' rest).
        unfold Buf.length in Hin. lia. }
      rewrite Hs, E. reflexivity.
    + destruct (search_spec needle (front ++ rest)%list (pos + 1))
        as [E1 | (Hge & _)]; [contradiction|].
      assert (Hs : Buf.starts_with needle (y :: front ++ rest')
                   = Buf.starts_with needle (y :: front ++ rest)).
      { apply (starts_with_in_prefix needle (y :: front) rest' rest).
        unfold Buf.length in *. cbn [List.length] in Hin |- *. lia. }
      rewrite Hs, E. apply IH; [exact Hfound|].
      unfold Buf.length in *. cbn [List.length] in Hin. lia.
Qed.

Lemma indexOf_in_prefix (front rest rest' : Buffer) (value : string) (byteOffset : Z) :
  0 <= byteOffset ->
  Buf.indexOf (front ++ rest)%list value byteOffset <> -1 ->
  Buf.indexOf (front ++ rest)%list value byteOffset + Z.of_nat (String.length value)
    <= Buf.length front ->
  Buf.indexOf (front ++ rest')%list value byteOffset
  = Buf.indexOf (front ++ rest)%list value byteOffset.
Proof.
  intros Hoff Hfound Hin.
  destruct (indexOf_spec (front ++ rest)%list value byteOffset)
    as [E | (_ & _ & _ & Hge)]; [contradiction|].
  specialize (Hge Hoff). revert Hfound Hin Hge. unfold Buf.indexOf.
  destruct (byteOffset <? 0) eqn:E0; [apply Z.ltb_lt in E0; lia|].
  destruct (Buf.length (front ++ rest)%list <? byteOffset) eqn:E1;
    [intros H; contradiction|].
  intros Hfound Hin Hge.
  pose proof (length_nonneg rest') as Hnn.
  destruct (Buf.length (front ++ rest')%list <? byteOffset) eqn:E2.
  { apply Z.ltb_lt in E2. rewrite length_app in E2. lia. }
  assert (Hfront : (Z.to_nat byteOffset <= List.length front)%nat)
    by (unfold Buf.length in *; lia).
  rewrite !skipn_app.
  replace (Z.to_nat byteOffset - List.length front)%nat with 0%nat in * by lia.
  cbn [skipn] in *.
  revert Hfound Hin Hge. rewrite skipn_app.
  replace (Z.to_nat byteOffset - List.length front)%nat with 0%nat by lia.
  cbn [skipn]. intros Hfound Hin Hge.
  apply search_in_prefix; [exact Hfound|].
  rewrite from_length. unfold Buf.length in *. rewrite length_skipn. lia.
Qed.

(** The first occurrence of a byte after a run of other bytes. *)
Lemma indexOf_after_run (front run rest : Buffer) (c : ascii) :
  Forall (fun x => x <> byte_of_ascii c) run ->
  Buf.indexOf (front ++ run ++ byte_of_ascii c :: rest)%list (String c "")
    (Buf.length front)
  = Buf.length front + Buf.length run.
Proof.
  intros Hrun.
  set (b := (front ++ run ++ byte_of_ascii c :: rest)%list).
  pose proof (length_nonneg front) as Hf. pose proof (length_nonneg run) as Hr.
  pose proof (length_nonneg rest) as Hrest.
  assert (Hlen : Buf.length b = Buf.length front + Buf.length run + 1 + Buf.length rest).
  { subst b. rewrite !length_app. unfold Buf.length. cbn [List.length]. lia. }
  assert (Hskip : forall k : nat,
            (k <= List.length run)%nat ->
            skipn (List.length front + k) b
            = (skipn k run ++ byte_of_ascii c :: rest)%list).
  { intros k Hk. subst b. rewrite skipn_app_exact by lia.
    replace (List.length front + k - List.length front)%nat with k by lia.
    rewrite skipn_app. replace (k - List.length run)%nat with 0%nat by lia.
    reflexivity. }
  destruct (indexOf_least b (String c "") (Buf.length front)
              (List.length front + List.length run)) as [H1 H2].
  - unfold Buf.length. lia.
  - unfold Buf.length in *. lia.
  - rewrite Hskip by lia. rewrite skipn_all. cbn [app].
    change (Buf.from (String c "")) with [byte_of_ascii c].
    apply starts_with_byte. reflexivity.
  - destruct (indexOf_spec b (String c "") (Buf.length front))
      as [E | (_ & _ & _ & Hge)]; [contradiction|].
    specialize (Hge Hf).
    set (r := Buf.indexOf b (String c "") (Buf.length front)) in *.
    destruct (Z.eq_dec r (Buf.length front + Buf.length run)) as [|Hne];
      [assumption | exfalso].
    pose proof (indexOf_char b c (Buf.length front) H1) as Hnth. fold r in Hnth.
    rewrite <- nth_error_skipn_0 in Hnth.
    replace (Z.to_nat r)
      with (List.length front + Z.to_nat (r - Buf.length front))%nat in Hnth
      by (unfold Buf.length in *; lia).
    rewrite Hskip in Hnth by (unfold Buf.length in *; lia).
    rewrite nth_error_app1 in Hnth
      by (rewrite length_skipn; unfold Buf.length in *; lia).
    rewrite nth_error_skipn_0 in Hnth.
    rewrite Forall_forall in Hrun.
    apply nth_error_In in Hnth. exact (Hrun _ Hnth eq_refl).
Qed.

Section Field.

Variable this : SignPdf.
Variable pdf : Buffer.

(** The [/Contents] tag ends before the field begins. *)
Lemma contents_tag_before_field :
  contentsTagPos this pdf <> -1 ->
  placeholderPos this pdf <> -1 ->
  0 <= contentsTagPos this pdf
  /\ contentsTagPos this pdf + 10 <= placeholderPos this pdf.
Proof.
  intros Hc Hp.
  assert (Hc0 : 0 <= contentsTagPos this pdf).
  { unfold contentsTagPos in *.
    destruct (indexOf_spec pdf "/Contents " (byteRangeEnd this pdf))
      as [E | (H & _)]; [contradiction | exact H]. }
  split; [exact Hc0|].
  assert (Hcp : contentsTagPos this pdf <= placeholderPos this pdf).
  { unfold placeholderPos in *.
    destruct (indexOf_spec pdf "<" (contentsTagPos this pdf))
      as [E | (_ & _ & _ & H)]; [contradiction | apply H; lia]. }
  destruct (indexOf_found pdf "/Contents " (byteRangeEnd this pdf) Hc) as [rest Hrest].
  fold (contentsTagPos this pdf) in Hrest.
  pose proof (indexOf_char pdf "<" (contentsTagPos this pdf) Hp) as Hlt.
  fold (placeholderPos this pdf) in Hlt.
  destruct (Z_lt_le_dec (placeholderPos this pdf) (contentsTagPos this pdf + 10))
    as [Hin|]; [exfalso | assumption].
  assert (Hnth : nth_error pdf (Z.to_nat (placeholderPos this pdf))
                 = nth_error (Buf.from "/Contents " ++ rest)%list
                     (Z.to_nat (placeholderPos this pdf - contentsTagPos this pdf))).
  { rewrite <- Hrest, nth_error_skipn. f_equal. lia. }
  rewrite Hlt in Hnth.
  remember (Z.to_nat (placeholderPos this pdf - contentsTagPos this pdf)) as j eqn:Hj.
  assert (Hj10 : (j < 10)%nat) by lia.
  do 10 (destruct j as [|j]; [discriminate Hnth|]). lia.
Qed.

End Field.

Section FieldContent.

Variable this : SignPdf.
Variables before after : Buffer.

(** A document with the field right after [before], holding
    [inside]. *)
Let doc (inside : Buffer) : Buffer :=
  (before ++ ("<"%byte :: inside) ++ ">"%byte :: after)%list.

Lemma doc_length inside :
  Buf.length (doc inside)
  = Buf.length before + Buf.length inside + 2 + Buf.length after.
Proof.
  unfold doc. rewrite !length_app. unfold Buf.length. cbn [List.length]. lia.
Qed.

(** The end of the field, for a content without ">". *)
Lemma placeholderEnd_of_doc inside :
  Forall (fun x => x <> ">"%byte) inside ->
  placeholderPos this (doc inside) = Buf.length before ->
  placeholderEnd this (doc inside) = Buf.length before + 1 + Buf.length inside.
Proof.
  intros Hinside Hp. unfold placeholderEnd. rewrite Hp. unfold doc.
  assert (Hrun : Forall (fun x => x <> byte_of_ascii ">") ("<"%byte :: inside)).
  { constructor; [discriminate | exact Hinside]. }
  pose proof (indexOf_after_run before ("<"%byte :: inside) after ">" Hrun) as E.
  change (byte_of_ascii ">") with ">"%byte in E. rewrite E.
  unfold Buf.length. cbn [List.length]. lia.
Qed.

(** What is signed: the document with the byte range written and the
    field cut out. *)
Lemma excised_of_doc content text :
  byteRangePos this (doc content) <> -1 ->
  byteRangeEnd this (doc content) <= Buf.length before ->
  placeholderPos this (doc content) = Buf.length before ->
  placeholderEnd this (doc content) = Buf.length before + 1 + Buf.length content ->
  String.length text = String.length (byteRangeString this) ->
  removePlaceholder this (doc content) (rewriteByteRange this (doc content) text)
  = (firstn (Z.to_nat (byteRangePos this (doc content))) before
     ++ Buf.from text
     ++ skipn (Z.to_nat (byteRangeEnd this (doc content))) before
     ++ after)%list.
Proof.
  intros Hpos Hend Hp He Hw.
  pose proof (length_nonneg before) as Hb. pose proof (length_nonneg content) as Hcn.
  destruct (byteRangePos_found this (doc content) Hpos) as [H0 _].
  assert (Hp' : placeholderPos this (doc content) <> -1) by lia.
  assert (He' : placeholderEnd this (doc content) <> -1) by lia.
  destruct (rewriteByteRange_keeps this (doc content) text Hpos Hw) as (Hsame & _).
  rewrite (removePlaceholder_eq this (doc content) Hp' He' _ Hsame).
  rewrite (rewriteByteRange_eq this (doc content) text Hpos).
  unfold placeholderLengthWithBrackets. rewrite He, Hp.
  assert (Hfin : byteRangeEnd this (doc content)
                 = byteRangePos this (doc content)
                   + Z.of_nat (String.length (byteRangeString this))) by reflexivity.
  set (pos := byteRangePos this (doc content)) in *.
  set (fin := byteRangeEnd this (doc content)) in *.
  set (rest := (("<"%byte :: content) ++ ">"%byte :: after)%list).
  assert (Hdoc : doc content = (before ++ rest)%list) by reflexivity.
  rewrite Hdoc.
  assert (HF : firstn (Z.to_nat pos) (before ++ rest) = firstn (Z.to_nat pos) before).
  { rewrite firstn_app.
    replace (Z.to_nat pos - List.length before)%nat with 0%nat
      by (unfold Buf.length in *; lia).
    cbn [firstn]. apply app_nil_r. }
  assert (HS : skipn (Z.to_nat fin) (before ++ rest)
               = (skipn (Z.to_nat fin) before ++ rest)%list).
  { rewrite skipn_app.
    replace (Z.to_nat fin - List.length before)%nat with 0%nat
      by (unfold Buf.length in *; lia).
    reflexivity. }
  rewrite HF, HS.
  set (F := firstn (Z.to_nat pos) before).
  set (T := Buf.from text).
  set (S := skipn (Z.to_nat fin) before).
  assert (HlF : List.length F = Z.to_nat pos).
  { subst F. rewrite length_firstn. unfold Buf.length in *. lia. }
  assert (HlT : List.length T = Z.to_nat (fin - pos)).
  { subst T. pose proof (from_length text) as H. unfold Buf.length in H. lia. }
  assert (HlS : List.length S = (List.length before - Z.to_nat fin)%nat).
  { subst S. apply length_skipn. }
  assert (Hfront : List.length (F ++ T ++ S)%list = List.length before).
  { rewrite !List.length_app, HlF, HlT, HlS. unfold Buf.length in *. lia. }
  replace (F ++ T ++ S ++ rest)%list with ((F ++ T ++ S) ++ rest)%list
    by (now rewrite <- !app_assoc).
  replace (Z.to_nat (Buf.length before)) with (List.length (F ++ T ++ S)%list + 0)%nat
    by (unfold Buf.length; lia).
  rewrite firstn_app_2. cbn [firstn]. rewrite app_nil_r.
  rewrite skipn_app_exact by (unfold Buf.length in *; lia).
  replace (Z.to_nat (Buf.length before + (Buf.length before + 1 + Buf.length content + 1
                                          - Buf.length before))
           - List.length (F ++ T ++ S)%list)%nat
    with (List.length ("<"%byte :: content) + 1)%nat
    by (unfold Buf.length in *; cbn [List.length]; lia).
  subst rest. rewrite skipn_app_exact by lia.
  replace (List.length ("<"%byte :: content) + 1 - List.length ("<"%byte :: content))%nat
    with 1%nat by lia.
  cbn [skipn]. now rewrite <- !app_assoc.
Qed.

Variables inside inside' : Buffer.

Hypothesis Hsize : List.length inside' = List.length inside.
Hypothesis Hinside : Forall (fun x => x <> ">"%byte) inside.
Hypothesis Hinside' : Forall (fun x => x <> ">"%byte) inside'.
Hypothesis Hpos : byteRangePos this (doc inside) <> -1.
Hypothesis Hc : contentsTagPos this (doc inside) <> -1.
Hypothesis Hp : placeholderPos this (doc inside) = Buf.length before.

Let pdf := doc inside.
Let pdf' := doc inside'.

Lemma field_found : placeholderPos this pdf <> -1.
Proof. subst pdf. rewrite Hp. pose proof (length_nonneg before). lia. Qed.

Lemma byteRangeEnd_before : byteRangeEnd this pdf <= Buf.length before.
Proof.
  destruct (byteRange_before_field this pdf (byteRangeString this) Hpos Hc
              field_found eq_refl) as [_ H].
  subst pdf. now rewrite Hp in H.
Qed.

Lemma byteRangePos_of_doc : byteRangePos this pdf' = byteRangePos this pdf.
Proof.
  unfold byteRangePos, pdf, pdf', doc.
  apply indexOf_in_prefix; [lia | exact Hpos | exact byteRangeEnd_before].
Qed.

Lemma byteRangeEnd_of_doc : byteRangeEnd this pdf' = byteRangeEnd this pdf.
Proof. unfold byteRangeEnd. now rewrite byteRangePos_of_doc. Qed.

Lemma contentsTagPos_of_doc : contentsTagPos this pdf' = contentsTagPos this pdf.
Proof.
  destruct (byteRangePos_found this pdf Hpos) as [H0 _].
  destruct (contents_tag_before_field this pdf Hc field_found) as [_ Hbefore].
  assert (Hend0 : 0 <= byteRangeEnd this pdf) by (unfold byteRangeEnd; lia).
  assert (Hin : contentsTagPos this pdf + Z.of_nat (String.length "/Contents ")
                <= Buf.length before).
  { change (Z.of_nat (String.length "/Contents ")) with 10.
    rewrite <- Hp. exact Hbefore. }
  unfold contentsTagPos at 1. rewrite byteRangeEnd_of_doc.
  exact (indexOf_in_prefix before _ _ "/Contents " _ Hend0 Hc Hin).
Qed.

Lemma doc_front (content : Buffer) :
  doc content = ((before ++ ["<"%byte]) ++ content ++ ">"%byte :: after)%list.
Proof. unfold doc. rewrite <- app_assoc. reflexivity. Qed.

Lemma placeholderPos_of_doc : placeholderPos this pdf' = Buf.length before.
Proof.
  destruct (contents_tag_before_field this pdf Hc field_found) as [Hc0 _].
  pose proof field_found as Hfound.
  assert (Hin : placeholderPos this pdf + Z.of_nat (String.length "<")
                <= Buf.length (before ++ ["<"%byte])%list).
  { subst pdf. rewrite Hp, length_app. cbn. lia. }
  rewrite <- Hp. fold pdf.
  unfold placeholderPos in *. rewrite contentsTagPos_of_doc.
  revert Hc0 Hfound Hin. unfold pdf, pdf'. rewrite !doc_front.
  intros Hc0 Hfound Hin.
  exact (indexOf_in_prefix _ _ _ "<" _ Hc0 Hfound Hin).
Qed.

Lemma placeholderLengthWithBrackets_of_doc :
  placeholderLengthWithBrackets this pdf' = placeholderLengthWithBrackets this pdf.
Proof.
  pose proof (placeholderEnd_of_doc inside' Hinside' placeholderPos_of_doc) as He'.
  pose proof (placeholderEnd_of_doc inside Hinside Hp) as He.
  pose proof placeholderPos_of_doc as Hp'.
  pose proof Hp as Hp1.
  fold pdf in He, Hp1. fold pdf' in He', Hp'.
  unfold placeholderLengthWithBrackets. rewrite He', He, Hp', Hp1.
  unfold Buf.length. lia.
Qed.

Lemma byteRange_of_doc : byteRange this pdf' = byteRange this pdf.
Proof.
  pose proof placeholderPos_of_doc as Hp'.
  pose proof Hp as Hp1.
  pose proof (doc_length inside) as Hlen.
  pose proof (doc_length inside') as Hlen'.
  fold pdf in Hp1, Hlen. fold pdf' in Hp', Hlen'.
  unfold byteRange.
  rewrite placeholderLengthWithBrackets_of_doc, Hp', Hp1, Hlen, Hlen'.
  unfold Buf.length. rewrite Hsize. reflexivity.
Qed.

Lemma paddedByteRange_of_doc : paddedByteRange this pdf' = paddedByteRange this pdf.
Proof. unfold paddedByteRange, actualByteRange. now rewrite byteRange_of_doc. Qed.

Lemma placeholderLength_of_doc :
  placeholderLength this pdf' = placeholderLength this pdf.
Proof. unfold placeholderLength. now rewrite placeholderLengthWithBrackets_of_doc. Qed.

Context {forge : Toolkit}.

(** The whole run is the same on the two documents. *)
Lemma sign_staged_of_doc now p12Buffer o :
  sign_staged now pdf' p12Buffer o this = sign_staged now pdf p12Buffer o this.
Proof.
  pose proof (placeholderEnd_of_doc inside' Hinside' placeholderPos_of_doc) as He'.
  pose proof (placeholderEnd_of_doc inside Hinside Hp) as He.
  pose proof placeholderPos_of_doc as Hp'.
  pose proof byteRangeEnd_before as Hend.
  pose proof Hpos as Hpos1. pose proof Hp as Hp1.
  fold pdf in He, Hp1, Hpos1. fold pdf' in He', Hp'.
  unfold sign_staged.
  rewrite byteRangePos_of_doc, paddedByteRange_of_doc, placeholderLength_of_doc.
  destruct (byteRangePos this pdf =? -1); [reflexivity|].
  destruct (paddedByteRange this pdf) as [text|] eqn:Etext; [|reflexivity].
  destruct (paddedByteRange_length this pdf text Etext) as [Hw _].
  assert (Hexcised :
            removePlaceholder this pdf' (rewriteByteRange this pdf' text)
            = removePlaceholder this pdf (rewriteByteRange this pdf text)).
  { unfold pdf, pdf'.
    rewrite (excised_of_doc inside text Hpos1 Hend Hp1 He Hw).
    rewrite (excised_of_doc inside' text).
    - fold pdf pdf'. now rewrite byteRangePos_of_doc, byteRangeEnd_of_doc.
    - fold pdf'. rewrite byteRangePos_of_doc. exact Hpos1.
    - fold pdf'. rewrite byteRangeEnd_of_doc. exact Hend.
    - exact Hp'.
    - exact He'.
    - exact Hw. }
  rewrite Hexcised.
  destruct (buildSignature _ _ _ _) as [raw|]; [|reflexivity].
  unfold signatureTooLong, paddedSignature, placeSignature.
  rewrite placeholderLength_of_doc, byteRange_of_doc. reflexivity.
Qed.

End FieldContent.

(** X15. What the placeholder holds between its brackets has no
    influence on [sign]: two documents that differ only there -- the
    same number of bytes, none of them ">" -- give the same result, be
    it the signed buffer, the stored signature or an error. The field
    is the one [sign] finds in the first document. *)
Theorem placeholder_content_is_irrelevant {forge : Toolkit}
    (removeTrailingNewLine : Buffer -> Buffer)
    (now : Z) (pdfBuffer pdfBuffer' p12Buffer : Buffer) (o : Options) (this : SignPdf)
    (before inside inside' after : Buffer) :
  let pdf := removeTrailingNewLine pdfBuffer in
  pdf = (before ++ ("<"%byte :: inside) ++ ">"%byte :: after)%list ->
  removeTrailingNewLine pdfBuffer'
  = (before ++ ("<"%byte :: inside') ++ ">"%byte :: after)%list ->
  List.length inside' = List.length inside ->
  Forall (fun x => x <> ">"%byte) inside ->
  Forall (fun x => x <> ">"%byte) inside' ->
  byteRangePos this pdf <> -1 ->
  contentsTagPos this pdf <> -1 ->
  placeholderPos this pdf = Buf.length before ->
  sign removeTrailingNewLine now (VBuffer pdfBuffer') (VBuffer p12Buffer) o this
  = sign removeTrailingNewLine now (VBuffer pdfBuffer) (VBuffer p12Buffer) o this.
Proof.
  intros pdf Hdoc Hdoc' Hsize Hin Hin' Hpos Hc Hp.
  rewrite !sign_stages, Hdoc'. fold pdf. rewrite Hdoc in *.
  now apply sign_staged_of_doc.
Qed.
(* ================================================================= *)
(** ** The signed buffer against the document *)

(** X16. When [sign] returns and line 61 had found the "<" of the
    field ([placeholderPos] is not -1), the signed buffer is as long as
    the buffer that [sign] worked on if the placeholder has an even
    number of characters between its brackets, and one byte shorter if
    that number is odd. *)
Theorem sign_output_length {forge : Toolkit}
    (removeTrailingNewLine : Buffer -> Buffer)
    (now : Z) (pdfBuffer p12Buffer : Buffer) (o : Options) (this this' : SignPdf)
    (out : Buffer) :
  let pdf := removeTrailingNewLine pdfBuffer in
  sign removeTrailingNewLine now (VBuffer pdfBuffer) (VBuffer p12Buffer) o this
  = (Return out, this') ->
  placeholderPos this pdf <> -1 ->
  Buf.length out = Buf.length pdf - placeholderLength this pdf mod 2.
Proof.
  intros pdf Hsign Hp.
  rewrite sign_stages in Hsign. fold pdf in Hsign.
  destruct (sign_staged_Return _ _ _ _ _ _ _ Hsign)
    as (Hpos & text & raw & payload & Htext & Hraw & Hfit & Hpay & Hout & _).
  assert (He : placeholderEnd this pdf <> -1).
  { destruct (placeholderPos_range this pdf) as [|Hr]; [contradiction|].
    unfold placeholderLength, placeholderLengthWithBrackets in Hfit. lia. }
  destruct (paddedByteRange_length this pdf text Htext) as [Hw _].
  destruct (rewriteByteRange_keeps this pdf text Hpos Hw) as (Hsame & _).
  pose proof (paddedSignature_length this pdf raw payload Hfit Hpay) as Hsize.
  rewrite Hout, (placeSignature_length this pdf Hp He _ Hsame), Hsize.
  unfold placeholderLength.
  pose proof (Z.div_mod (placeholderLengthWithBrackets this pdf - 2) 2 ltac:(lia)).
  lia.
Qed.

(** The decimal form of a natural number starts with a digit. *)
Lemma digits_head (fuel : nat) :
  forall (n : Z) (acc : string),
    0 <= n ->
    exists d s, 0 <= d < 10 /\ JS.digits fuel n acc = String (JS.digit d) s.
Proof.
  induction fuel as [|fuel IH]; intros n acc Hn; cbn [JS.digits].
  - exists (n mod 10), acc. split; [apply Z.mod_pos_bound; lia | reflexivity].
  - destruct (n <? 10) eqn:E.
    + apply Z.ltb_lt in E. exists n, acc. split; [lia | reflexivity].
    + apply IH. apply Z.div_pos; lia.
Qed.

Lemma toString_head (n : Z) :
  0 <= n -> exists d s, 0 <= d < 10 /\ JS.toString n = String (JS.digit d) s.
Proof.
  intros Hn. unfold JS.toString.
  destruct (n <? 0) eqn:E; [apply Z.ltb_lt in E; lia|].
  now apply digits_head.
Qed.

Lemma digit_not_slash (d : Z) :
  0 <= d < 10 -> Buf.byte_eqb "/"%byte (byte_of_ascii (JS.digit d)) = false.
Proof.
  intros Hd.
  assert (H : d = 0 \/ d = 1 \/ d = 2 \/ d = 3 \/ d = 4 \/ d = 5 \/ d = 6 \/ d = 7
              \/ d = 8 \/ d = 9) by lia.
  repeat (destruct H as [-> | H]; [reflexivity|]). subst d. reflexivity.
Qed.

(** The byte range that [sign] writes is never the placeholder it
    replaces: after "/ByteRange [0 " the one has a digit and the other
    a slash. *)
Lemma paddedByteRange_not_placeholder (this : SignPdf) (pdf : Buffer) (text : string)
    (rest : Buffer) :
  0 <= placeholderPos this pdf ->
  paddedByteRange this pdf = Return text ->
  Buf.starts_with (Buf.from (byteRangeString this)) (Buf.from text ++ rest)%list = false.
Proof.
  intros Hp Htext.
  destruct (paddedByteRange_length this pdf text Htext) as [_ (padding & ->)].
  destruct (toString_head (placeholderPos this pdf) Hp) as (d & s & Hd & Hs).
  unfold actualByteRange, byteRangeString, byteRange.
  cbn [map]. rewrite !join4, Hs.
  change (JS.toString 0) with "0".
  cbn [String.append Buf.from list_byte_of_string list_ascii_of_string List.map
         app Buf.starts_with].
  pose proof (digit_not_slash d Hd) as Hno.
  change ("/"%byte) with (byte_of_ascii "/") in Hno.
  rewrite Hno. reflexivity.
Qed.

(** X17. When [sign] returns and had located the field (the searches
    of lines 60 and 61 did not answer -1), it has used up the field it
    signed: where it found the byte range placeholder, the signed
    buffer holds the actual byte range, which is never equal to the
    placeholder. A second [sign] of the signed buffer therefore does
    not find its placeholder at the same position. *)
Theorem sign_consumes_the_placeholder {forge : Toolkit}
    (removeTrailingNewLine : Buffer -> Buffer)
    (now : Z) (pdfBuffer p12Buffer : Buffer) (o : Options) (this this' : SignPdf)
    (out : Buffer) :
  let pdf := removeTrailingNewLine pdfBuffer in
  sign removeTrailingNewLine now (VBuffer pdfBuffer) (VBuffer p12Buffer) o this
  = (Return out, this') ->
  contentsTagPos this pdf <> -1 ->
  placeholderPos this pdf <> -1 ->
  Buf.starts_with (Buf.from (byteRangeString this))
    (skipn (Z.to_nat (byteRangePos this pdf)) pdf) = true
  /\ Buf.starts_with (Buf.from (byteRangeString this))
       (skipn (Z.to_nat (byteRangePos this pdf)) out) = false
  /\ Z.eqb (byteRangePos this out) (byteRangePos this pdf) = false.
Proof.
  intros pdf Hsign Hc Hp.
  rewrite sign_stages in Hsign. fold pdf in Hsign.
  destruct (sign_staged_Return _ _ _ _ _ _ _ Hsign)
    as (Hpos & text & raw & payload & Htext & Hraw & Hfit & Hpay & Hout & _).
  assert (He : placeholderEnd this pdf <> -1).
  { destruct (placeholderPos_range this pdf) as [|Hr]; [contradiction|].
    unfold placeholderLength, placeholderLengthWithBrackets in Hfit. lia. }
  destruct (paddedByteRange_length this pdf text Htext) as [Hw _].
  destruct (rewriteByteRange_keeps this pdf text Hpos Hw) as (Hsame & _).
  destruct (byteRange_before_field this pdf text Hpos Hc Hp Hw) as [H0 Hbefore].
  destruct (field_inside this pdf Hp He) as (Hp0 & HW & Hin).
  assert (Hfound : Buf.starts_with (Buf.from (byteRangeString this))
                     (skipn (Z.to_nat (byteRangePos this pdf)) pdf) = true).
  { destruct (indexOf_spec pdf (byteRangeString this) 0) as [H | (_ & _ & H & _)].
    - contradiction.
    - exact H. }
  assert (Hgone : Buf.starts_with (Buf.from (byteRangeString this))
                    (skipn (Z.to_nat (byteRangePos this pdf)) out) = false).
  { rewrite Hout, (placeSignature_eq this pdf Hp He _ Hsame).
    rewrite (rewriteByteRange_eq this pdf text Hpos).
    assert (Hend : byteRangeEnd this pdf
                   = byteRangePos this pdf
                     + Z.of_nat (String.length (byteRangeString this)))
      by reflexivity.
    set (pos := byteRangePos this pdf) in *.
    set (fin := byteRangeEnd this pdf) in *.
    set (p := placeholderPos this pdf) in *.
    set (W := placeholderLengthWithBrackets this pdf) in *.
    assert (HA : List.length (firstn (Z.to_nat pos) pdf) = Z.to_nat pos).
    { rewrite length_firstn. unfold Buf.length in *. lia. }
    assert (HT : List.length (Buf.from text) = Z.to_nat (fin - pos)).
    { pose proof (from_length text) as Hf. unfold Buf.length in Hf. lia. }
    rewrite !firstn_app_exact by (rewrite ?HA, ?HT; lia).
    rewrite <- !app_assoc.
    rewrite skipn_app_exact by (rewrite HA; lia).
    rewrite HA, Nat.sub_diag. cbn [skipn].
    apply (paddedByteRange_not_placeholder this pdf text); [exact Hp0 | exact Htext]. }
  split; [exact Hfound|]. split; [exact Hgone|].
  apply Z.eqb_neq. intros Heq.
  destruct (indexOf_spec out (byteRangeString this) 0) as [H | (_ & _ & H & _)].
  - unfold byteRangePos in Heq, Hpos. congruence.
  - unfold byteRangePos in Heq at 1. rewrite Heq in H. congruence.
Qed.
(* ================================================================= *)
(** ** The properties on the sample documents *)

Lemma sign_targets_the_first_field_witness :
  let pdf := Samples.trim MoreSamples.document_two_fields in
  Buf.indexOf pdf "/Contents " 0 = 32
  /\ byteRangePos constructor pdf = 81
  /\ byteRangeEnd constructor pdf <= contentsTagPos constructor pdf
  /\ contentsTagPos constructor pdf + 10 <= placeholderPos constructor pdf
  /\ placeholderPos constructor pdf < placeholderEnd constructor pdf.
Proof.
  intros pdf.
  assert (Hpos : byteRangePos constructor pdf <> -1) by (vm_compute; discriminate).
  assert (Hc : contentsTagPos constructor pdf <> -1) by (vm_compute; discriminate).
  assert (Hp : placeholderPos constructor pdf <> -1) by (vm_compute; discriminate).
  assert (He : placeholderEnd constructor pdf <> -1) by (vm_compute; discriminate).
  destruct (sign_targets_the_first_field constructor pdf Hpos Hc Hp He)
    as (_ & H1 & _ & H2 & _ & H3 & _).
  split; [vm_compute; reflexivity|].
  split; [vm_compute; reflexivity|].
  split; [exact H1|]. split; [exact H2 | exact H3].
Defined.

Lemma sign_output_layout_witness :
  let pdf := Samples.trim (Samples.document 20) in
  exists text payload,
    text = "/ByteRange [0 147 169 16]                         "
    /\ payload = "6b4154a33d53cf6b0000"
    /\ Samples.signed
       = Buf.concat [
             Buf.slice pdf 0 86;
             Buf.from text;
             Buf.slice pdf 136 147;
             Buf.from ("<" ++ payload ++ ">");
             Buf.slice_from pdf 169 ].
Proof.
  intros pdf.
  evaluated (@sign Toy.toolkit Samples.trim Samples.now (VBuffer (Samples.document 20))
               (VBuffer Samples.p12) no_options constructor) Hsign.
  assert (Hc : contentsTagPos constructor pdf <> -1) by (vm_compute; discriminate).
  assert (Hp : placeholderPos constructor pdf <> -1) by (vm_compute; discriminate).
  destruct (sign_output_layout Samples.trim Samples.now (Samples.document 20) Samples.p12
              no_options constructor _ _ Hsign Hc Hp)
    as (text & payload & _ & _ & _ & _).
  eexists _, _. split; [reflexivity|]. split; [reflexivity|].
  vm_compute. reflexivity.
Defined.

Lemma written_field_is_delimited_witness :
  let pdf := Samples.trim (Samples.document 20) in
  placeholderPos constructor pdf = 147
  /\ exists payload,
       Buf.slice Samples.signed 147 (147 + Z.of_nat (String.length payload) + 2)
       = Buf.from ("<" ++ payload ++ ">")
       /\ Buf.indexOf Samples.signed ">" 147
          = 147 + Z.of_nat (String.length payload) + 1.
Proof.
  intros pdf.
  evaluated (@sign Toy.toolkit Samples.trim Samples.now (VBuffer (Samples.document 20))
               (VBuffer Samples.p12) no_options constructor) Hsign.
  assert (Hp : placeholderPos constructor pdf <> -1) by (vm_compute; discriminate).
  split; [vm_compute; reflexivity|].
  destruct (written_field_is_delimited Samples.trim Samples.now (Samples.document 20) Samples.p12
              no_options constructor _ _ Hsign Hp)
    as (payload & _ & _ & _ & _).
  exists "6b4154a33d53cf6b0000". split; vm_compute; reflexivity.
Defined.

Lemma placeholder_content_is_irrelevant_witness :
  @sign Toy.toolkit Samples.trim Samples.now
    (VBuffer (MoreSamples.document_with "to be signed here.. "))
    (VBuffer Samples.p12) no_options constructor
  = @sign Toy.toolkit Samples.trim Samples.now (VBuffer (Samples.document 20))
      (VBuffer Samples.p12) no_options constructor.
Proof.
  pose (pdf := Samples.trim (Samples.document 20)).
  refine (@placeholder_content_is_irrelevant Toy.toolkit Samples.trim Samples.now
            (Samples.document 20) (MoreSamples.document_with "to be signed here.. ")
            Samples.p12 no_options constructor
            (firstn 147 pdf) (Buf.from (JS.repeat_nat "0" 20))
            (Buf.from "to be signed here.. ") (skipn 169 pdf)
            _ _ _ _ _ _ _ _).
  - vm_compute. reflexivity.
  - vm_compute. reflexivity.
  - reflexivity.
  - vm_compute. repeat (constructor; [discriminate|]). constructor.
  - vm_compute. repeat (constructor; [discriminate|]). constructor.
  - vm_compute. discriminate.
  - vm_compute. discriminate.
  - vm_compute. reflexivity.
Defined.

Lemma sign_output_length_witness :
  exists out,
    fst (@sign Toy.toolkit Samples.trim Samples.now (VBuffer (Samples.document 21))
           (VBuffer Samples.p12) no_options constructor) = Return out
    /\ Buf.length (Samples.trim (Samples.document 21)) = 186
    /\ Buf.length out = 185.
Proof.
  pose (pdf := Samples.trim (Samples.document 21)).
  evaluated (@sign Toy.toolkit Samples.trim Samples.now (VBuffer (Samples.document 21))
               (VBuffer Samples.p12) no_options constructor) Hsign.
  assert (Hp : placeholderPos constructor pdf <> -1) by (vm_compute; discriminate).
  pose proof (sign_output_length Samples.trim Samples.now (Samples.document 21) Samples.p12
                no_options constructor _ _ Hsign Hp) as Hlen.
  eexists. split; [rewrite Hsign; reflexivity|].
  split; [vm_compute; reflexivity|].
  rewrite Hlen. vm_compute. reflexivity.
Defined.

Lemma sign_consumes_the_placeholder_witness :
  let pdf := Samples.trim MoreSamples.document_two_fields in
  exists out,
    fst (@sign Toy.toolkit Samples.trim Samples.now (VBuffer MoreSamples.document_two_fields)
           (VBuffer Samples.p12) no_options constructor) = Return out
    /\ byteRangePos constructor pdf = 81
    /\ byteRangePos constructor out = 197
    /\ Buf.starts_with (Buf.from (byteRangeString constructor))
         (skipn 81 out) = false.
Proof.
  intros pdf.
  evaluated (@sign Toy.toolkit Samples.trim Samples.now (VBuffer MoreSamples.document_two_fields)
               (VBuffer Samples.p12) no_options constructor) Hsign.
  assert (Hc : contentsTagPos constructor pdf <> -1) by (vm_compute; discriminate).
  assert (Hp : placeholderPos constructor pdf <> -1) by (vm_compute; discriminate).
  destruct (sign_consumes_the_placeholder Samples.trim Samples.now MoreSamples.document_two_fields
              Samples.p12 no_options constructor _ _ Hsign Hc Hp)
    as (_ & Hgone & _).
  eexists. split; [rewrite Hsign; reflexivity|].
  split; [vm_compute; reflexivity|].
  split; [vm_compute; reflexivity|].
  exact Hgone.
Defined.
